(** * terraform-provider-legocharm: client and reconcilers

    A shallow embedding of [internal/legocharmclient] (the HTTP client
    wrapper) and of the two reconcilers of [internal/provider]
    ([user_resource.go], [user_domain_access_resource.go]).

    The remote service is a deterministic function of the requests it has
    received so far; every [Client.Do] appends the request to that history,
    so that theorems can speak about which calls were issued and in which
    order.  Functions of the Go standard library that the client calls
    ([net/url], [net/http], [encoding/json], [os], [time], [strconv],
    [encoding/base64]) are the fields of the classes [GoStdlib], [Codec] and
    [Remote]. *)

From Stdlib Require Import ZArith String Ascii List Lia DecimalString.
From stdpp Require Import base strings gmap list.

Local Open Scope Z_scope.

(** ** Package [strings] *)

Module strings.

(** [strings.HasPrefix]. *)
Definition HasPrefix (s pre : string) : bool := String.prefix pre s.

(** [strings.HasSuffix]: [suf] is [s] itself or a suffix of its tail. *)
Fixpoint HasSuffix (s suf : string) : bool :=
  String.eqb s suf
  || match s with
     | EmptyString => false
     | String _ rest => HasSuffix rest suf
     end.

(** Membership of a byte in a cutset. *)
Fixpoint in_cutset (a : ascii) (cutset : string) : bool :=
  match cutset with
  | EmptyString => false
  | String b rest => if Ascii.eqb a b then true else in_cutset a rest
  end.

(** [strings.TrimLeft]: drops every leading byte that is in [cutset]. *)
Fixpoint TrimLeft (s cutset : string) : string :=
  match s with
  | EmptyString => EmptyString
  | String a rest => if in_cutset a cutset then TrimLeft rest cutset else s
  end.

(** [strings.TrimRight]: drops every trailing byte that is in [cutset]. *)
Fixpoint TrimRight (s cutset : string) : string :=
  match s with
  | EmptyString => EmptyString
  | String a rest =>
      match TrimRight rest cutset with
      | EmptyString => if in_cutset a cutset then EmptyString
                       else String a EmptyString
      | r => String a r
      end
  end.

(** [strings.TrimSuffix]: drops one occurrence of [suf] at the end. *)
Definition TrimSuffix (s suf : string) : string :=
  if HasSuffix s suf
  then String.substring 0 (String.length s - String.length suf)%nat s
  else s.

(** The scan of [strings.Split] for a non-empty separator: [skip] counts
    the bytes of a separator that was just matched and are still to be
    passed over, [cur] holds the bytes of the current part, reversed. *)
Fixpoint Split_scan (sep : string) (skip : nat) (cur : string) (s : string)
  : list string :=
  match s with
  | EmptyString => [String.rev cur]
  | String a rest =>
      match skip with
      | S k => Split_scan sep k cur rest
      | O =>
          if String.prefix sep s
          then String.rev cur
               :: Split_scan sep (String.length sep - 1)%nat EmptyString rest
          else Split_scan sep O (String a cur) rest
      end
  end.

(** [strings.Split]: all the substrings of [s] separated by [sep]; with
    an empty separator, the characters of an ASCII [s] one by one. *)
Definition Split (s sep : string) : list string :=
  match sep with
  | EmptyString =>
      List.map (fun a => String a EmptyString) (list_ascii_of_string s)
  | _ => Split_scan sep O EmptyString s
  end.

(** Number of occurrences of a byte. *)
Fixpoint count_byte (a : ascii) (s : string) : nat :=
  match s with
  | EmptyString => O
  | String b rest => ((if Ascii.eqb a b then 1 else 0) + count_byte a rest)%nat
  end.

End strings.

(** ** Errors

    Go errors are compared by identity.  The only error the program ever
    compares against is the package sentinel [ErrNotFound]; it is a
    constructor of its own, distinct from every error made elsewhere. *)

Inductive fmt_arg : Type :=
| arg_s (s : string)       (* operand of %s *)
| arg_q (s : string)       (* operand of %q *)
| arg_d (n : Z).           (* operand of %d *)

Inductive error : Type :=
| ErrNotFound                                   (* var ErrNotFound = errors.New("not found") *)
| errors_New (text : string)                    (* errors.New(text) *)
| lib_error (text : string)                     (* an error of the Go standard library: not ErrNotFound *)
| fmt_Errorf (format : string) (args : list fmt_arg)              (* no %w operand *)
| fmt_Errorf_w (format : string) (args : list fmt_arg) (w : error). (* one %w operand [w] *)

(** [err == ErrNotFound]. *)
Definition eq_ErrNotFound (err : error) : bool :=
  match err with ErrNotFound => true | _ => false end.

(** [errors.Is(err, ErrNotFound)]: follows the chain of [Unwrap]. *)
Fixpoint errors_Is_ErrNotFound (err : error) : bool :=
  match err with
  | ErrNotFound => true
  | fmt_Errorf_w _ _ w => errors_Is_ErrNotFound w
  | _ => false
  end.

#[global] Instance fmt_arg_eq_dec : EqDecision fmt_arg.
Proof. solve_decision. Defined.

#[global] Instance error_eq_dec : EqDecision error.
Proof. solve_decision. Defined.

(** [(T, error)] results: [inl] carries the error, [inr] the value. *)
Abbreviation result := (sum error).

(** ** HTTP data *)

(** A parsed [url.URL]: the parts that [url.Parse] separates in the text
    of a URL (user information and the raw forms of path and fragment are
    left out). *)
Record url_URL : Type := mk_url_URL {
  Scheme : string;
  Opaque_ : string;
  Host : string;
  Path : string;
  OmitHost : bool;
  ForceQuery : bool;
  RawQuery : string;
  Fragment : string;
}.

#[global] Instance url_URL_eq_dec : EqDecision url_URL.
Proof. solve_decision. Defined.

(** An [http.Request]: its [URL] is a parsed [url.URL], not a text. *)
Record Request : Type := mkRequest {
  Method : string;
  URL : url_URL;
  Header : gmap string string;
  ReqBody : option string;
}.

Record Response : Type := mkResponse {
  StatusCode : Z;
  (** what [io.ReadAll(resp.Body)] gives: the bytes, or an error text *)
  Body : sum string string;
}.

Record http_Client : Type := mk_http_Client {
  Timeout : Z;   (* a time.Duration, in nanoseconds *)
}.

(** [IsAbs] of a parsed [url.URL]. *)
Definition IsAbs (u : url_URL) : bool := negb (String.eqb (Scheme u) "").

Definition StatusUnauthorized : Z := 401.
Definition StatusForbidden : Z := 403.
Definition StatusNotFound : Z := 404.

(** [time.Second], in nanoseconds, and the wrap-around of an [int64]. *)
Definition Second : Z := 1000000000.
Definition wrap64 (n : Z) : Z := (n + 2 ^ 63) mod 2 ^ 64 - 2 ^ 63.

(** Functions of the Go standard library used by the client. *)
Class GoStdlib : Type := {
  url_Parse : string -> sum string url_URL;
  url_QueryEscape : string -> string;
  url_PathEscape : string -> string;
  (** [u.String()]: the text of a parsed URL. *)
  url_String : url_URL -> string;
  (** [validMethod] and [removeEmptyPort] of [net/http]: the methods that
      [http.NewRequest] accepts, and a host without a trailing colon. *)
  http_validMethod : string -> bool;
  http_removeEmptyPort : string -> string;
  base64_EncodeToString : string -> string;
  os_Getenv : string -> string;
  time_ParseDuration : string -> sum string Z;
  strconv_Atoi : string -> sum string Z;
}.

(** ** The client *)

Record Client : Type := mkClient {
  BaseURL : string;
  Username : string;
  Password : string;
  HTTPClient : http_Client;
}.

Section client_construction.
Context {stdlib : GoStdlib}.

(** [err != nil || !parsed.IsAbs()] on the result of [url.Parse]. *)
Definition parse_failed (r : sum string url_URL) : bool :=
  match r with
  | inl _ => true
  | inr parsed => negb (IsAbs parsed)
  end.

(** The error of [fmt.Errorf(format, s, err)] where [err] is the error of
    the last [url.Parse], possibly nil. *)
Definition Errorf_parse (format s : string) (r : sum string url_URL) : error :=
  match r with
  | inl text => fmt_Errorf_w format [arg_q s] (lib_error text)
  | inr _ => fmt_Errorf format [arg_q s]
  end.

(** The timeout of [NewClient], from [LEGOCHARM_API_TIMEOUT]. *)
Definition client_timeout : result Z :=
  let v := os_Getenv "LEGOCHARM_API_TIMEOUT" in
  if String.eqb v "" then inr (120 * Second)
  else match time_ParseDuration v with
       | inr d => inr d
       | inl text =>
           match strconv_Atoi v with
           | inr s => inr (wrap64 (s * Second))
           | inl _ =>
               inl (fmt_Errorf_w "invalid LEGOCHARM_API_TIMEOUT %q: %w"
                      [arg_q v] (lib_error text))
           end
       end.

(** [NewClient].  The arguments are pointers: [None] is nil. *)
Definition NewClient (address username password : option string)
  : result Client :=
  match address with
  | None | Some EmptyString => inl (errors_New "address is required")
  | Some addr =>
  match username with
  | None | Some EmptyString => inl (errors_New "username is required")
  | Some user =>
  match password with
  | None | Some EmptyString => inl (errors_New "password is required")
  | Some pass =>
      let u := addr in
      let r := url_Parse u in
      let checked : result string :=
        if parse_failed r then
          let '(u, r) :=
            if negb (strings.HasPrefix u "http://")
               && negb (strings.HasPrefix u "https://")
            then ("https://" +:+ u, url_Parse ("https://" +:+ u))
            else (u, r) in
          if parse_failed r
          then inl (Errorf_parse "invalid address %q: %w" addr r)
          else inr u
        else inr u in
      match checked with
      | inl err => inl err
      | inr u =>
          match client_timeout with
          | inl err => inl err
          | inr timeout =>
              inr {| BaseURL := strings.TrimRight u "/";
                     Username := user;
                     Password := pass;
                     HTTPClient := {| Timeout := timeout |} |}
          end
      end
  end end end.

(** [SetBasicAuth] of an [http.Request]. *)
Definition SetBasicAuth (req : Request) (username password : string) : Request :=
  {| Method := Method req; URL := URL req;
     Header := <["Authorization" :=
                  "Basic " +:+ base64_EncodeToString (username +:+ ":" +:+ password)]>
                 (Header req);
     ReqBody := ReqBody req |}.

(** [req.Header.Set(key, value)], for a key in canonical form. *)
Definition Header_Set (req : Request) (key value : string) : Request :=
  {| Method := Method req; URL := URL req;
     Header := <[key := value]> (Header req);
     ReqBody := ReqBody req |}.

(** [req.Header.Get(key)]: the empty string when the key is absent. *)
Definition Header_Get (req : Request) (key : string) : string :=
  default EmptyString (Header req !! key).

(** [u.Host = removeEmptyPort(u.Host)] in [http.NewRequest]. *)
Definition removeEmptyPort (u : url_URL) : url_URL :=
  {| Scheme := Scheme u; Opaque_ := Opaque_ u;
     Host := http_removeEmptyPort (Host u);
     Path := Path u; OmitHost := OmitHost u; ForceQuery := ForceQuery u;
     RawQuery := RawQuery u; Fragment := Fragment u |}.

(** The URL of the request that [http.NewRequest] builds for the text
    [url], when [url.Parse] accepts that text. *)
Definition request_url (url : string) : option url_URL :=
  match url_Parse url with
  | inl _ => None
  | inr u => Some (removeEmptyPort u)
  end.

(** [http.NewRequest]: the empty method stands for GET; a method that is
    not valid, or a URL text that [url.Parse] refuses, gives an error;
    otherwise the request has the parsed URL and no header. *)
Definition http_NewRequest (method url : string) (body : option string)
  : result Request :=
  let method := if String.eqb method "" then "GET" else method in
  if negb (http_validMethod method)
  then inl (fmt_Errorf "net/http: invalid method %q" [arg_q method])
  else match url_Parse url with
       | inl text => inl (lib_error text)
       | inr u =>
           inr {| Method := method; URL := removeEmptyPort u;
                  Header := ∅; ReqBody := body |}
       end.

(** [Client.NewRequest], on a client that is not nil. *)
Definition NewRequest (c : Client) (method path : string) (body : option string)
  : result Request :=
  let rel := strings.TrimLeft path "/" in
  let full := BaseURL c +:+ "/" +:+ rel in
  match http_NewRequest method full body with
  | inl err => inl err
  | inr req =>
      let req := SetBasicAuth req (Username c) (Password c) in
      let req := Header_Set req "User-Agent" "terraform-provider-legocharm" in
      let req :=
        if bool_decide (body ≠ None)
           && String.eqb (Header_Get req "Content-Type") ""
        then Header_Set req "Content-Type" "application/json"
        else req in
      inr req
  end.

End client_construction.

(** ** Data exchanged with the service *)

Module UserData.
Record t : Type := mk {
  Username : string; Url : string; Email : string; Groups : list string }.
End UserData.

Module UserCreateData.
Record t : Type := mk {
  Username : string; Password : string; Email : string; Groups : list string }.
End UserCreateData.

(** The input of [CreateDomainAccess]: [Domain] is an FQDN. *)
Module DomainUserPermissionCreateData.
Record t : Type := mk { UserID : string; Domain : string; AccessLevel : string }.
End DomainUserPermissionCreateData.

(** The payload that is POSTed: [Domain] is the ID of the domain. *)
Module DomainUserPermissionCreatePayloadData.
Record t : Type := mk { UserID : string; Domain : Z; AccessLevel : string }.
End DomainUserPermissionCreatePayloadData.

Module DomainUserPermissionData.
Record t : Type := mk { UserID : Z; Domain : Z; AccessLevel : string; ID : Z }.
End DomainUserPermissionData.

Module DomainData.
Record t : Type := mk { Fqdn : string; ID : Z }.
End DomainData.

(** [json.Unmarshal(body, &v)] into a fresh [v] of type [T]: the decoded
    value, or the text of the error. *)
Class json_Unmarshal (T : Type) : Type := Unmarshal : string -> sum string T.

(** [json.Marshal(v)]: the bytes, or the text of the error. *)
Class json_Marshal (T : Type) : Type := Marshal : T -> sum string string.

Class Codec : Type := {
  dec_user :: json_Unmarshal UserData.t;
  dec_users :: json_Unmarshal (list UserData.t);
  dec_domain :: json_Unmarshal DomainData.t;
  dec_domains :: json_Unmarshal (list DomainData.t);
  dec_access :: json_Unmarshal DomainUserPermissionData.t;
  dec_accesses :: json_Unmarshal (list DomainUserPermissionData.t);
  enc_user :: json_Marshal UserCreateData.t;
  enc_domain :: json_Marshal DomainData.t;
  enc_payload :: json_Marshal DomainUserPermissionCreatePayloadData.t;
}.

(** The remote service behind [http.Client.Do]: given the client's settings
    and the requests received so far, the response to the next request, or
    the text of a transport error. *)
Class Remote : Type := {
  RoundTrip : http_Client -> list Request -> Request -> sum string Response;
}.

(** ** Calls that talk to the service

    A computation takes the history of requests and returns a result and the
    extended history. *)

Definition IO (A : Type) : Type := list Request -> result A * list Request.

#[global] Instance IO_ret : MRet IO := fun A (x : A) h => (inr x, h).

Definition fail {A} (err : error) : IO A := fun h => (inl err, h).

(** Sequencing stops at the first error, as [if err != nil { return }]. *)
#[global] Instance IO_bind : MBind IO := fun A B (k : A -> IO B) (m : IO A) h =>
  match m h with
  | (inl err, h') => (inl err, h')
  | (inr x, h') => k x h'
  end.

Definition ret {A} (x : A) : IO A := mret x.

(** A pure [(T, error)] result, as a computation. *)
Definition lift {A} (r : result A) : IO A := fun h => (r, h).

(** [if err != nil { return nil, fmt.Errorf(format, err) }]. *)
Definition wrapping {A} (format : string) (m : IO A) : IO A :=
  fun h =>
    match m h with
    | (inl err, h') => (inl (fmt_Errorf_w format [] err), h')
    | (inr x, h') => (inr x, h')
    end.

(** Runs [m] and hands its [(T, error)] pair to the caller. *)
Definition attempt {A} (m : IO A) : IO (result A) :=
  fun h => let '(r, h') := m h in (inr r, h').

(** [%d] of an integer. *)
Definition fmt_d (n : Z) : string := DecimalString.NilZero.string_of_int (Z.to_int n).

Section client_calls.
Context {stdlib : GoStdlib} {codec : Codec} {remote : Remote}.

(** [Client.Do], on a client that is not nil. *)
Definition Do (c : Client) (req : Request) : IO Response :=
  fun h =>
    (match RoundTrip (HTTPClient c) h req with
     | inl text => inl (lib_error text)
     | inr resp => inr resp
     end, h ++ [req]).

(** [io.ReadAll(resp.Body)], with the error wrapped under [format]. *)
Definition ReadAll (format : string) (resp : Response) : IO string :=
  match Body resp with
  | inl text => fail (fmt_Errorf_w format [] (lib_error text))
  | inr body => ret body
  end.

(** [Client.GetUserById]. *)
Definition GetUserById (c : Client) (userId : string) : IO UserData.t :=
  req ← wrapping "failed to create request: %w"
           (lift (NewRequest c "GET"
                    ("/api/v1/users/" +:+ url_PathEscape userId +:+ "/") None));
  resp ← wrapping "failed to execute request: %w" (Do c req);
  if StatusCode resp =? StatusNotFound then fail ErrNotFound else
  body ← ReadAll "failed to read response body: %w" resp;
  match Unmarshal (T := UserData.t) body with
  | inl text =>
      fail (fmt_Errorf_w "failed to parse user response: %w (body: %s)"
              [arg_s body] (lib_error text))
  | inr userData => ret userData
  end.

(** [Client.GetUserByUsername]. *)
Definition GetUserByUsername (c : Client) (username : string) : IO UserData.t :=
  req ← wrapping "failed to create request: %w"
           (lift (NewRequest c "GET"
                    ("/api/v1/users/?username=" +:+ url_QueryEscape username) None));
  resp ← wrapping "failed to execute request: %w" (Do c req);
  if StatusCode resp =? StatusNotFound then fail ErrNotFound else
  body ← ReadAll "failed to read response body: %w" resp;
  match Unmarshal (T := list UserData.t) body with
  | inr [] => fail ErrNotFound
  | inr (first :: _) => ret first
  | inl _ =>
      match Unmarshal (T := UserData.t) body with
      | inr single => ret single
      | inl _ => fail (fmt_Errorf "failed to parse user response: %s" [arg_s body])
      end
  end.

(** [Client.CreateUser]. *)
Definition CreateUser (c : Client) (user : UserCreateData.t) : IO UserData.t :=
  b ← wrapping "failed to marshal user data: %w"
         (lift (match Marshal user with
                | inl text => inl (lib_error text)
                | inr b => inr b
                end));
  req ← wrapping "failed to create request: %w"
           (lift (NewRequest c "POST" "/api/v1/users/" (Some b)));
  resp ← wrapping "failed to execute request: %w" (Do c req);
  body ← ReadAll "failed to read response body: %w" resp;
  if (StatusCode resp <? 200) || (StatusCode resp >=? 400)
  then fail (fmt_Errorf "failed to create user: status %d, body: %s"
               [arg_d (StatusCode resp); arg_s body])
  else
  match Unmarshal (T := UserData.t) body with
  | inl text =>
      fail (fmt_Errorf_w "failed to parse user response: %w (body: %s)"
              [arg_s body] (lib_error text))
  | inr userData => ret userData
  end.

(** [Client.DeleteUserById]. *)
Definition DeleteUserById (c : Client) (id : string) : IO Response :=
  req ← wrapping "failed to create request: %w"
           (lift (NewRequest c "DELETE"
                    ("/api/v1/users/" +:+ url_PathEscape id +:+ "/") None));
  resp ← wrapping "failed to execute request: %w" (Do c req);
  ret resp.

(** [Client.HasValidUserPassword]: the error case stands for [(false, err)]. *)
Definition HasValidUserPassword (c : Client) (username password : string) : IO bool :=
  userClient ← wrapping "failed to create client: %w"
                  (lift (NewClient (Some (BaseURL c)) (Some username) (Some password)));
  req ← wrapping "failed to create request: %w"
           (lift (NewRequest userClient "GET"
                    ("/api/v1/users/?username=" +:+ url_QueryEscape username) None));
  resp ← wrapping "failed to execute request: %w" (Do userClient req);
  if StatusCode resp =? StatusUnauthorized then ret false else
  if StatusCode resp =? StatusForbidden then ret true else
  fail (fmt_Errorf "unexpected status code: %d" [arg_d (StatusCode resp)]).

(** [Client.GetDomainAccess]. *)
Definition GetDomainAccess (c : Client) (userId domain : string)
  : IO DomainUserPermissionData.t :=
  user ← wrapping "failed to get user data: %w" (GetUserById c userId);
  let username := UserData.Username user in
  req ← wrapping "failed to create request: %w"
           (lift (NewRequest c "GET"
                    ("/api/v1/domain-user-permissions/?username="
                       +:+ url_QueryEscape username
                       +:+ "&fqdn=" +:+ url_QueryEscape domain) None));
  resp ← wrapping "failed to execute request: %w" (Do c req);
  if StatusCode resp =? StatusNotFound then fail ErrNotFound else
  body ← ReadAll "failed to read response body: %w" resp;
  match Unmarshal (T := list DomainUserPermissionData.t) body with
  | inr [] => fail ErrNotFound
  | inr (first :: _) => ret first
  | inl _ =>
      match Unmarshal (T := DomainUserPermissionData.t) body with
      | inr single => ret single
      | inl _ =>
          fail (fmt_Errorf "failed to parse domain access response: %s" [arg_s body])
      end
  end.

(** [Client.GetDomain]. *)
Definition GetDomain (c : Client) (fqdn : string) : IO DomainData.t :=
  req ← wrapping "failed to create request: %w"
           (lift (NewRequest c "GET"
                    ("/api/v1/domains/?fqdn=" +:+ url_QueryEscape fqdn) None));
  resp ← wrapping "failed to execute request: %w" (Do c req);
  if StatusCode resp =? StatusNotFound then fail ErrNotFound else
  body ← ReadAll "failed to read response body: %w" resp;
  match Unmarshal (T := list DomainData.t) body with
  | inr [] => fail ErrNotFound
  | inr (first :: _) => ret first
  | inl _ =>
      match Unmarshal (T := DomainData.t) body with
      | inr single => ret single
      | inl _ => fail (fmt_Errorf "failed to parse domain response: %s" [arg_s body])
      end
  end.

(** [Client.CreateDomain]. *)
Definition CreateDomain (c : Client) (domain : DomainData.t) : IO DomainData.t :=
  b ← wrapping "failed to marshal domain data: %w"
         (lift (match Marshal domain with
                | inl text => inl (lib_error text)
                | inr b => inr b
                end));
  req ← wrapping "failed to create request: %w"
           (lift (NewRequest c "POST" "/api/v1/domains/" (Some b)));
  resp ← wrapping "failed to execute request: %w" (Do c req);
  body ← ReadAll "failed to read response body: %w" resp;
  if (StatusCode resp <? 200) || (StatusCode resp >=? 400)
  then fail (fmt_Errorf "failed to create domain: status %d, body: %s"
               [arg_d (StatusCode resp); arg_s body])
  else
  match Unmarshal (T := DomainData.t) body with
  | inl text =>
      fail (fmt_Errorf_w "failed to parse domain response: %w (body: %s)"
              [arg_s body] (lib_error text))
  | inr domainData => ret domainData
  end.

(** The second half of [Client.CreateDomainAccess]: the POST of the
    permission for the domain [domainData]. *)
Definition post_access (c : Client) (access : DomainUserPermissionCreateData.t)
    (domainData : DomainData.t) : IO DomainUserPermissionData.t :=
  let payloadData :=
    {| DomainUserPermissionCreatePayloadData.UserID :=
         DomainUserPermissionCreateData.UserID access;
       DomainUserPermissionCreatePayloadData.Domain := DomainData.ID domainData;
       DomainUserPermissionCreatePayloadData.AccessLevel :=
         DomainUserPermissionCreateData.AccessLevel access |} in
  b ← wrapping "failed to marshal payload data: %w"
         (lift (match Marshal payloadData with
                | inl text => inl (lib_error text)
                | inr b => inr b
                end));
  req ← wrapping "failed to create request: %w"
           (lift (NewRequest c "POST" "/api/v1/domain-user-permissions/" (Some b)));
  resp ← wrapping "failed to execute request: %w" (Do c req);
  body ← ReadAll "failed to read response body: %w" resp;
  if (StatusCode resp <? 200) || (StatusCode resp >=? 400)
  then fail (fmt_Errorf "failed to create domain access: status %d, body: %s"
               [arg_d (StatusCode resp); arg_s body])
  else
  match Unmarshal (T := DomainUserPermissionData.t) body with
  | inl text =>
      fail (fmt_Errorf_w "failed to parse domain access response: %w (body: %s)"
              [arg_s body] (lib_error text))
  | inr accessData => ret accessData
  end.

(** [Client.CreateDomainAccess]. *)
Definition CreateDomainAccess (c : Client) (access : DomainUserPermissionCreateData.t)
  : IO DomainUserPermissionData.t :=
  looked ← attempt (GetDomain c (DomainUserPermissionCreateData.Domain access));
  domainData ←
    (match looked with
     | inl err =>
         if negb (eq_ErrNotFound err)
         then fail (fmt_Errorf_w "failed to get domain data: %w" [] err)
         else
           (* err == ErrNotFound: create the domain here *)
           (newDomainData ← wrapping "failed to create domain: %w"
                              (CreateDomain c
                                 {| DomainData.Fqdn :=
                                      DomainUserPermissionCreateData.Domain access;
                                    DomainData.ID := 0 |});
            ret newDomainData)
     | inr domainData => ret domainData
     end);
  post_access c access domainData.

(** [Client.DeleteDomainAccess]. *)
Definition DeleteDomainAccess (c : Client) (id : Z) : IO Response :=
  let path := "/api/v1/domain-user-permissions/" +:+ fmt_d id +:+ "/" in
  req ← wrapping "failed to create request: %w"
           (lift (NewRequest c "DELETE" path None));
  resp ← wrapping "failed to execute request: %w" (Do c req);
  ret resp.

End client_calls.

(** [LastPathSegment]: the last segment of a URL path. *)
Definition LastPathSegment (u : string) : string :=
  let u := strings.TrimSuffix u "/" in
  let parts := strings.Split u "/" in
  if (List.length parts =? 0)%nat then EmptyString
  else List.last parts EmptyString.

(** ** The plugin framework, as far as the reconcilers use it *)

Module types.

Inductive String : Type :=
| StringNull
| StringUnknown
| StringValue (s : string).

Definition String_IsNull (v : String) : bool :=
  match v with StringNull => true | _ => false end.

Definition String_IsUnknown (v : String) : bool :=
  match v with StringUnknown => true | _ => false end.

(** [ValueString]: the empty string for null and unknown. *)
Definition ValueString (v : String) : string :=
  match v with StringValue s => s | _ => EmptyString end.

Inductive Int64 : Type :=
| Int64Null
| Int64Unknown
| Int64Value (n : Z).

Definition Int64_IsNull (v : Int64) : bool :=
  match v with Int64Null => true | _ => false end.

(** [ValueInt64]: zero for null and unknown. *)
Definition ValueInt64 (v : Int64) : Z :=
  match v with Int64Value n => n | _ => 0 end.

End types.

Module diag.

Inductive Severity : Type := SeverityError | SeverityWarning.

(** An operand of [fmt.Sprintf]: a string, or an error printed with %s. *)
Inductive operand : Type :=
| op_s (s : string)
| op_err (err : error).

Record Diagnostic : Type := mk {
  severity : Severity;
  Summary : string;
  Detail : string * list operand;   (* format and operands *)
}.

Definition is_error (d : Diagnostic) : bool :=
  match severity d with SeverityError => true | SeverityWarning => false end.

(** [Diagnostics.HasError]. *)
Definition HasError (ds : list Diagnostic) : bool := existsb is_error ds.

#[global] Instance Severity_eq_dec : EqDecision Severity.
Proof. solve_decision. Defined.

#[global] Instance operand_eq_dec : EqDecision operand.
Proof. solve_decision. Defined.

#[global] Instance Diagnostic_eq_dec : EqDecision Diagnostic.
Proof. solve_decision. Defined.

(** [Diagnostics.Contains]: some diagnostic of [ds] equals [d]. *)
Definition Contains (ds : list Diagnostic) (d : Diagnostic) : bool :=
  bool_decide (d ∈ ds).

(** [Diagnostics.Append]: adds the diagnostics of [new] one by one, skipping
    each one that the collection contains already. *)
Fixpoint Append (ds new : list Diagnostic) : list Diagnostic :=
  match new with
  | [] => ds
  | d :: rest => Append (if Contains ds d then ds else ds ++ [d]) rest
  end.

End diag.

Module resource.

(** [req.Plan] and [req.State]: what [Get(ctx, &data)] returns and stores. *)
Record Source (M : Type) : Type := mkSource { Get : list diag.Diagnostic * M }.
Arguments Get {M} _.
Arguments mkSource {M} _.

(** The response of a reconciler call: the diagnostics and the state the
    framework will store ([None] once the resource is removed). *)
Record Response (M : Type) : Type := mkResponse {
  Diagnostics : list diag.Diagnostic;
  State : option M;
}.
Arguments Diagnostics {M} _.
Arguments State {M} _.
Arguments mkResponse {M} _ _.

(** [resp.Diagnostics.Append(ds...)]. *)
Definition Append {M} (resp : Response M) (ds : list diag.Diagnostic) : Response M :=
  {| Diagnostics := diag.Append (Diagnostics resp) ds; State := State resp |}.

Definition AddError {M} (resp : Response M) (summary : string)
    (detail : string * list diag.operand) : Response M :=
  Append resp [diag.mk diag.SeverityError summary detail].

Definition AddWarning {M} (resp : Response M) (summary : string)
    (detail : string * list diag.operand) : Response M :=
  Append resp [diag.mk diag.SeverityWarning summary detail].

(** [resp.State.RemoveResource(ctx)]. *)
Definition RemoveResource {M} (resp : Response M) : Response M :=
  {| Diagnostics := Diagnostics resp; State := None |}.

(** [resp.Diagnostics.Append(resp.State.Set(ctx, &data)...)]: storing a
    model of the schema's own type gives no diagnostic. *)
Definition State_Set {M} (resp : Response M) (data : M) : Response M :=
  {| Diagnostics := Diagnostics resp; State := Some data |}.

Record CreateRequest (M : Type) : Type := mkCreateRequest { Create_Plan : Source M }.
Record ReadRequest (M : Type) : Type := mkReadRequest { Read_State : Source M }.
Record UpdateRequest (M : Type) : Type := mkUpdateRequest {
  Update_Plan : Source M; Update_State : Source M }.
Record ImportStateRequest : Type := mkImportStateRequest { ID : string }.
Record DeleteRequest (M : Type) : Type := mkDeleteRequest { Delete_State : Source M }.
Arguments Delete_State {M} _.
Arguments mkDeleteRequest {M} _.
Arguments Create_Plan {M} _.
Arguments Read_State {M} _.
Arguments Update_Plan {M} _.
Arguments Update_State {M} _.
Arguments mkCreateRequest {M} _.
Arguments mkReadRequest {M} _.
Arguments mkUpdateRequest {M} _ _.

End resource.

Import resource(Get, Diagnostics, State, Append, AddError, AddWarning,
                RemoveResource, State_Set).
Import types(StringNull, StringUnknown, StringValue, ValueString,
             Int64Null, Int64Unknown, Int64Value, ValueInt64).

Module UserModel.
Record t : Type := mk {
  Username : types.String;
  Password : types.String;
  Email : types.String;
  Id : types.String;
}.
End UserModel.

Module UserDomainAccessModel.
Record t : Type := mk {
  UserId : types.String;
  Domain : types.String;
  AccessLevel : types.String;
  Id : types.String;
  DatabaseID : types.Int64;
}.
End UserDomainAccessModel.

Definition not_configured : string * list diag.operand :=
  ("The LegoCharm API client is not configured for this resource", []).

(** ** The user reconciler ([user_resource.go]) *)

Module UserResource.

Record t : Type := mk { client : option Client }.

Section methods.
Context {stdlib : GoStdlib} {codec : Codec} {remote : Remote}.

Definition Create (r : t) (req : resource.CreateRequest UserModel.t)
    (resp : resource.Response UserModel.t) (h : list Request)
  : resource.Response UserModel.t * list Request :=
  let '(diags, data) := Get (resource.Create_Plan req) in
  let resp := Append resp diags in
  if diag.HasError (Diagnostics resp) then (resp, h) else
  match client r with
  | None => (AddError resp "Client Not Configured" not_configured, h)
  | Some c =>
  let username := ValueString (UserModel.Username data) in
  (* Check for conflict: ensure username does not already exist *)
  match GetUserByUsername c username h with
  | (inr existingUser, h) =>
      let existingUserId := LastPathSegment (UserData.Url existingUser) in
      (AddError resp "User Exists"
         ("A user with username '%s' already exists (id=%s).",
          [diag.op_s username; diag.op_s existingUserId]), h)
  | (inl err, h) =>
  if negb (eq_ErrNotFound err)
  then (AddError resp "Client Error"
          ("Unable to check for existing user: %s", [diag.op_err err]), h)
  else
  let create :=
    {| UserCreateData.Username := username;
       UserCreateData.Password := ValueString (UserModel.Password data);
       UserCreateData.Email := ValueString (UserModel.Email data);
       UserCreateData.Groups := [] |} in
  match CreateUser c create h with
  | (inl err, h) =>
      (AddError resp "Client Error"
         ("Unable to create user, got error: %s", [diag.op_err err]), h)
  | (inr _, h) =>
  (* time.Sleep(500 * time.Millisecond); fetch created user to populate state *)
  match GetUserByUsername c username h with
  | (inl err, h) =>
      (AddError resp "Client Error"
         ("User created but failed to read back: %s", [diag.op_err err]), h)
  | (inr user, h) =>
      let data :=
        {| UserModel.Username := UserModel.Username data;
           UserModel.Password := StringValue (ValueString (UserModel.Password data));
           UserModel.Email := StringValue (UserData.Email user);
           UserModel.Id := StringValue (LastPathSegment (UserData.Url user)) |} in
      (State_Set resp data, h)
  end end end end.

Definition Read (r : t) (req : resource.ReadRequest UserModel.t)
    (resp : resource.Response UserModel.t) (h : list Request)
  : resource.Response UserModel.t * list Request :=
  let '(diags, data) := Get (resource.Read_State req) in
  let resp := Append resp diags in
  if diag.HasError (Diagnostics resp) then (resp, h) else
  match client r with
  | None => (AddError resp "Client Not Configured" not_configured, h)
  | Some c =>
  let username := ValueString (UserModel.Username data) in
  (* both branches of the test on data.Id look the user up by username *)
  let looked :=
    if negb (types.String_IsNull (UserModel.Id data))
       && negb (String.eqb (ValueString (UserModel.Id data)) "")
    then GetUserByUsername c username h
    else GetUserByUsername c username h in
  match looked with
  | (inl err, h) =>
      if eq_ErrNotFound err then (RemoveResource resp, h)
      else (AddError resp "Client Error"
              ("Unable to read user: %s", [diag.op_err err]), h)
  | (inr user, h) =>
  let data :=
    {| UserModel.Username := UserModel.Username data;
       UserModel.Password := UserModel.Password data;
       UserModel.Email := StringValue (UserData.Email user);
       UserModel.Id := StringValue (LastPathSegment (UserData.Url user)) |} in
  (* ensure the password is valid *)
  match HasValidUserPassword c username (ValueString (UserModel.Password data)) h with
  | (inl err, h) =>
      (AddError resp "Client Error"
         ("Unable to validate user password: %s", [diag.op_err err]), h)
  | (inr valid, h) =>
      let '(resp, data) :=
        if negb valid
        then (AddWarning resp "Invalid Password"
                ("The stored password is no longer valid", []),
              (* require replacement on next apply *)
              {| UserModel.Username := UserModel.Username data;
                 UserModel.Password := StringNull;
                 UserModel.Email := UserModel.Email data;
                 UserModel.Id := UserModel.Id data |})
        else (resp, data) in
      (State_Set resp data, h)
  end end end.

Definition ImportState (r : t) (req : resource.ImportStateRequest)
    (resp : resource.Response UserModel.t) : resource.Response UserModel.t :=
  (* id is of format "username:password" *)
  let parts := strings.Split (resource.ID req) ":" in
  if negb (List.length parts =? 2)%nat
  then AddError resp "Invalid Import ID"
         ("Import ID must be in the format 'username:password'", [])
  else
  let username := List.nth 0 parts EmptyString in
  let password := List.nth 1 parts EmptyString in
  let data :=
    {| UserModel.Username := StringValue username;
       UserModel.Password := StringValue password;
       UserModel.Email := StringNull;
       UserModel.Id := StringNull |} in
  State_Set resp data.

Definition Update (r : t) (req : resource.UpdateRequest UserModel.t)
    (resp : resource.Response UserModel.t) (h : list Request)
  : resource.Response UserModel.t * list Request :=
  let '(diags, plan) := Get (resource.Update_Plan req) in
  let resp := Append resp diags in
  if diag.HasError (Diagnostics resp) then (resp, h) else
  match client r with
  | None => (AddError resp "Client Not Configured" not_configured, h)
  | Some c =>
  match GetUserByUsername c (ValueString (UserModel.Username plan)) h with
  | (inl err, h) =>
      if eq_ErrNotFound err then (RemoveResource resp, h)
      else (AddError resp "Client Error"
              ("Unable to read user: %s", [diag.op_err err]), h)
  | (inr user, h) =>
  let plan :=
    {| UserModel.Username := UserModel.Username plan;
       UserModel.Password := UserModel.Password plan;
       UserModel.Email := StringValue (UserData.Email user);
       UserModel.Id := StringValue (LastPathSegment (UserData.Url user)) |} in
  (* Preserve generated password from prior state (if present) *)
  let '(diags, state) := Get (resource.Update_State req) in
  let resp := Append resp diags in
  let plan :=
    if negb (types.String_IsNull (UserModel.Password state))
       && negb (types.String_IsUnknown (UserModel.Password state))
    then {| UserModel.Username := UserModel.Username plan;
            UserModel.Password := UserModel.Password state;
            UserModel.Email := UserModel.Email plan;
            UserModel.Id := UserModel.Id plan |}
    else plan in
  (State_Set resp plan, h)
  end end.

Definition Delete (r : t) (req : resource.DeleteRequest UserModel.t)
    (resp : resource.Response UserModel.t) (h : list Request)
  : resource.Response UserModel.t * list Request :=
  let '(diags, data) := Get (resource.Delete_State req) in
  let resp := Append resp diags in
  if diag.HasError (Diagnostics resp) then (resp, h) else
  match client r with
  | None => (AddError resp "Client Not Configured" not_configured, h)
  | Some c =>
  (* Use ID if set, otherwise fetch user to get a URL and delete by that. *)
  if negb (types.String_IsNull (UserModel.Id data))
     && negb (String.eqb (ValueString (UserModel.Id data)) "")
  then
    match DeleteUserById c (ValueString (UserModel.Id data)) h with
    | (inl err, h) =>
        (AddError resp "Client Error"
           ("Unable to delete user: %s", [diag.op_err err]), h)
    | (inr _, h) => (resp, h)
    end
  else
  match GetUserByUsername c (ValueString (UserModel.Username data)) h with
  | (inl err, h) =>
      if eq_ErrNotFound err then (resp, h)
      else (AddError resp "Client Error"
              ("Unable to locate user for deletion: %s", [diag.op_err err]), h)
  | (inr user, h) =>
  match DeleteUserById c (LastPathSegment (UserData.Url user)) h with
  | (inl err, h) =>
      (AddError resp "Client Error"
         ("Unable to delete user: %s", [diag.op_err err]), h)
  | (inr _, h) => (resp, h)
  end end end.

End methods.
End UserResource.

(** ** The domain-access reconciler ([user_domain_access_resource.go]) *)

Module UserDomainAccessResource.

Record t : Type := mk { client : option Client }.

Section methods.
Context {stdlib : GoStdlib} {codec : Codec} {remote : Remote}.

(** [data.UserId.ValueString() + ":" + data.Domain.ValueString() + ":" +
    data.AccessLevel.ValueString()]. *)
Definition composite_id (data : UserDomainAccessModel.t) : string :=
  ValueString (UserDomainAccessModel.UserId data) +:+ ":"
  +:+ ValueString (UserDomainAccessModel.Domain data) +:+ ":"
  +:+ ValueString (UserDomainAccessModel.AccessLevel data).

(** [&legocharmclient.DomainUserPermissionCreateData{...}] from the model. *)
Definition createData (data : UserDomainAccessModel.t)
  : DomainUserPermissionCreateData.t :=
  {| DomainUserPermissionCreateData.UserID :=
       ValueString (UserDomainAccessModel.UserId data);
     DomainUserPermissionCreateData.Domain :=
       ValueString (UserDomainAccessModel.Domain data);
     DomainUserPermissionCreateData.AccessLevel :=
       ValueString (UserDomainAccessModel.AccessLevel data) |}.

Definition Create (r : t) (req : resource.CreateRequest UserDomainAccessModel.t)
    (resp : resource.Response UserDomainAccessModel.t) (h : list Request)
  : resource.Response UserDomainAccessModel.t * list Request :=
  let '(diags, data) := Get (resource.Create_Plan req) in
  let resp := Append resp diags in
  if diag.HasError (Diagnostics resp) then (resp, h) else
  match client r with
  | None => (AddError resp "Client Not Configured" not_configured, h)
  | Some c =>
  (* check if a domain access already exists for this user+domain *)
  match GetDomainAccess c (ValueString (UserDomainAccessModel.UserId data))
          (ValueString (UserDomainAccessModel.Domain data)) h with
  | (inr existing, h) =>
      (AddError resp "Domain Access Already Exists"
         ("A domain access permission already exists for this user and domain combination.",
          []), h)
  | (inl _, h) =>
  match CreateDomainAccess c (createData data) h with
  | (inl err, h) =>
      (AddError resp "Client Error"
         ("Unable to create user domain access: %s", [diag.op_err err]), h)
  | (inr domain, h) =>
      let data :=
        {| UserDomainAccessModel.UserId := UserDomainAccessModel.UserId data;
           UserDomainAccessModel.Domain := UserDomainAccessModel.Domain data;
           UserDomainAccessModel.AccessLevel := UserDomainAccessModel.AccessLevel data;
           UserDomainAccessModel.Id := StringValue (composite_id data);
           UserDomainAccessModel.DatabaseID :=
             Int64Value (DomainUserPermissionData.ID domain) |} in
      (State_Set resp data, h)
  end end end.

Definition Read (r : t) (req : resource.ReadRequest UserDomainAccessModel.t)
    (resp : resource.Response UserDomainAccessModel.t) (h : list Request)
  : resource.Response UserDomainAccessModel.t * list Request :=
  let '(diags, data) := Get (resource.Read_State req) in
  let resp := Append resp diags in
  if diag.HasError (Diagnostics resp) then (resp, h) else
  match client r with
  | None => (AddError resp "Client Not Configured" not_configured, h)
  | Some c =>
  if types.String_IsNull (UserDomainAccessModel.UserId data)
     || types.String_IsNull (UserDomainAccessModel.Domain data)
  then (AddError resp "Invalid State" ("User ID or Domain is null in state", []), h)
  else
  match GetDomainAccess c (ValueString (UserDomainAccessModel.UserId data))
          (ValueString (UserDomainAccessModel.Domain data)) h with
  | (inl err, h) =>
      if errors_Is_ErrNotFound err then (RemoveResource resp, h)
      else (AddError resp "Client Error"
              ("Unable to read user domain access: %s", [diag.op_err err]), h)
  | (inr found, h) =>
      let data :=
        {| UserDomainAccessModel.UserId := UserDomainAccessModel.UserId data;
           UserDomainAccessModel.Domain := UserDomainAccessModel.Domain data;
           UserDomainAccessModel.AccessLevel :=
             StringValue (DomainUserPermissionData.AccessLevel found);
           UserDomainAccessModel.Id := UserDomainAccessModel.Id data;
           UserDomainAccessModel.DatabaseID :=
             Int64Value (DomainUserPermissionData.ID found) |} in
      (State_Set resp data, h)
  end end.

Definition Update (r : t) (req : resource.UpdateRequest UserDomainAccessModel.t)
    (resp : resource.Response UserDomainAccessModel.t) (h : list Request)
  : resource.Response UserDomainAccessModel.t * list Request :=
  let '(diags, data) := Get (resource.Update_Plan req) in
  let resp := Append resp diags in
  if diag.HasError (Diagnostics resp) then (resp, h) else
  match client r with
  | None => (AddError resp "Client Not Configured" not_configured, h)
  | Some c =>
  if types.String_IsNull (UserDomainAccessModel.UserId data)
     || types.String_IsNull (UserDomainAccessModel.Domain data)
  then (AddError resp "Invalid State" ("User ID or Domain is null in state", []), h)
  else
  if types.Int64_IsNull (UserDomainAccessModel.DatabaseID data)
     || (ValueInt64 (UserDomainAccessModel.DatabaseID data) =? 0)
  then (AddError resp "Invalid State" ("Database ID is null or zero in state", []), h)
  else
  match DeleteDomainAccess c (ValueInt64 (UserDomainAccessModel.DatabaseID data)) h with
  | (inl err, h) =>
      (AddError resp "Client Error"
         ("Unable to delete user domain access: %s", [diag.op_err err]), h)
  | (inr _, h) =>
  (* recreate with new access level *)
  match CreateDomainAccess c (createData data) h with
  | (inl err, h) =>
      (AddError resp "Client Error"
         ("Unable to update user domain access: %s", [diag.op_err err]), h)
  | (inr domain, h) =>
      let data :=
        {| UserDomainAccessModel.UserId := UserDomainAccessModel.UserId data;
           UserDomainAccessModel.Domain := UserDomainAccessModel.Domain data;
           UserDomainAccessModel.AccessLevel := UserDomainAccessModel.AccessLevel data;
           UserDomainAccessModel.Id := UserDomainAccessModel.Id data;
           UserDomainAccessModel.DatabaseID :=
             Int64Value (DomainUserPermissionData.ID domain) |} in
      let data :=
        {| UserDomainAccessModel.UserId := UserDomainAccessModel.UserId data;
           UserDomainAccessModel.Domain := UserDomainAccessModel.Domain data;
           UserDomainAccessModel.AccessLevel := UserDomainAccessModel.AccessLevel data;
           UserDomainAccessModel.Id := StringValue (composite_id data);
           UserDomainAccessModel.DatabaseID := UserDomainAccessModel.DatabaseID data |} in
      (State_Set resp data, h)
  end end end.

Definition ImportState (r : t) (req : resource.ImportStateRequest)
    (resp : resource.Response UserDomainAccessModel.t)
  : resource.Response UserDomainAccessModel.t :=
  (* id is of format "username:domain:access_level" *)
  let parts := strings.Split (resource.ID req) ":" in
  if negb (List.length parts =? 3)%nat
  then AddError resp "Invalid Import ID"
         ("Import ID must be in the format 'username:domain:access_level'", [])
  else
  let data :=
    {| UserDomainAccessModel.UserId := StringValue (List.nth 0 parts EmptyString);
       UserDomainAccessModel.Domain := StringValue (List.nth 1 parts EmptyString);
       UserDomainAccessModel.AccessLevel := StringValue (List.nth 2 parts EmptyString);
       UserDomainAccessModel.Id := StringValue (resource.ID req);
       UserDomainAccessModel.DatabaseID := Int64Null |} in
  State_Set resp data.

Definition Delete (r : t) (req : resource.DeleteRequest UserDomainAccessModel.t)
    (resp : resource.Response UserDomainAccessModel.t) (h : list Request)
  : resource.Response UserDomainAccessModel.t * list Request :=
  let '(diags, data) := Get (resource.Delete_State req) in
  let resp := Append resp diags in
  if diag.HasError (Diagnostics resp) then (resp, h) else
  match client r with
  | None => (AddError resp "Client Not Configured" not_configured, h)
  | Some c =>
  if types.Int64_IsNull (UserDomainAccessModel.DatabaseID data)
     || (ValueInt64 (UserDomainAccessModel.DatabaseID data) =? 0)
  then (AddError resp "Invalid State" ("Database ID is null or zero in state", []), h)
  else
  match DeleteDomainAccess c (ValueInt64 (UserDomainAccessModel.DatabaseID data)) h with
  | (inl err, h) =>
      (AddError resp "Client Error"
         ("Unable to delete user domain access: %s", [diag.op_err err]), h)
  | (inr _, h) =>
      (* Remove resource from state *)
      (RemoveResource resp, h)
  end end.

End methods.
End UserDomainAccessResource.

(** ** The provider ([provider.go]) *)

Module legocharmProvider.

(** [legocharmProviderModel]. *)
Record Model : Type := mkModel {
  Address : types.String;
  Username : types.String;
  Password : types.String;
}.

(** A diagnostic of the provider: [attribute] is the root attribute of
    [AddAttributeError], [None] for [AddError] and for what [Get] gives. *)
Record Diagnostic : Type := mkDiagnostic {
  attribute : option string;
  diagnostic : diag.Diagnostic;
}.

#[global] Instance Diagnostic_eq_dec : EqDecision Diagnostic.
Proof. solve_decision. Defined.

(** [Diagnostics.Append], on the diagnostics of the provider. *)
Fixpoint Append (ds new : list Diagnostic) : list Diagnostic :=
  match new with
  | [] => ds
  | d :: rest => Append (if bool_decide (d ∈ ds) then ds else ds ++ [d]) rest
  end.

Definition HasError (ds : list Diagnostic) : bool :=
  existsb (fun d => diag.is_error (diagnostic d)) ds.

Record ConfigureRequest : Type := mkConfigureRequest {
  Config : list Diagnostic * Model;   (* what [req.Config.Get] gives *)
}.

Record ConfigureResponse : Type := mkConfigureResponse {
  Diagnostics : list Diagnostic;
  DataSourceData : option Client;
  ResourceData : option Client;
}.

Definition AddAttributeError (resp : ConfigureResponse) (attr summary detail : string)
  : ConfigureResponse :=
  {| Diagnostics :=
       Append (Diagnostics resp)
         [mkDiagnostic (Some attr) (diag.mk diag.SeverityError summary (detail, []))];
     DataSourceData := DataSourceData resp;
     ResourceData := ResourceData resp |}.

(** [AddAttributeError] under the condition [b]. *)
Definition error_if (b : bool) (attr summary detail : string)
    (resp : ConfigureResponse) : ConfigureResponse :=
  if b then AddAttributeError resp attr summary detail else resp.

Definition newline : string := String "010" EmptyString.

(** The details of the attribute errors of [Configure]. *)
Definition unknown_address : string :=
  "The provider cannot create the LegoCharm API client as there is an unknown configuration value for the LegoCharm API address. "
  +:+ "Either target apply the source of the value first, set the value statically in the configuration, or use the LEGOCHARM_ADDRESS environment variable.".

Definition unknown_username : string :=
  "The provider cannot create the LegoCharm API client as there is an unknown configuration value for the LegoCharm API username. "
  +:+ "Either target apply the source of the value first, set the value statically in the configuration, or use the LEGOCHARM_USERNAME environment variable.".

Definition unknown_password : string :=
  "The provider cannot create the LegoCharm API client as there is an unknown configuration value for the LegoCharm API password. "
  +:+ "Either target apply the source of the value first, set the value statically in the configuration, or use the LEGOCHARM_PASSWORD environment variable.".

Definition address_not_set : string :=
  "The provider cannot create the LegoCharm API client as there is no configured address. "
  +:+ "Set the address value in the provider configuration or use the LEGOCHARM_ADDRESS environment variable.".

Definition username_not_set : string :=
  "The provider cannot create the LegoCharm API client as there is no configured username. "
  +:+ "Set the username value in the provider configuration or use the LEGOCHARM_USERNAME environment variable.".

Definition password_not_set : string :=
  "The provider cannot create the LegoCharm API client as there is no configured password. "
  +:+ "Set the password value in the provider configuration or use the LEGOCHARM_PASSWORD environment variable.".

(** The format of the detail of the error of [NewClient]. *)
Definition client_error : string :=
  "An unexpected error occurred when creating the LegoCharm API client. "
  +:+ "If the error is not clear, please contact the provider developers."
  +:+ newline +:+ newline +:+ "LegoCharm Client Error: %s".

Section methods.
Context {stdlib : GoStdlib}.

(** The value of an attribute: the environment variable, overridden by the
    configuration value when that is not null. *)
Definition effective (variable : string) (configured : types.String) : string :=
  if negb (types.String_IsNull configured) then ValueString configured
  else os_Getenv variable.

Definition Configure (req : ConfigureRequest) (resp : ConfigureResponse)
  : ConfigureResponse :=
  let '(diags, config) := Config req in
  let resp := {| Diagnostics := Append (Diagnostics resp) diags;
                 DataSourceData := DataSourceData resp;
                 ResourceData := ResourceData resp |} in
  if HasError (Diagnostics resp) then resp else
  let resp :=
    error_if (types.String_IsUnknown (Address config)) "address"
      "Unknown LegoCharm API Address" unknown_address resp in
  let resp :=
    error_if (types.String_IsUnknown (Username config)) "username"
      "Unknown LegoCharm API Username" unknown_username resp in
  let resp :=
    error_if (types.String_IsUnknown (Password config)) "password"
      "Unknown LegoCharm API Password" unknown_password resp in
  if HasError (Diagnostics resp) then resp else
  (* Default values to environment variables, but override with Terraform
     configuration value if set. *)
  let address := effective "LEGOCHARM_ADDRESS" (Address config) in
  let username := effective "LEGOCHARM_USERNAME" (Username config) in
  let password := effective "LEGOCHARM_PASSWORD" (Password config) in
  let resp :=
    error_if (String.eqb address "") "address" "LegoCharm API Address Not Set"
      address_not_set resp in
  let resp :=
    error_if (String.eqb username "") "username" "LegoCharm API Username Not Set"
      username_not_set resp in
  let resp :=
    error_if (String.eqb password "") "password" "LegoCharm API Password Not Set"
      password_not_set resp in
  if HasError (Diagnostics resp) then resp else
  (* Create a new LegoCharm client using the configuration values *)
  match NewClient (Some address) (Some username) (Some password) with
  | inl err =>
      {| Diagnostics :=
           Append (Diagnostics resp)
             [mkDiagnostic None
                (diag.mk diag.SeverityError "Unable to Create LegoCharm API Client"
                   (client_error, [diag.op_err err]))];
         DataSourceData := DataSourceData resp;
         ResourceData := ResourceData resp |}
  | inr client =>
      {| Diagnostics := Diagnostics resp;
         DataSourceData := Some client;
         ResourceData := Some client |}
  end.

End methods.
End legocharmProvider.

(** ** Vocabulary of the statements *)

Section vocabulary.
Context {stdlib : GoStdlib} {codec : Codec} {remote : Remote}.

(** After the history [h], the service answers [resp] to the request that
    client [c] builds for [method] and [path]. *)
Definition answers (c : Client) (h : list Request) (method path : string)
    (body : option string) (resp : Response) : Prop :=
  exists req, NewRequest c method path body = inr req
              /\ RoundTrip (HTTPClient c) h req = inr resp.

(** The URL of [req], written out as a text, is the base URL of [c], one
    ["/"] and [path] without its leading slashes. *)
Definition url_is_joined_text (c : Client) (path : string) (req : Request) : Prop :=
  url_String (URL req) = BaseURL c +:+ "/" +:+ strings.TrimLeft path "/".

(** [req] is the request of client [c] for [method] and [path]. *)
Definition request_for (c : Client) (method path : string) (body : option string)
    (req : Request) : Prop :=
  NewRequest c method path body = inr req.

Definition users_by_id_path (userId : string) : string :=
  "/api/v1/users/" +:+ url_PathEscape userId +:+ "/".

Definition users_by_name_path (username : string) : string :=
  "/api/v1/users/?username=" +:+ url_QueryEscape username.

Definition domains_path (fqdn : string) : string :=
  "/api/v1/domains/?fqdn=" +:+ url_QueryEscape fqdn.

Definition permissions_path (username domain : string) : string :=
  "/api/v1/domain-user-permissions/?username=" +:+ url_QueryEscape username
    +:+ "&fqdn=" +:+ url_QueryEscape domain.

(** The probe of [HasValidUserPassword] was sent with the credentials
    [username], [password] and the service answered with [status]. *)
Definition probe_yields (c : Client) (username password : string)
    (h : list Request) (status : Z) : Prop :=
  exists userClient resp,
    NewClient (Some (BaseURL c)) (Some username) (Some password) = inr userClient
    /\ Username userClient = username /\ Password userClient = password
    /\ answers userClient h "GET" (users_by_name_path username) None resp
    /\ StatusCode resp = status.

(** The verdict of [HasValidUserPassword] on the status of the answer. *)
Definition verdict (status : Z) : result bool :=
  if status =? StatusUnauthorized then inr false
  else if status =? StatusForbidden then inr true
  else inl (fmt_Errorf "unexpected status code: %d" [arg_d status]).

(** The JSON payload of a permission for the domain with ID [domainID]. *)
Definition permission_payload (access : DomainUserPermissionCreateData.t)
    (domainID : Z) : DomainUserPermissionCreatePayloadData.t :=
  {| DomainUserPermissionCreatePayloadData.UserID :=
       DomainUserPermissionCreateData.UserID access;
     DomainUserPermissionCreatePayloadData.Domain := domainID;
     DomainUserPermissionCreatePayloadData.AccessLevel :=
       DomainUserPermissionCreateData.AccessLevel access |}.

(** [req] is the POST of the permission [access] for the domain [domainID]. *)
Definition is_permission_post (c : Client) (access : DomainUserPermissionCreateData.t)
    (domainID : Z) (req : Request) : Prop :=
  exists b, Marshal (permission_payload access domainID) = inr b
            /\ request_for c "POST" "/api/v1/domain-user-permissions/" (Some b) req.

(** [req] is the POST that creates the domain [fqdn]. *)
Definition is_domain_post (c : Client) (fqdn : string) (req : Request) : Prop :=
  exists b, Marshal {| DomainData.Fqdn := fqdn; DomainData.ID := 0 |} = inr b
            /\ request_for c "POST" "/api/v1/domains/" (Some b) req.

(** What is sent once [NewRequest] has given [r]: the request, and nothing
    when the request could not be built. *)
Definition built (r : result Request) : list Request :=
  match r with
  | inl _ => []
  | inr req => [req]
  end.

(** What a create call sends for the value [v]: the POST for [path] whose
    body is the marshalled value, and nothing when the value cannot be
    marshalled or the request cannot be built. *)
Definition posted {T} {enc : json_Marshal T} (c : Client) (path : string) (v : T)
  : list Request :=
  match Marshal v with
  | inl _ => []
  | inr b => built (NewRequest c "POST" path (Some b))
  end.

(** The three steps of [CreateDomainAccess]: the lookup of the domain
    [fqdn], the POST that creates it, and the POST of the permission
    [access] for the domain [domainID]. *)
Definition domain_lookup (c : Client) (fqdn : string) : list Request :=
  built (NewRequest c "GET" (domains_path fqdn) None).

Definition domain_post (c : Client) (fqdn : string) : list Request :=
  posted c "/api/v1/domains/" {| DomainData.Fqdn := fqdn; DomainData.ID := 0 |}.

Definition permission_post (c : Client) (access : DomainUserPermissionCreateData.t)
    (domainID : Z) : list Request :=
  posted c "/api/v1/domain-user-permissions/" (permission_payload access domainID).

(** What follows the lookup in [CreateDomainAccess] once the domain ID is
    known: the history [h'] is [h] and then the POST of the permission for
    that ID, which is left out only when it cannot be built; in that case
    the result [r] is an error. *)
Definition posts_permission (c : Client) (access : DomainUserPermissionCreateData.t)
    (domainID : Z) (r : result DomainUserPermissionData.t)
    (h h' : list Request) : Prop :=
  h' = h ++ permission_post c access domainID
  /\ (permission_post c access domainID = [] -> exists err, r = inl err).

(** The result [r] of a lookup is exactly [ErrNotFound] when the service
    answers the request for [path], sent after [h], with 404. *)
Definition exact_ErrNotFound_on_404 {A} (r : result A) (c : Client) (path : string)
    (h : list Request) : Prop :=
  forall resp, answers c h "GET" path None resp ->
               StatusCode resp = StatusNotFound ->
               r = inl ErrNotFound.

(** The result [r] of a list-shaped lookup is exactly [ErrNotFound] when
    the body of the answer decodes as an empty array. *)
Definition exact_ErrNotFound_on_empty_array {A} (dec_list : json_Unmarshal (list A))
    (r : result A) (c : Client) (path : string) (h : list Request) : Prop :=
  forall resp body, answers c h "GET" path None resp ->
                    StatusCode resp <> StatusNotFound ->
                    Body resp = inr body ->
                    dec_list body = inr [] ->
                    r = inl ErrNotFound.

(** The result [r] of a list-shaped lookup is the parse error of [format]
    when the body of the answer decodes neither as an array nor as a single
    object. *)
Definition parse_error_on_undecodable {A} (dec_list : json_Unmarshal (list A))
    (dec_single : json_Unmarshal A) (r : result A) (c : Client) (path : string)
    (format : string) (h : list Request) : Prop :=
  forall resp body t1 t2, answers c h "GET" path None resp ->
                          StatusCode resp <> StatusNotFound ->
                          Body resp = inr body ->
                          dec_list body = inl t1 ->
                          dec_single body = inl t2 ->
                          r = inl (fmt_Errorf format [arg_s body]).

(** [GetDomainAccess] gives exactly [ErrNotFound] when the first request it
    sends, the one that looks the user up, is answered with 404. *)
Definition GetDomainAccess_exact_on_every_404 : Prop :=
  forall c userId domain h,
    exact_ErrNotFound_on_404 (fst (GetDomainAccess c userId domain h)) c
      (users_by_id_path userId) h.

(** [Get(ctx, &data)] on [src] leaves the diagnostics of [resp] free of
    errors, so that the reconciler goes on. *)
Definition reads_cleanly {M} (src : resource.Source M) (resp : resource.Response M)
  : Prop :=
  diag.HasError (Diagnostics (Append resp (fst (Get src)))) = false.

(** The diagnostics of [resp] once those of [Get] on [src] are appended. *)
Definition after_get {M} (src : resource.Source M) (resp : resource.Response M)
  : list diag.Diagnostic :=
  Diagnostics (Append resp (fst (Get src))).

(** [user_id] and [domain] are not null. *)
Definition keys_set (data : UserDomainAccessModel.t) : Prop :=
  types.String_IsNull (UserDomainAccessModel.UserId data) = false
  /\ types.String_IsNull (UserDomainAccessModel.Domain data) = false.

(** [database_id] is neither null nor zero. *)
Definition database_id_set (data : UserDomainAccessModel.t) : Prop :=
  types.Int64_IsNull (UserDomainAccessModel.DatabaseID data) = false
  /\ ValueInt64 (UserDomainAccessModel.DatabaseID data) <> 0.

(** The guards of the domain-access [Read] pass: the state is read without
    error, the client is configured, and [user_id] and [domain] are set. *)
Definition access_read_guards (r : UserDomainAccessResource.t)
    (req : resource.ReadRequest UserDomainAccessModel.t)
    (resp : resource.Response UserDomainAccessModel.t) (c : Client) : Prop :=
  reads_cleanly (resource.Read_State req) resp
  /\ UserDomainAccessResource.client r = Some c
  /\ keys_set (snd (Get (resource.Read_State req))).

(** The requests [sent] are all GETs. *)
Definition only_gets (sent : list Request) : Prop :=
  forall req, req ∈ sent -> Method req = "GET"%string.

(** The error diagnostic that [AddError] appends. *)
Definition error_diag (summary format : string) (operands : list diag.operand)
  : diag.Diagnostic :=
  diag.mk diag.SeverityError summary (format, operands).

(** The lookup of the domain-access [Read]. *)
Definition access_read_lookup (req : resource.ReadRequest UserDomainAccessModel.t)
    (c : Client) : IO DomainUserPermissionData.t :=
  let data := snd (Get (resource.Read_State req)) in
  GetDomainAccess c (ValueString (UserDomainAccessModel.UserId data))
    (ValueString (UserDomainAccessModel.Domain data)).

(** The domain-access [Read] drops the state when its lookup gives the
    error [ErrNotFound] itself, and adds an error and keeps the state for
    every other error of the lookup. *)
Definition access_read_splits_on_identity : Prop :=
  forall r req resp h c err,
    access_read_guards r req resp c ->
    fst (access_read_lookup req c h) = inl err ->
    let resp' := fst (UserDomainAccessResource.Read r req resp h) in
    (err = ErrNotFound ->
     State resp' = None /\ diag.HasError (Diagnostics resp') = false)
    /\ (err <> ErrNotFound ->
        diag.HasError (Diagnostics resp') = true /\ State resp' = State resp).

(** A create whose [access_level] is neither ["domain"] nor ["subdomain"]
    is rejected with an error before any request is sent. *)
Definition access_level_is_checked : Prop :=
  forall r req resp h,
    let data := snd (Get (resource.Create_Plan req)) in
    ValueString (UserDomainAccessModel.AccessLevel data) <> "domain"%string ->
    ValueString (UserDomainAccessModel.AccessLevel data) <> "subdomain"%string ->
    diag.HasError (Diagnostics (fst (UserDomainAccessResource.Create r req resp h))) = true
    /\ snd (UserDomainAccessResource.Create r req resp h) = h.

End vocabulary.

(** ** A small service and codec to run the model on *)

Module demo.

(** [net/url] and [net/http] of the Go library on texts without percent
    escapes, user information and control characters: [getScheme],
    [url.Parse], [u.String()], [validMethod] and [removeEmptyPort]. *)

Definition between (lo hi : nat) (a : ascii) : bool :=
  let n := nat_of_ascii a in (Nat.leb lo n && Nat.leb n hi)%bool.

Definition is_letter (a : ascii) : bool := between 97 122 a || between 65 90 a.

Definition is_digit (a : ascii) : bool := between 48 57 a.

Definition lower (a : ascii) : ascii :=
  if between 65 90 a then ascii_of_nat (nat_of_ascii a + 32) else a.

(** [strings.ToLower], on ASCII. *)
Fixpoint ToLower (s : string) : string :=
  match s with
  | EmptyString => EmptyString
  | String a rest => String (lower a) (ToLower rest)
  end.

(** [strings.Cut] at the byte [sep]: the text before and after its first
    occurrence, and whether there is one. *)
Fixpoint Cut (sep : ascii) (s : string) : string * string * bool :=
  match s with
  | EmptyString => (EmptyString, EmptyString, false)
  | String a rest =>
      if Ascii.eqb a sep then (EmptyString, rest, true)
      else let '(before, after, found) := Cut sep rest in
           (String a before, after, found)
  end.

(** The scan of [getScheme]: [Some (scheme, rest)] at the first colon,
    [None] when a byte that no scheme has comes first. *)
Fixpoint scheme_scan (first : bool) (s : string)
  : sum string (option (string * string)) :=
  match s with
  | EmptyString => inr None
  | String a rest =>
      if is_letter a || (negb first && (is_digit a || strings.in_cutset a "+-."))
      then match scheme_scan false rest with
           | inr (Some (scheme, path)) => inr (Some (String a scheme, path))
           | other => other
           end
      else if Ascii.eqb a ":"
      then if first then inl "missing protocol scheme"%string
           else inr (Some (EmptyString, rest))
      else inr None
  end.

Definition getScheme (rawURL : string) : sum string (string * string) :=
  match scheme_scan true rawURL with
  | inl text => inl text
  | inr None => inr (EmptyString, rawURL)
  | inr (Some found) => inr found
  end.

(** The authority and what follows it: the text up to the first slash, and
    the text from that slash on. *)
Fixpoint authority_cut (s : string) : string * string :=
  match s with
  | EmptyString => (EmptyString, EmptyString)
  | String a rest =>
      if Ascii.eqb a "/" then (EmptyString, s)
      else let '(authority, path) := authority_cut rest in
           (String a authority, path)
  end.

Definition is_empty (s : string) : bool := String.eqb s "".

Definition Parse (rawURL : string) : sum string url_URL :=
  let '(u, frag, _) := Cut "#" rawURL in
  match getScheme u with
  | inl text => inl text
  | inr (scheme, rest) =>
      let scheme := ToLower scheme in
      let '(rest, query, asked) := Cut "?" rest in
      let force := asked && is_empty query in
      if negb (strings.HasPrefix rest "/") && negb (is_empty scheme)
      then inr {| Scheme := scheme; Opaque_ := rest; Host := ""; Path := "";
                  OmitHost := false; ForceQuery := force;
                  RawQuery := query; Fragment := frag |}
      else if negb (strings.HasPrefix rest "/")
              && negb (Nat.eqb (strings.count_byte ":" (fst (authority_cut rest))) 0)
      then inl "first path segment in URL cannot contain colon"%string
      else if (negb (is_empty scheme) || negb (strings.HasPrefix rest "///"))
              && strings.HasPrefix rest "//"
      then let '(host, path) := authority_cut (String.substring 2 (String.length rest) rest) in
           inr {| Scheme := scheme; Opaque_ := ""; Host := host; Path := path;
                  OmitHost := false; ForceQuery := force;
                  RawQuery := query; Fragment := frag |}
      else inr {| Scheme := scheme; Opaque_ := ""; Host := ""; Path := rest;
                  OmitHost := negb (is_empty scheme) && strings.HasPrefix rest "/";
                  ForceQuery := force; RawQuery := query; Fragment := frag |}
  end.

(** [u.String()]. *)
Definition String_of (u : url_URL) : string :=
  let scheme := if is_empty (Scheme u) then "" else Scheme u +:+ ":" in
  let tail :=
    (if ForceQuery u || negb (is_empty (RawQuery u)) then "?" +:+ RawQuery u else "")
    +:+ (if is_empty (Fragment u) then "" else "#" +:+ Fragment u) in
  if negb (is_empty (Opaque_ u)) then scheme +:+ Opaque_ u +:+ tail
  else
    let host :=
      if (negb (is_empty (Scheme u)) || negb (is_empty (Host u)))
         && negb (OmitHost u && is_empty (Host u))
      then (if negb (is_empty (Host u)) || negb (is_empty (Path u)) then "//" else "")
           +:+ Host u
      else "" in
    let slash :=
      if negb (is_empty (Path u)) && negb (strings.HasPrefix (Path u) "/")
         && negb (is_empty (Host u))
      then "/" else "" in
    let dot :=
      if is_empty (scheme +:+ host +:+ slash)
         && negb (Nat.eqb (strings.count_byte ":" (fst (authority_cut (Path u)))) 0)
      then "./" else "" in
    scheme +:+ host +:+ slash +:+ dot +:+ Path u +:+ tail.

(** [validMethod]: a non-empty token. *)
Definition is_token (a : ascii) : bool :=
  is_letter a || is_digit a || strings.in_cutset a "!#$%&'*+-.^_`|~".

Fixpoint all_token (s : string) : bool :=
  match s with
  | EmptyString => true
  | String a rest => is_token a && all_token rest
  end.

Definition validMethod (method : string) : bool :=
  negb (is_empty method) && all_token method.

(** [hasPort]: a colon comes after the last closing bracket. *)
Fixpoint hasPort (seen : bool) (host : string) : bool :=
  match host with
  | EmptyString => seen
  | String a rest =>
      hasPort (if Ascii.eqb a ":" then true
               else if Ascii.eqb a "]" then false else seen) rest
  end.

Definition removeEmptyPort_host (host : string) : string :=
  if hasPort false host then strings.TrimSuffix host ":" else host.

Definition stdlib : GoStdlib :=
  {| url_Parse := Parse;
     url_QueryEscape := fun s => s;
     url_PathEscape := fun s => s;
     url_String := String_of;
     http_validMethod := validMethod;
     http_removeEmptyPort := removeEmptyPort_host;
     base64_EncodeToString := fun s => s;
     os_Getenv := fun _ => EmptyString;
     time_ParseDuration := fun _ => inl "invalid duration";
     strconv_Atoi := fun _ => inl "invalid syntax" |}.

(** The same library with the environment [getenv]. *)
Definition stdlib_with (getenv : string -> string) : GoStdlib :=
  {| url_Parse := url_Parse (GoStdlib := stdlib);
     url_QueryEscape := url_QueryEscape (GoStdlib := stdlib);
     url_PathEscape := url_PathEscape (GoStdlib := stdlib);
     url_String := url_String (GoStdlib := stdlib);
     http_validMethod := http_validMethod (GoStdlib := stdlib);
     http_removeEmptyPort := http_removeEmptyPort (GoStdlib := stdlib);
     base64_EncodeToString := base64_EncodeToString (GoStdlib := stdlib);
     os_Getenv := getenv;
     time_ParseDuration := time_ParseDuration (GoStdlib := stdlib);
     strconv_Atoi := strconv_Atoi (GoStdlib := stdlib) |}.

Definition alice : UserData.t :=
  {| UserData.Username := "alice";
     UserData.Url := "https://lego.test/api/v1/users/7/";
     UserData.Email := "alice@example.com";
     UserData.Groups := [] |}.

Definition example_com : DomainData.t :=
  {| DomainData.Fqdn := "example.com"; DomainData.ID := 3 |}.

Definition grant : DomainUserPermissionData.t :=
  {| DomainUserPermissionData.UserID := 7;
     DomainUserPermissionData.Domain := 3;
     DomainUserPermissionData.AccessLevel := "domain";
     DomainUserPermissionData.ID := 11 |}.

(** Bodies are short tags instead of JSON texts. *)
Definition decode {T} (table : list (string * T)) (body : string) : sum string T :=
  match List.find (fun '(tag, _) => String.eqb tag body) table with
  | Some (_, v) => inr v
  | None => inl "cannot unmarshal"
  end.

Definition codec : Codec :=
  {| dec_user := decode [("{alice}", alice)];
     dec_users := decode [("[]", []); ("[{alice}]", [alice])];
     dec_domain := decode [("{example.com}", example_com)];
     dec_domains := decode [("[]", []); ("[{example.com}]", [example_com])];
     dec_access := decode [("{grant}", grant)];
     dec_accesses := decode [("[]", []); ("[{grant}]", [grant])];
     enc_user := fun u => inr ("{user " +:+ UserCreateData.Username u +:+ "}");
     enc_domain := fun d => inr ("{domain " +:+ DomainData.Fqdn d +:+ "}");
     enc_payload := fun p =>
       inr ("{payload " +:+ DomainUserPermissionCreatePayloadData.UserID p
              +:+ " " +:+ fmt_d (DomainUserPermissionCreatePayloadData.Domain p)
              +:+ " " +:+ DomainUserPermissionCreatePayloadData.AccessLevel p +:+ "}") |}.

(** A route: method, text of the URL and [Authorization] header of the
    request, and the answer. *)
Definition route : Type := string * string * string * sum string Response.

Definition matches (req : Request) (rt : route) : bool :=
  let '(method, url, auth, _) := rt in
  String.eqb method (Method req) && String.eqb url (String_of (URL req))
  && String.eqb auth (default EmptyString (Header req !! "Authorization")).

(** The service that answers by the first matching route, and with
    404 and an empty body when there is none. *)
Definition service (routes : list route) : Remote :=
  {| RoundTrip := fun _ _ req =>
       match List.find (matches req) routes with
       | Some (_, _, _, answer) => answer
       | None => inr {| StatusCode := 404; Body := inr EmptyString |}
       end |}.

(** The service that answers by [before] until it has received a POST, and
    by [after] from then on. *)
Definition service_then (before after : list route) : Remote :=
  {| RoundTrip := fun client h req =>
       if existsb (fun sent => String.eqb (Method sent) "POST") h
       then RoundTrip (Remote := service after) client h req
       else RoundTrip (Remote := service before) client h req |}.

Definition ok (status : Z) (body : string) : sum string Response :=
  inr {| StatusCode := status; Body := inr body |}.

(** The provider's own client, and its [Authorization] header. *)
Definition admin : Client :=
  {| BaseURL := "https://lego.test"; Username := "admin"; Password := "hunter2";
     HTTPClient := {| Timeout := 120 * Second |} |}.

Definition admin_auth : string := "Basic admin:hunter2".

Definition at_lego (path : string) : string := "https://lego.test" +:+ path.

(** The parsed URL of [path] on the host [host], without query. *)
Definition https_url (host path : string) : url_URL :=
  {| Scheme := "https"; Opaque_ := ""; Host := host; Path := path;
     OmitHost := false; ForceQuery := false; RawQuery := ""; Fragment := "" |}.

(** A service with the user alice (ID 7, password ["s3cret"]), the domain
    example.com (ID 3) and no permission yet. *)
Definition routes : list route :=
  [ ("GET", at_lego "/api/v1/users/7/", admin_auth, ok 200 "{alice}");
    ("GET", at_lego "/api/v1/users/?username=alice", admin_auth, ok 200 "[{alice}]");
    ("GET", at_lego "/api/v1/users/?username=alice", "Basic alice:s3cret", ok 403 "");
    ("GET", at_lego "/api/v1/users/?username=alice", "Basic alice:stale", ok 401 "");
    ("GET", at_lego "/api/v1/users/?username=alice", "Basic alice:odd", ok 500 "");
    ("GET", at_lego "/api/v1/users/?username=bob", admin_auth, ok 200 "[]");
    ("GET", at_lego "/api/v1/users/?username=carol", admin_auth, ok 200 "<html>");
    ("POST", at_lego "/api/v1/users/", admin_auth, ok 201 "{alice}");
    ("GET", at_lego "/api/v1/domain-user-permissions/?username=alice&fqdn=example.com",
     admin_auth, ok 200 "[]");
    ("GET", at_lego "/api/v1/domains/?fqdn=example.com", admin_auth, ok 200 "[{example.com}]");
    ("GET", at_lego "/api/v1/domains/?fqdn=down.example", admin_auth, ok 502 "<html>");
    ("POST", at_lego "/api/v1/domains/", admin_auth, ok 201 "{example.com}");
    ("POST", at_lego "/api/v1/domain-user-permissions/", admin_auth, ok 201 "{grant}");
    ("DELETE", at_lego "/api/v1/domain-user-permissions/11/", admin_auth, ok 204 "");
    ("DELETE", at_lego "/api/v1/domain-user-permissions/12/", admin_auth,
     inl "connection refused") ].

(** The same service once the permission 11 of alice on example.com exists. *)
Definition routes_granted : list route :=
  ("GET", at_lego "/api/v1/domain-user-permissions/?username=alice&fqdn=example.com",
   admin_auth, ok 200 "[{grant}]") :: routes.

(** The same service when it fails to delete the permission 11. *)
Definition routes_failing_delete : list route :=
  ("DELETE", at_lego "/api/v1/domain-user-permissions/11/", admin_auth,
   ok 500 "<html>") :: routes_granted.

(** The same service once the POST of a user has been answered: the user
    bob is there, with the record that the service keeps for alice. *)
Definition routes_created : list route :=
  ("GET", at_lego "/api/v1/users/?username=bob", admin_auth, ok 200 "[{alice}]") :: routes.

Definition user_resource : UserResource.t := UserResource.mk (Some admin).

Definition access_resource : UserDomainAccessResource.t :=
  UserDomainAccessResource.mk (Some admin).

Definition nothing {M} : resource.Response M := {| Diagnostics := []; State := None |}.

Definition stored (level : string) (id : types.Int64) : UserDomainAccessModel.t :=
  {| UserDomainAccessModel.UserId := StringValue "7";
     UserDomainAccessModel.Domain := StringValue "example.com";
     UserDomainAccessModel.AccessLevel := StringValue level;
     UserDomainAccessModel.Id := StringValue ("7:example.com:" +:+ level);
     UserDomainAccessModel.DatabaseID := id |}.

Definition planned (level : string) : UserDomainAccessModel.t :=
  {| UserDomainAccessModel.UserId := StringValue "7";
     UserDomainAccessModel.Domain := StringValue "example.com";
     UserDomainAccessModel.AccessLevel := StringValue level;
     UserDomainAccessModel.Id := StringUnknown;
     UserDomainAccessModel.DatabaseID := Int64Unknown |}.

Definition user_model (username password : string) : UserModel.t :=
  {| UserModel.Username := StringValue username;
     UserModel.Password := StringValue password;
     UserModel.Email := StringNull;
     UserModel.Id := StringValue "7" |}.

End demo.

(** ** Vocabulary of the statements about the calls *)

Section call_vocabulary.
Context {stdlib : GoStdlib} {codec : Codec} {remote : Remote}.

(** [req] was built by [NewRequest] on the client [c], for one of the
    [methods]. *)
Definition built_with (c : Client) (methods : list string) (req : Request) : Prop :=
  exists method path body,
    method ∈ methods /\ request_for c method path body req.

(** Whatever the history, [f] appends at most [n] requests to it, each of
    them with the property [P]. *)
Definition sends_within {X} (P : Request -> Prop) (n : nat)
    (f : list Request -> X * list Request) : Prop :=
  forall h, exists sent,
    snd (f h) = h ++ sent
    /\ (List.length sent <= n)%nat
    /\ Forall P sent.

(** The [Authorization] header of basic authentication. *)
Definition basic_auth (username password : string) : string :=
  "Basic " +:+ base64_EncodeToString (username +:+ ":" +:+ password).

Definition permission_by_id_path (id : Z) : string :=
  "/api/v1/domain-user-permissions/" +:+ fmt_d id +:+ "/".

(** The result [r] of a list-shaped lookup is the first element of the
    array that the body decodes to, or the single object that it decodes to
    when it does not decode as an array. *)
Definition first_or_single {A} (dec_list : json_Unmarshal (list A))
    (dec_single : json_Unmarshal A) (r : result A) (c : Client) (path : string)
    (h : list Request) : Prop :=
  forall resp body, answers c h "GET" path None resp ->
                    StatusCode resp <> StatusNotFound ->
                    Body resp = inr body ->
                    (forall first rest, dec_list body = inr (first :: rest) ->
                                        r = inr first)
                    /\ (forall text single, dec_list body = inl text ->
                                            dec_single body = inr single ->
                                            r = inr single).

(** The result [r] of a create call whose POST was answered by [resp] with
    the body [body]: an error that quotes status and body for a status
    below 200 or from 400 on, and the decoded body for a status from 200 to
    399. *)
Definition created_by_status {A} (dec : json_Unmarshal A) (r : result A)
    (resp : Response) (body : string) (failed parse_failed : string) : Prop :=
  (StatusCode resp < 200 \/ 400 <= StatusCode resp ->
   r = inl (fmt_Errorf failed [arg_d (StatusCode resp); arg_s body]))
  /\ (200 <= StatusCode resp < 400 ->
      r = match dec body with
          | inr v => inr v
          | inl text => inl (fmt_Errorf_w parse_failed [arg_s body] (lib_error text))
          end).

(** [req] is a request of the probe of [username] and [password]: a GET
    without body that carries the probed credentials, and whose URL is
    parsed from the text of the users endpoint below the base URL of [c],
    or below that base URL behind ["https://"]. *)
Definition probe_request (c : Client) (username password : string) (req : Request)
  : Prop :=
  Method req = "GET"%string
  /\ ReqBody req = None
  /\ Header req !! "Authorization" = Some (basic_auth username password)
  /\ exists u,
       (u = BaseURL c \/ u = "https://" +:+ BaseURL c)
       /\ request_url (strings.TrimRight u "/" +:+ "/api/v1/users/?username="
                          +:+ url_QueryEscape username)
          = Some (URL req).

End call_vocabulary.

(** ** Vocabulary of the statements about the replacement of a grant *)

Section replace_vocabulary.
Context {stdlib : GoStdlib} {codec : Codec} {remote : Remote}.

(** What [DeleteDomainAccess] sends for the permission [id]: the DELETE
    that [NewRequest] builds for it, and nothing when the request cannot be
    built. *)
Definition permission_delete (c : Client) (id : Z) : list Request :=
  built (NewRequest c "DELETE" (permission_by_id_path id) None).

(** The delete of the permission [id] after the history [h] fails: its
    request cannot be built, or the request is sent and gets no answer. *)
Definition delete_fails (c : Client) (id : Z) (h : list Request) : Prop :=
  permission_delete c id = []
  \/ exists sent text,
       permission_delete c id = [sent]
       /\ RoundTrip (HTTPClient c) h sent = inl text.

(** An [Update] whose DELETE is answered with a status of 400 or more
    sends nothing after the DELETE and leaves the state as it was. *)
Definition rejected_delete_stops_update : Prop :=
  forall (r : UserDomainAccessResource.t)
         (req : resource.UpdateRequest UserDomainAccessModel.t)
         (resp : resource.Response UserDomainAccessModel.t)
         (h : list Request) (c : Client) (sent : Request) (answer : Response),
    let data := snd (Get (resource.Update_Plan req)) in
    reads_cleanly (resource.Update_Plan req) resp ->
    UserDomainAccessResource.client r = Some c ->
    keys_set data ->
    database_id_set data ->
    request_for c "DELETE"
      (permission_by_id_path (ValueInt64 (UserDomainAccessModel.DatabaseID data)))
      None sent ->
    RoundTrip (HTTPClient c) h sent = inr answer ->
    400 <= StatusCode answer ->
    let out := UserDomainAccessResource.Update r req resp h in
    snd out = h ++ [sent] /\ State (fst out) = State resp.

End replace_vocabulary.

(** ** Vocabulary of the statements about the reconcilers *)

Section reconciler_vocabulary.
Context {stdlib : GoStdlib} {codec : Codec} {remote : Remote}.

(** The response [out] of a reconciler call that started from [resp] holds
    the state of [resp] whenever it holds an error. *)
Definition keeps_state_on_error {M} (resp out : resource.Response M) : Prop :=
  diag.HasError (Diagnostics out) = true -> State out = State resp.

(** A request of the user [Read]: the lookup by the client [c], or the
    probe of the stored credentials. *)
Definition user_read_request (c : Client) (data : UserModel.t) (req : Request)
  : Prop :=
  built_with c ["GET"%string] req
  \/ probe_request c (ValueString (UserModel.Username data))
       (ValueString (UserModel.Password data)) req.

End reconciler_vocabulary.

(** ** Vocabulary of the guards and of the errors *)

Section guard_vocabulary.
Context {stdlib : GoStdlib} {codec : Codec} {remote : Remote}.

(** The reconciler call that gave [out] from the response [resp] and the
    history [h] was refused: nothing was sent, an error was added and the
    state is as it was. *)
Definition refused {M} (resp : resource.Response M) (h : list Request)
    (out : resource.Response M * list Request) : Prop :=
  snd out = h
  /\ diag.HasError (Diagnostics (fst out)) = true
  /\ State (fst out) = State resp.

(** The guard that every reconciler call starts with fails: there is no
    client, or [Get] on [src] left an error. *)
Definition guard_fails {M} (client : option Client) (src : resource.Source M)
    (resp : resource.Response M) : Prop :=
  client = None \/ diag.HasError (after_get src resp) = true.

End guard_vocabulary.

Section error_vocabulary.
Context {stdlib : GoStdlib} {codec : Codec} {remote : Remote}.

(** On the errors of [m], [errors.Is(err, ErrNotFound)] and
    [err == ErrNotFound] agree: none of them wraps [ErrNotFound]. *)
Definition not_found_unwrapped {A} (m : IO A) : Prop :=
  forall h err, fst (m h) = inl err ->
                errors_Is_ErrNotFound err = eq_ErrNotFound err.

(** No error of [m] is [ErrNotFound] or wraps it. *)
Definition never_not_found {A} (m : IO A) : Prop :=
  forall h err, fst (m h) = inl err -> errors_Is_ErrNotFound err = false.

End error_vocabulary.

(** ** The domain calls in the earlier revision of the client

    The client comes in more than one revision.  In the earlier one the IDs
    of domains and permissions are strings, the calls hand the errors of
    their steps on as they are, and [CreateDomainAccess] creates the domain
    when the lookup gives a domain without ID.  [NewRequest] and [Do] are
    the same in both revisions. *)

Module earlier.

Module DomainData.
Record t : Type := mk { Fqdn : string; ID : string }.
End DomainData.

Module DomainUserPermissionData.
Record t : Type := mk {
  UserID : string; Domain : string; AccessLevel : string; ID : string }.
End DomainUserPermissionData.

Class Codec : Type := {
  dec_domain : json_Unmarshal DomainData.t;
  dec_domains : json_Unmarshal (list DomainData.t);
  dec_access : json_Unmarshal DomainUserPermissionData.t;
  enc_domain : json_Marshal DomainData.t;
  enc_access : json_Marshal DomainUserPermissionCreateData.t;
}.

Section calls.
Context {stdlib : GoStdlib} {codec : Codec} {remote : Remote}.

(** [io.ReadAll(resp.Body)], with the error as it is. *)
Definition ReadAll (resp : Response) : IO string :=
  match Body resp with
  | inl text => fail (lib_error text)
  | inr body => ret body
  end.

(** [Client.GetDomain]. *)
Definition GetDomain (c : Client) (fqdn : string) : IO DomainData.t :=
  req ← lift (NewRequest c "GET" ("/api/v1/domains/?fqdn=" +:+ url_QueryEscape fqdn) None);
  resp ← Do c req;
  if StatusCode resp =? StatusNotFound then fail ErrNotFound else
  body ← ReadAll resp;
  match dec_domains body with
  | inr [] => fail ErrNotFound
  | inr (first :: _) => ret first
  | inl _ =>
      match dec_domain body with
      | inr single => ret single
      | inl _ => fail (fmt_Errorf "unable to parse domain response: %s" [arg_s body])
      end
  end.

(** [Client.CreateDomain]. *)
Definition CreateDomain (c : Client) (domain : DomainData.t) : IO DomainData.t :=
  b ← lift (match enc_domain domain with
            | inl text => inl (lib_error text)
            | inr b => inr b
            end);
  req ← lift (NewRequest c "POST" "/api/v1/domains/" (Some b));
  resp ← Do c req;
  body ← ReadAll resp;
  if (StatusCode resp <? 200) || (StatusCode resp >=? 400)
  then fail (fmt_Errorf "error creating domain: status %d, body: %s"
               [arg_d (StatusCode resp); arg_s body])
  else
  match dec_domain body with
  | inl text =>
      fail (fmt_Errorf_w "unable to parse domain response: %w (body: %s)"
              [arg_s body] (lib_error text))
  | inr domainData => ret domainData
  end.

(** [Client.CreateDomainAccess]. *)
Definition CreateDomainAccess (c : Client) (access : DomainUserPermissionCreateData.t)
  : IO DomainUserPermissionData.t :=
  (* get domain by fqdn *)
  domainData ← wrapping "unable to get domain data: %w"
                  (GetDomain c (DomainUserPermissionCreateData.Domain access));
  domainData ←
    (if String.eqb (DomainData.ID domainData) ""
     then
       (* create the domain here *)
       (newDomainData ← wrapping "unable to create domain: %w"
                          (CreateDomain c
                             {| DomainData.Fqdn :=
                                  DomainUserPermissionCreateData.Domain access;
                                DomainData.ID := "" |});
        ret newDomainData)
     else ret domainData);
  (* set access.Domain to domainData.ID *)
  let access :=
    {| DomainUserPermissionCreateData.UserID :=
         DomainUserPermissionCreateData.UserID access;
       DomainUserPermissionCreateData.Domain := DomainData.ID domainData;
       DomainUserPermissionCreateData.AccessLevel :=
         DomainUserPermissionCreateData.AccessLevel access |} in
  b ← lift (match enc_access access with
            | inl text => inl (lib_error text)
            | inr b => inr b
            end);
  req ← lift (NewRequest c "POST" "/api/v1/domain-user-permissions/" (Some b));
  resp ← Do c req;
  body ← ReadAll resp;
  if (StatusCode resp <? 200) || (StatusCode resp >=? 400)
  then fail (fmt_Errorf "error creating domain access: status %d, body: %s"
               [arg_d (StatusCode resp); arg_s body])
  else
  match dec_access body with
  | inl text =>
      fail (fmt_Errorf_w "unable to parse domain access response: %w (body: %s)"
              [arg_s body] (lib_error text))
  | inr accessData => ret accessData
  end.

End calls.

(** A codec on short tags, to run the calls on the small service. *)
Definition tags : Codec :=
  {| dec_domain := demo.decode [("{example.com}", DomainData.mk "example.com" "3")];
     dec_domains :=
       demo.decode [("[]", []); ("[{example.com}]", [DomainData.mk "example.com" "3"])];
     dec_access :=
       demo.decode [("{grant}", DomainUserPermissionData.mk "7" "3" "domain" "11")];
     enc_domain := fun d => inr ("{domain " +:+ DomainData.Fqdn d +:+ "}");
     enc_access := fun a =>
       inr ("{access " +:+ DomainUserPermissionCreateData.UserID a
              +:+ " " +:+ DomainUserPermissionCreateData.Domain a
              +:+ " " +:+ DomainUserPermissionCreateData.AccessLevel a +:+ "}") |}.

End earlier.

Section earlier_vocabulary.
Context {stdlib : GoStdlib} {codec : earlier.Codec} {remote : Remote}.

(** The lookup of the domain [fqdn], sent after [h] as the request [req],
    finds nothing: it is answered with 404, or with a body that decodes as
    an empty array. *)
Definition finds_no_domain (c : Client) (fqdn : string) (h : list Request)
    (req : Request) : Prop :=
  request_for c "GET" (domains_path fqdn) None req
  /\ exists resp,
       RoundTrip (HTTPClient c) h req = inr resp
       /\ (StatusCode resp = StatusNotFound
           \/ exists body, Body resp = inr body /\ earlier.dec_domains body = inr []).

End earlier_vocabulary.

(** ** The deletion of a user in the first revision of the client

    In the first revision a user is deleted by its URL.  [NewRequest] and
    [Do] are the same as in the current revision. *)

Module earliest.

Section calls.
Context {stdlib : GoStdlib} {remote : Remote}.

(** [Client.DeleteUser]. *)
Definition DeleteUser (c : Client) (urlStr : string) : IO Response :=
  if strings.HasPrefix urlStr "http://" || strings.HasPrefix urlStr "https://"
  then
    req ← lift (http_NewRequest "DELETE" urlStr None);
    let req := SetBasicAuth req (Username c) (Password c) in
    let req := Header_Set req "User-Agent" "terraform-provider-legocharm" in
    Do c req
  else
    (* Otherwise treat as relative path. *)
    (req ← lift (NewRequest c "DELETE" urlStr None);
     Do c req).

End calls.

End earliest.

Section earliest_vocabulary.
Context {stdlib : GoStdlib} {remote : Remote}.

(** [req] is a DELETE for the URL parsed from the text [urlStr] itself,
    with the credentials of the client [c]. *)
Definition deletes_at (c : Client) (urlStr : string) (req : Request) : Prop :=
  Method req = "DELETE"%string
  /\ request_url urlStr = Some (URL req)
  /\ Header req !! "Authorization" = Some (basic_auth (Username c) (Password c)).

End earliest_vocabulary.

(** * Theorems *)

(** ** Facts about [strings] *)

Lemma prefix_byte (c : ascii) (s : string) :
  String.prefix (String c EmptyString) s
  = match s with
    | String a _ => Ascii.eqb a c
    | EmptyString => false
    end.
Proof.
  destruct s as [|a s]; [reflexivity|].
  cbn [String.prefix].
  destruct (ascii_dec c a) as [<-|Hne].
  - rewrite Ascii.eqb_refl. destruct s; reflexivity.
  - symmetry. apply Ascii.eqb_neq. congruence.
Qed.

Lemma prefix_slash (s : string) :
  String.prefix "/" s = match s with
                        | String a _ => Ascii.eqb a "/"
                        | EmptyString => false
                        end.
Proof. apply prefix_byte. Qed.

Lemma in_cutset_slash (a : ascii) : strings.in_cutset a "/" = Ascii.eqb a "/".
Proof. simpl. destruct (Ascii.eqb a "/"); reflexivity. Qed.

(** [TrimLeft] leaves no leading slash. *)
Lemma TrimLeft_no_leading_slash (s : string) :
  strings.HasPrefix (strings.TrimLeft s "/") "/" = false.
Proof.
  unfold strings.HasPrefix.
  induction s as [|a s IH]; [reflexivity|].
  cbn [strings.TrimLeft]. rewrite in_cutset_slash.
  destruct (Ascii.eqb a "/") eqn:E; [exact IH|].
  rewrite prefix_slash. exact E.
Qed.

(** [TrimRight] leaves no trailing slash. *)
Lemma TrimRight_no_trailing_slash (s : string) :
  strings.HasSuffix (strings.TrimRight s "/") "/" = false.
Proof.
  induction s as [|a s IH]; [reflexivity|].
  cbn [strings.TrimRight]. rewrite in_cutset_slash.
  destruct (strings.TrimRight s "/") as [|b r] eqn:E.
  - destruct (Ascii.eqb a "/") eqn:Ea; [reflexivity|].
    cbn. rewrite Ea. reflexivity.
  - cbn [strings.HasSuffix] in *. rewrite IH.
    cbn. destruct (Ascii.eqb a "/"); reflexivity.
Qed.

(** With the separator [":"], the scan of [Split] never skips. *)
Lemma Split_scan_colon (cur : string) (a : ascii) (rest : string) :
  strings.Split_scan ":" O cur (String a rest)
  = if Ascii.eqb a ":"
    then String.rev cur :: strings.Split_scan ":" O EmptyString rest
    else strings.Split_scan ":" O (String a cur) rest.
Proof.
  cbn [strings.Split_scan]. rewrite prefix_byte. reflexivity.
Qed.

Lemma Split_scan_colon_length (s cur : string) :
  List.length (strings.Split_scan ":" O cur s) = S (strings.count_byte ":" s).
Proof.
  revert cur. induction s as [|a s IH]; intros cur; [reflexivity|].
  rewrite Split_scan_colon. cbn [strings.count_byte].
  rewrite (Ascii.eqb_sym ":" a).
  destruct (Ascii.eqb a ":"); cbn [List.length]; rewrite IH; reflexivity.
Qed.

(** [Split] on [":"] gives one part more than there are colons. *)
Lemma Split_colon_length (s : string) :
  List.length (strings.Split s ":") = S (strings.count_byte ":" s).
Proof. apply Split_scan_colon_length. Qed.

(** ** Client construction and request building *)

Section client_facts.
Context {stdlib : GoStdlib}.

(** A client that [NewClient] returns holds the given credentials, and its
    base URL is the address, or the address behind ["https://"], without
    the slashes at its end. *)
Lemma NewClient_inr address username password c :
  NewClient address username password = inr c ->
  exists addr u,
    address = Some addr /\ (u = addr \/ u = "https://" +:+ addr)
    /\ BaseURL c = strings.TrimRight u "/"
    /\ username = Some (Username c) /\ password = Some (Password c)
    /\ Username c <> EmptyString /\ Password c <> EmptyString.
Proof.
  unfold NewClient.
  destruct address as [[|a0 addr]|]; try discriminate.
  destruct username as [[|u0 user]|]; try discriminate.
  destruct password as [[|p0 pass]|]; try discriminate.
  set (address := String a0 addr).
  destruct (parse_failed (url_Parse address)) eqn:Hfailed.
  - destruct (negb (strings.HasPrefix address "http://")
              && negb (strings.HasPrefix address "https://")).
    + destruct (parse_failed (url_Parse ("https://" +:+ address))); [discriminate|].
      destruct client_timeout; [discriminate|].
      intros [= <-]. exists address, ("https://" +:+ address). cbn.
      repeat split; auto; try discriminate.
    + rewrite Hfailed. discriminate.
  - destruct client_timeout; [discriminate|].
    intros [= <-]. exists address, address. cbn.
    repeat split; auto; try discriminate.
Qed.

(** An empty user name or password fails the construction. *)
Lemma NewClient_empty_credentials address username password :
  username = EmptyString \/ password = EmptyString ->
  exists err, NewClient address (Some username) (Some password) = inl err.
Proof.
  intros Hempty. unfold NewClient.
  destruct address as [[|a0 addr]|]; try (eexists; reflexivity).
  destruct username as [|u0 user]; try (eexists; reflexivity).
  destruct password as [|p0 pass]; try (eexists; reflexivity).
  destruct Hempty; discriminate.
Qed.

(** The request that [http.NewRequest] builds. *)
Lemma http_NewRequest_inr method url body req :
  http_NewRequest method url body = inr req ->
  request_url url = Some (URL req)
  /\ Method req = (if String.eqb method "" then "GET"%string else method)
  /\ Header req = ∅
  /\ ReqBody req = body.
Proof.
  unfold http_NewRequest, request_url. cbv zeta.
  destruct (negb (http_validMethod _)); [discriminate|].
  destruct (url_Parse _) as [text|parsed]; [discriminate|].
  intros [= <-]. auto.
Qed.

(** What [NewRequest] puts in the request it builds. *)
Lemma NewRequest_inr c method path body req :
  NewRequest c method path body = inr req ->
  request_url (BaseURL c +:+ "/" +:+ strings.TrimLeft path "/") = Some (URL req)
  /\ Method req = (if String.eqb method "" then "GET"%string else method)
  /\ ReqBody req = body
  /\ Header req !! "Authorization"
     = Some ("Basic " +:+ base64_EncodeToString (Username c +:+ ":" +:+ Password c))
  /\ Header req !! "User-Agent" = Some "terraform-provider-legocharm"%string
  /\ Header req !! "Content-Type"
     = match body with
       | Some _ => Some "application/json"%string
       | None => None
       end.
Proof.
  unfold NewRequest, http_NewRequest, request_url. cbv zeta.
  destruct (negb (http_validMethod _)); [discriminate|].
  destruct (url_Parse _) as [text|parsed]; [discriminate|].
  unfold Header_Get, Header_Set, SetBasicAuth. cbn [Header Method URL ReqBody].
  rewrite lookup_insert_ne by discriminate.
  rewrite lookup_insert_ne by discriminate.
  rewrite lookup_empty. cbn [default String.eqb andb].
  destruct body as [b|]; cbn [bool_decide]; intros [= <-]; cbn [Header Method URL ReqBody].
  - repeat split; rewrite ?lookup_insert_ne by discriminate; apply lookup_insert_eq.
  - repeat split; rewrite ?lookup_insert_ne by discriminate;
      first [apply lookup_insert_eq | apply lookup_empty].
Qed.

(** The errors of [NewRequest] are those of [http.NewRequest]. *)
Lemma NewRequest_inl c method path body err :
  NewRequest c method path body = inl err ->
  (exists m, err = fmt_Errorf "net/http: invalid method %q" [arg_q m])
  \/ exists text, err = lib_error text.
Proof.
  unfold NewRequest, http_NewRequest. cbv zeta.
  destruct (negb (http_validMethod _)); [intros [= <-]; eauto|].
  destruct (url_Parse _) as [text|parsed]; [intros [= <-]; eauto|discriminate].
Qed.

End client_facts.

(** [NewRequest] returns a request exactly when [http.NewRequest] accepts
    the method and [url.Parse] accepts the joined text. *)
Lemma NewRequest_builds {stdlib : GoStdlib} (c : Client) (method path : string)
    (body : option string) :
  (exists req, NewRequest c method path body = inr req)
  <-> http_validMethod (if String.eqb method "" then "GET"%string else method) = true
      /\ exists parsed,
           url_Parse (BaseURL c +:+ "/" +:+ strings.TrimLeft path "/") = inr parsed.
Proof.
  unfold NewRequest, http_NewRequest. cbv zeta.
  destruct (http_validMethod _); cbn [negb].
  - destruct (url_Parse _) as [text|parsed].
    + split; [intros [? [=]]|intros (_ & ? & [=])].
    + split; [eauto|intros _; eauto].
  - split; [intros [? [=]]|intros [[=] _]].
Qed.

(** C7, amended.  For a client made by [NewClient], whose base URL has no
    slash at its end, [NewRequest] joins the base URL, one ["/"] and the
    path without its leading slashes into a text, and returns a request
    exactly when the method is valid and [url.Parse] accepts that text.  The
    URL of the request is the URL parsed from the text, with an empty port
    removed; its [Authorization] header is the basic authentication of the
    client's user name and password, its [User-Agent] is
    ["terraform-provider-legocharm"], and its [Content-Type] is
    ["application/json"] exactly when a body is given. *)
Theorem NewRequest_url_and_headers {stdlib : GoStdlib}
    (address username password : option string) (c : Client)
    (method path : string) (body : option string) :
  let joined := BaseURL c +:+ "/" +:+ strings.TrimLeft path "/" in
  NewClient address username password = inr c ->
  (exists addr u, address = Some addr /\ (u = addr \/ u = "https://" +:+ addr)
                  /\ BaseURL c = strings.TrimRight u "/")
  /\ strings.HasSuffix (BaseURL c) "/" = false
  /\ strings.HasPrefix (strings.TrimLeft path "/") "/" = false
  /\ username = Some (Username c) /\ password = Some (Password c)
  /\ ((exists req, NewRequest c method path body = inr req)
      <-> http_validMethod (if String.eqb method "" then "GET"%string else method) = true
          /\ exists parsed, url_Parse joined = inr parsed)
  /\ (forall req,
         NewRequest c method path body = inr req ->
         (exists parsed, url_Parse joined = inr parsed
                         /\ URL req = removeEmptyPort parsed)
         /\ Header req !! "Authorization"
            = Some ("Basic " +:+ base64_EncodeToString (Username c +:+ ":" +:+ Password c))
         /\ Header req !! "User-Agent" = Some "terraform-provider-legocharm"%string
         /\ Header req !! "Content-Type"
            = match body with
              | Some _ => Some "application/json"%string
              | None => None
              end).
Proof.
  intros joined Hc.
  destruct (NewClient_inr _ _ _ _ Hc) as (addr & u & Ha & Hu & Hbase & Hn & Hp & _ & _).
  split; [exists addr, u; auto|].
  split; [rewrite Hbase; apply TrimRight_no_trailing_slash|].
  split; [apply TrimLeft_no_leading_slash|].
  split; [exact Hn|]. split; [exact Hp|].
  split; [apply NewRequest_builds|].
  intros req Hreq.
  destruct (NewRequest_inr _ _ _ _ _ Hreq) as (Hurl & _ & _ & Hauth & Hua & Hct).
  split; [|auto].
  unfold request_url in Hurl. fold joined in Hurl.
  destruct (url_Parse joined) as [text|parsed]; [discriminate|].
  injection Hurl as <-. eauto.
Qed.

(** The request for ["//api/v1/users/"] with a body, by the client made
    for the address ["lego.test//"]. *)
Lemma NewRequest_url_and_headers_witness :
  let c := {| BaseURL := "https://lego.test"; Username := "admin";
              Password := "hunter2"; HTTPClient := {| Timeout := 120 * Second |} |} in
  exists req,
    NewRequest (stdlib := demo.stdlib) c "POST" "//api/v1/users/" (Some "{}"%string)
    = inr req
    /\ URL req = demo.https_url "lego.test" "/api/v1/users/"
    /\ Header req !! "Authorization" = Some "Basic admin:hunter2"%string
    /\ Header req !! "Content-Type" = Some "application/json"%string.
Proof.
  intros c.
  destruct (NewRequest_url_and_headers (stdlib := demo.stdlib)
              (Some "lego.test//"%string) (Some "admin"%string)
              (Some "hunter2"%string) c "POST" "//api/v1/users/"
              (Some "{}"%string) eq_refl)
    as (_ & _ & _ & _ & _ & Hbuilt & Hreq).
  destruct (proj2 Hbuilt (conj eq_refl (ex_intro _ _ eq_refl))) as [req Hnew].
  exists req. split; [exact Hnew|].
  destruct (Hreq req Hnew) as ((parsed & Hparsed & Hurl) & Hauth & _ & Hct).
  split; [|split; [exact Hauth|exact Hct]].
  injection Hparsed as <-. exact Hurl.
Defined.

(** The URL of a request need not read as the joined text.  The client
    made for the address ["HTTPS://lego.test"] keeps that text as its base
    URL, and the URL of its request for ["/api/v1/users/"] is the parsed
    one, whose scheme is in lower case. *)
Lemma NewRequest_url_is_not_the_joined_text :
  exists c req,
    NewClient (stdlib := demo.stdlib) (Some "HTTPS://lego.test"%string)
      (Some "admin"%string) (Some "hunter2"%string) = inr c
    /\ NewRequest (stdlib := demo.stdlib) c "GET" "/api/v1/users/" None = inr req
    /\ url_String (GoStdlib := demo.stdlib) (URL req)
       = "https://lego.test/api/v1/users/"%string
    /\ ~ url_is_joined_text (stdlib := demo.stdlib) c "/api/v1/users/" req.
Proof.
  eexists _, _. split; [reflexivity|]. split; [reflexivity|].
  split; [reflexivity|]. unfold url_is_joined_text. cbn. discriminate.
Qed.

(** ** Diagnostics *)

Lemma Append_keeps (ds new : list diag.Diagnostic) (d : diag.Diagnostic) :
  d ∈ ds -> d ∈ diag.Append ds new.
Proof.
  revert ds. induction new as [|x new IH]; intros ds Hin; [exact Hin|].
  cbn [diag.Append]. apply IH.
  destruct (diag.Contains ds x); [exact Hin|].
  apply elem_of_app. left. exact Hin.
Qed.

Lemma Append_adds (ds new : list diag.Diagnostic) (d : diag.Diagnostic) :
  d ∈ new -> d ∈ diag.Append ds new.
Proof.
  revert ds. induction new as [|x new IH]; intros ds Hin.
  - by apply elem_of_nil in Hin.
  - cbn [diag.Append]. apply elem_of_cons in Hin as [->|Hin]; [|by apply IH].
    apply Append_keeps. unfold diag.Contains.
    destruct (bool_decide_reflect (x ∈ ds)) as [Hx|_]; [exact Hx|].
    apply elem_of_app. right. apply list_elem_of_singleton. reflexivity.
Qed.

Lemma Append_origin (ds new : list diag.Diagnostic) (d : diag.Diagnostic) :
  d ∈ diag.Append ds new -> d ∈ ds \/ d ∈ new.
Proof.
  revert ds. induction new as [|x new IH]; intros ds Hin; [left; exact Hin|].
  cbn [diag.Append] in Hin. apply IH in Hin as [Hin|Hin].
  - destruct (diag.Contains ds x); [left; exact Hin|].
    apply elem_of_app in Hin as [Hin|Hin]; [left; exact Hin|].
    apply list_elem_of_singleton in Hin as ->. right. apply elem_of_cons. by left.
  - right. apply elem_of_cons. by right.
Qed.

Lemma HasError_elem (ds : list diag.Diagnostic) :
  diag.HasError ds = true <-> exists d, d ∈ ds /\ diag.is_error d = true.
Proof.
  unfold diag.HasError. rewrite existsb_exists. split.
  - intros (d & Hin & Herr). exists d. split; [by apply list_elem_of_In | exact Herr].
  - intros (d & Hin & Herr). exists d. split; [by apply list_elem_of_In | exact Herr].
Qed.

Lemma HasError_false_elem (ds : list diag.Diagnostic) (d : diag.Diagnostic) :
  diag.HasError ds = false -> d ∈ ds -> diag.is_error d = false.
Proof.
  intros Hclean Hin. destruct (diag.is_error d) eqn:Herr; [|reflexivity].
  assert (diag.HasError ds = true) as Habs by (apply HasError_elem; eauto).
  rewrite Habs in Hclean. discriminate Hclean.
Qed.

Lemma HasError_with_error (ds : list diag.Diagnostic) summary format operands :
  diag.HasError (ds ++ [error_diag summary format operands]) = true.
Proof. unfold diag.HasError. rewrite existsb_app. cbn. apply orb_true_r. Qed.

(** The diagnostic of [AddError] is in the collection afterwards, which
    therefore has an error, and the state is untouched. *)
Lemma AddError_spec {M} (resp : resource.Response M) summary format operands :
  let resp' := AddError resp summary (format, operands) in
  error_diag summary format operands ∈ Diagnostics resp'
  /\ diag.HasError (Diagnostics resp') = true
  /\ State resp' = State resp.
Proof.
  intros resp'.
  assert (error_diag summary format operands ∈ Diagnostics resp') as Hin.
  { apply Append_adds. apply list_elem_of_singleton. reflexivity. }
  split; [exact Hin|]. split; [|reflexivity].
  apply HasError_elem. eauto.
Qed.

(** On a collection without errors, [AddError] puts its diagnostic at the
    end. *)
Lemma AddError_clean {M} (resp : resource.Response M) summary format operands :
  diag.HasError (Diagnostics resp) = false ->
  AddError resp summary (format, operands)
  = {| Diagnostics := Diagnostics resp ++ [error_diag summary format operands];
       State := State resp |}.
Proof.
  intros Hclean. unfold AddError, Append. cbn [diag.Append]. f_equal.
  unfold diag.Contains.
  destruct (bool_decide_reflect
              (diag.mk diag.SeverityError summary (format, operands) ∈ Diagnostics resp))
    as [Hin|_]; [|reflexivity].
  apply (HasError_false_elem _ _ Hclean) in Hin. discriminate Hin.
Qed.

(** [AddWarning] adds no error: the collection holds the warning and what
    it held before. *)
Lemma AddWarning_spec {M} (resp : resource.Response M) summary format operands :
  let warning := diag.mk diag.SeverityWarning summary (format, operands) in
  let resp' := AddWarning resp summary (format, operands) in
  warning ∈ Diagnostics resp'
  /\ (forall d, d ∈ Diagnostics resp' -> d ∈ Diagnostics resp \/ d = warning)
  /\ diag.HasError (Diagnostics resp') = diag.HasError (Diagnostics resp)
  /\ State resp' = State resp.
Proof.
  intros warning resp'.
  assert (forall d, d ∈ Diagnostics resp' -> d ∈ Diagnostics resp \/ d = warning)
    as Horigin.
  { intros d Hin. apply Append_origin in Hin as [Hin|Hin]; [by left|].
    right. by apply list_elem_of_singleton in Hin. }
  split; [apply Append_adds; apply list_elem_of_singleton; reflexivity|].
  split; [exact Horigin|]. split; [|reflexivity].
  destruct (diag.HasError (Diagnostics resp)) eqn:Hbefore.
  - apply HasError_elem in Hbefore as (d & Hin & Herr).
    apply HasError_elem. exists d. split; [|exact Herr].
    by apply Append_keeps.
  - destruct (diag.HasError (Diagnostics resp')) eqn:Hafter; [|reflexivity].
    apply HasError_elem in Hafter as (d & Hin & Herr).
    apply Horigin in Hin as [Hin| ->]; [|discriminate Herr].
    rewrite (HasError_false_elem _ _ Hbefore Hin) in Herr. discriminate Herr.
Qed.

(** ** Import by composite key *)

Lemma length_two {A} (l : list A) :
  List.length l = 2%nat -> exists a b, l = [a; b].
Proof. destruct l as [|a [|b [|]]]; try discriminate. eauto. Qed.

Lemma length_three {A} (l : list A) :
  List.length l = 3%nat -> exists a b c, l = [a; b; c].
Proof. destruct l as [|a [|b [|c [|]]]]; try discriminate. eauto. Qed.

(** C4.  The user import stores the two parts of an ID with exactly one
    colon as user name and password; the domain-access import stores the
    three parts of an ID with exactly two colons as [user_id], [domain] and
    [access_level], and the whole ID as [id].  For every other ID the
    import adds the error ["Invalid Import ID"] and leaves the state as it
    was. *)
Theorem ImportState_accepts_by_part_count (id : string) :
  let parts := strings.Split id ":" in
  List.length parts = S (strings.count_byte ":" id)
  /\ (forall r resp,
        (exists username password,
            parts = [username; password]
            /\ UserResource.ImportState r {| resource.ID := id |} resp
               = {| Diagnostics := Diagnostics resp;
                    State := Some {| UserModel.Username := StringValue username;
                                     UserModel.Password := StringValue password;
                                     UserModel.Email := StringNull;
                                     UserModel.Id := StringNull |} |})
        \/ (List.length parts <> 2%nat
            /\ let resp' := UserResource.ImportState r {| resource.ID := id |} resp in
               error_diag "Invalid Import ID"
                 "Import ID must be in the format 'username:password'" []
                 ∈ Diagnostics resp'
               /\ diag.HasError (Diagnostics resp') = true
               /\ State resp' = State resp))
  /\ (forall r resp,
        (exists user_id domain access_level,
            parts = [user_id; domain; access_level]
            /\ UserDomainAccessResource.ImportState r {| resource.ID := id |} resp
               = {| Diagnostics := Diagnostics resp;
                    State :=
                      Some {| UserDomainAccessModel.UserId := StringValue user_id;
                              UserDomainAccessModel.Domain := StringValue domain;
                              UserDomainAccessModel.AccessLevel := StringValue access_level;
                              UserDomainAccessModel.Id := StringValue id;
                              UserDomainAccessModel.DatabaseID := Int64Null |} |})
        \/ (List.length parts <> 3%nat
            /\ let resp' :=
                 UserDomainAccessResource.ImportState r {| resource.ID := id |} resp in
               error_diag "Invalid Import ID"
                 "Import ID must be in the format 'username:domain:access_level'" []
                 ∈ Diagnostics resp'
               /\ diag.HasError (Diagnostics resp') = true
               /\ State resp' = State resp)).
Proof.
  intros parts. split; [apply Split_colon_length|].
  split; intros r resp.
  - unfold UserResource.ImportState. cbn [resource.ID]. fold parts.
    destruct (Nat.eqb_spec (List.length parts) 2) as [Hlen|Hlen]; cbn [negb].
    + left. destruct (length_two _ Hlen) as (a & b & ->). eauto.
    + right. split; [exact Hlen | apply AddError_spec].
  - unfold UserDomainAccessResource.ImportState. cbn [resource.ID]. fold parts.
    destruct (Nat.eqb_spec (List.length parts) 3) as [Hlen|Hlen]; cbn [negb].
    + left. destruct (length_three _ Hlen) as (a & b & c & ->). eauto 6.
    + right. split; [exact Hlen | apply AddError_spec].
Qed.

Example ImportState_user_example :
  UserResource.ImportState (UserResource.mk None)
    {| resource.ID := "alice:s3cret" |} {| Diagnostics := []; State := None |}
  = {| Diagnostics := [];
       State := Some {| UserModel.Username := StringValue "alice";
                        UserModel.Password := StringValue "s3cret";
                        UserModel.Email := StringNull;
                        UserModel.Id := StringNull |} |}.
Proof. reflexivity. Qed.

Example ImportState_user_three_parts :
  State (UserResource.ImportState (UserResource.mk None)
           {| resource.ID := "alice:s3:cret" |} {| Diagnostics := []; State := None |})
  = None.
Proof. reflexivity. Qed.

(** ** Running the calls *)

Section running.
Context {stdlib : GoStdlib} {codec : Codec} {remote : Remote}.

Lemma bind_run {A B} (m : IO A) (k : A -> IO B) (h : list Request) :
  (m ≫= k) h = match m h with
               | (inl err, h') => (inl err, h')
               | (inr x, h') => k x h'
               end.
Proof. reflexivity. Qed.

Lemma bind_wrapping_run {A B} (format : string) (m : IO A) (k : A -> IO B)
    (h : list Request) :
  (wrapping format m ≫= k) h
  = match m h with
    | (inl err, h') => (inl (fmt_Errorf_w format [] err), h')
    | (inr x, h') => k x h'
    end.
Proof. rewrite bind_run. unfold wrapping. destruct (m h) as [[err|x] h']; reflexivity. Qed.

(** Building a request and sending it: the two steps every call starts with
    (after its marshalling, if any). *)
Lemma request_phase {A} (c : Client) (method path : string) (body : option string)
    (f1 f2 : string) (k : Response -> IO A) (h : list Request) :
  (wrapping f1 (lift (NewRequest c method path body))
     ≫= λ req, wrapping f2 (Do c req) ≫= k) h
  = match NewRequest c method path body with
    | inl err => (inl (fmt_Errorf_w f1 [] err), h)
    | inr req =>
        match RoundTrip (HTTPClient c) h req with
        | inl text => (inl (fmt_Errorf_w f2 [] (lib_error text)), h ++ [req])
        | inr resp => k resp (h ++ [req])
        end
    end.
Proof.
  rewrite bind_wrapping_run. unfold lift.
  destruct (NewRequest c method path body) as [err|req]; [reflexivity|].
  rewrite bind_wrapping_run. unfold Do.
  destruct (RoundTrip (HTTPClient c) h req); reflexivity.
Qed.

(** Uses [H : answers c h method path body resp] to run the two steps. *)
Ltac answered H :=
  let req := fresh "req" in
  let Hreq := fresh "Hreq" in
  let Hrt := fresh "Hrt" in
  destruct H as (req & Hreq & Hrt);
  unfold users_by_id_path, users_by_name_path, domains_path, permissions_path
    in Hreq |- *;
  rewrite request_phase, Hreq, Hrt.

Lemma status_eqb_404 (resp : Response) :
  StatusCode resp <> StatusNotFound -> (StatusCode resp =? StatusNotFound) = false.
Proof. intros Hne. apply Z.eqb_neq. exact Hne. Qed.

(** *** 404 *)

Lemma GetUserById_404 c userId h :
  exact_ErrNotFound_on_404 (fst (GetUserById c userId h)) c (users_by_id_path userId) h.
Proof.
  intros resp Hans Hst. unfold GetUserById.
  answered Hans.
  rewrite Hst. reflexivity.
Qed.

Lemma GetUserByUsername_404 c username h :
  exact_ErrNotFound_on_404 (fst (GetUserByUsername c username h)) c
    (users_by_name_path username) h.
Proof.
  intros resp Hans Hst. unfold GetUserByUsername.
  answered Hans.
  rewrite Hst. reflexivity.
Qed.

Lemma GetDomain_404 c fqdn h :
  exact_ErrNotFound_on_404 (fst (GetDomain c fqdn h)) c (domains_path fqdn) h.
Proof.
  intros resp Hans Hst. unfold GetDomain.
  answered Hans.
  rewrite Hst. reflexivity.
Qed.

(** [GetDomainAccess] once its user lookup has succeeded. *)
Lemma GetDomainAccess_after_user c userId domain h user h1 :
  GetUserById c userId h = (inr user, h1) ->
  GetDomainAccess c userId domain h
  = (wrapping "failed to create request: %w"
       (lift (NewRequest c "GET" (permissions_path (UserData.Username user) domain) None))
       ≫= λ req, wrapping "failed to execute request: %w" (Do c req)
       ≫= λ resp,
         if StatusCode resp =? StatusNotFound then fail ErrNotFound else
         ReadAll "failed to read response body: %w" resp
         ≫= λ body,
           match Unmarshal (T := list DomainUserPermissionData.t) body with
           | inr [] => fail ErrNotFound
           | inr (first :: _) => ret first
           | inl _ =>
               match Unmarshal (T := DomainUserPermissionData.t) body with
               | inr single => ret single
               | inl _ =>
                   fail (fmt_Errorf "failed to parse domain access response: %s"
                           [arg_s body])
               end
           end) h1.
Proof.
  intros Huser. unfold GetDomainAccess at 1.
  rewrite bind_wrapping_run, Huser. reflexivity.
Qed.

Lemma GetDomainAccess_404 c userId domain h user h1 :
  GetUserById c userId h = (inr user, h1) ->
  exact_ErrNotFound_on_404 (fst (GetDomainAccess c userId domain h)) c
    (permissions_path (UserData.Username user) domain) h1.
Proof.
  intros Huser resp Hans Hst.
  rewrite (GetDomainAccess_after_user _ _ _ _ _ _ Huser).
  answered Hans.
  rewrite Hst. reflexivity.
Qed.

(** When it is the user lookup that meets the 404, [GetDomainAccess] wraps
    the [ErrNotFound] of [GetUserById]. *)
Lemma GetDomainAccess_user_404 c userId domain h resp :
  answers c h "GET" (users_by_id_path userId) None resp ->
  StatusCode resp = StatusNotFound ->
  fst (GetDomainAccess c userId domain h)
  = inl (fmt_Errorf_w "failed to get user data: %w" [] ErrNotFound).
Proof.
  intros Hans Hst.
  pose proof (GetUserById_404 c userId h resp Hans Hst) as Huser.
  unfold GetDomainAccess. rewrite bind_wrapping_run.
  destruct (GetUserById c userId h) as [[err|user] h1]; cbn [fst] in *.
  - injection Huser as ->. reflexivity.
  - discriminate.
Qed.

(** *** An empty array, and a body that does not decode *)

Ltac decoded Hans Hst Hbody :=
  answered Hans; rewrite (status_eqb_404 _ Hst);
  unfold ReadAll; rewrite Hbody; rewrite bind_run; cbn [ret mret IO_ret].

Lemma GetUserByUsername_empty c username h :
  exact_ErrNotFound_on_empty_array dec_users (fst (GetUserByUsername c username h)) c
    (users_by_name_path username) h.
Proof.
  intros resp body Hans Hst Hbody Hdec. unfold GetUserByUsername.
  decoded Hans Hst Hbody. unfold Unmarshal. rewrite Hdec. reflexivity.
Qed.

Lemma GetDomain_empty c fqdn h :
  exact_ErrNotFound_on_empty_array dec_domains (fst (GetDomain c fqdn h)) c
    (domains_path fqdn) h.
Proof.
  intros resp body Hans Hst Hbody Hdec. unfold GetDomain.
  decoded Hans Hst Hbody. unfold Unmarshal. rewrite Hdec. reflexivity.
Qed.

Lemma GetDomainAccess_empty c userId domain h user h1 :
  GetUserById c userId h = (inr user, h1) ->
  exact_ErrNotFound_on_empty_array dec_accesses
    (fst (GetDomainAccess c userId domain h)) c
    (permissions_path (UserData.Username user) domain) h1.
Proof.
  intros Huser resp body Hans Hst Hbody Hdec.
  rewrite (GetDomainAccess_after_user _ _ _ _ _ _ Huser).
  decoded Hans Hst Hbody. unfold Unmarshal. rewrite Hdec. reflexivity.
Qed.

Lemma GetUserByUsername_undecodable c username h :
  parse_error_on_undecodable dec_users dec_user (fst (GetUserByUsername c username h)) c
    (users_by_name_path username) "failed to parse user response: %s" h.
Proof.
  intros resp body t1 t2 Hans Hst Hbody Hdec1 Hdec2. unfold GetUserByUsername.
  decoded Hans Hst Hbody. unfold Unmarshal. rewrite Hdec1, Hdec2. reflexivity.
Qed.

Lemma GetDomain_undecodable c fqdn h :
  parse_error_on_undecodable dec_domains dec_domain (fst (GetDomain c fqdn h)) c
    (domains_path fqdn) "failed to parse domain response: %s" h.
Proof.
  intros resp body t1 t2 Hans Hst Hbody Hdec1 Hdec2. unfold GetDomain.
  decoded Hans Hst Hbody. unfold Unmarshal. rewrite Hdec1, Hdec2. reflexivity.
Qed.

Lemma GetDomainAccess_undecodable c userId domain h user h1 :
  GetUserById c userId h = (inr user, h1) ->
  parse_error_on_undecodable dec_accesses dec_access
    (fst (GetDomainAccess c userId domain h)) c
    (permissions_path (UserData.Username user) domain)
    "failed to parse domain access response: %s" h1.
Proof.
  intros Huser resp body t1 t2 Hans Hst Hbody Hdec1 Hdec2.
  rewrite (GetDomainAccess_after_user _ _ _ _ _ _ Huser).
  decoded Hans Hst Hbody. unfold Unmarshal. rewrite Hdec1, Hdec2. reflexivity.
Qed.

(** [GetUserById] decodes a single object only. *)
Lemma GetUserById_undecodable c userId h resp body text :
  answers c h "GET" (users_by_id_path userId) None resp ->
  StatusCode resp <> StatusNotFound ->
  Body resp = inr body ->
  dec_user body = inl text ->
  fst (GetUserById c userId h)
  = inl (fmt_Errorf_w "failed to parse user response: %w (body: %s)" [arg_s body]
           (lib_error text)).
Proof.
  intros Hans Hst Hbody Hdec. unfold GetUserById.
  decoded Hans Hst Hbody. unfold Unmarshal. rewrite Hdec. reflexivity.
Qed.

(** C6, amended.  [GetUserById], [GetUserByUsername] and [GetDomain] give
    exactly [ErrNotFound] when their request is answered with 404, and so
    does [GetDomainAccess] for its permission query; when it is the user
    lookup inside [GetDomainAccess] that is answered with 404, the result is
    an error that wraps [ErrNotFound] and is not [ErrNotFound] itself.  The
    three list-shaped lookups give exactly [ErrNotFound] for a body that
    decodes as an empty array, and for a body that decodes neither as an
    array nor as a single object a parse error that neither is nor wraps
    [ErrNotFound]. *)
Theorem lookups_report_not_found (c : Client) (h : list Request) :
  (forall userId,
      exact_ErrNotFound_on_404 (fst (GetUserById c userId h)) c
        (users_by_id_path userId) h)
  /\ (forall username,
         let r := fst (GetUserByUsername c username h) in
         let path := users_by_name_path username in
         exact_ErrNotFound_on_404 r c path h
         /\ exact_ErrNotFound_on_empty_array dec_users r c path h
         /\ parse_error_on_undecodable dec_users dec_user r c path
              "failed to parse user response: %s" h)
  /\ (forall fqdn,
         let r := fst (GetDomain c fqdn h) in
         let path := domains_path fqdn in
         exact_ErrNotFound_on_404 r c path h
         /\ exact_ErrNotFound_on_empty_array dec_domains r c path h
         /\ parse_error_on_undecodable dec_domains dec_domain r c path
              "failed to parse domain response: %s" h)
  /\ (forall userId domain user h1,
         GetUserById c userId h = (inr user, h1) ->
         let r := fst (GetDomainAccess c userId domain h) in
         let path := permissions_path (UserData.Username user) domain in
         exact_ErrNotFound_on_404 r c path h1
         /\ exact_ErrNotFound_on_empty_array dec_accesses r c path h1
         /\ parse_error_on_undecodable dec_accesses dec_access r c path
              "failed to parse domain access response: %s" h1)
  /\ (forall userId domain resp,
         answers c h "GET" (users_by_id_path userId) None resp ->
         StatusCode resp = StatusNotFound ->
         exists err,
           fst (GetDomainAccess c userId domain h) = inl err
           /\ err = fmt_Errorf_w "failed to get user data: %w" [] ErrNotFound
           /\ eq_ErrNotFound err = false
           /\ errors_Is_ErrNotFound err = true)
  /\ (forall format body,
         eq_ErrNotFound (fmt_Errorf format [arg_s body]) = false
         /\ errors_Is_ErrNotFound (fmt_Errorf format [arg_s body]) = false).
Proof.
  split; [intros; apply GetUserById_404|].
  split; [intros username r path; subst r path; split; [|split]|].
  { apply GetUserByUsername_404. }
  { apply GetUserByUsername_empty. }
  { apply GetUserByUsername_undecodable. }
  split; [intros fqdn r path; subst r path; split; [|split]|].
  { apply GetDomain_404. }
  { apply GetDomain_empty. }
  { apply GetDomain_undecodable. }
  split; [intros userId domain user h1 Huser r path; subst r path; split; [|split]|].
  { by apply GetDomainAccess_404. }
  { by apply GetDomainAccess_empty. }
  { by apply GetDomainAccess_undecodable. }
  split; [|split; reflexivity].
  intros userId domain resp Hans Hst. eexists. split; [|split; [reflexivity|]].
  - by apply (GetDomainAccess_user_404 _ _ _ _ resp).
  - split; reflexivity.
Qed.

End running.

(** The service that answers 404 to everything: the user lookup inside
    [GetDomainAccess] meets the 404, and the result is not [ErrNotFound]. *)
Lemma GetDomainAccess_not_exact_on_user_404 :
  ~ GetDomainAccess_exact_on_every_404 (stdlib := demo.stdlib) (codec := demo.codec)
      (remote := demo.service []).
Proof.
  intros Hall.
  specialize (Hall demo.admin "7"%string "example.com"%string []
                {| StatusCode := 404; Body := inr EmptyString |}).
  assert (Hwrapped :
            fst (GetDomainAccess (stdlib := demo.stdlib) (codec := demo.codec)
                   (remote := demo.service []) demo.admin "7" "example.com" [])
            = inl (fmt_Errorf_w "failed to get user data: %w" [] ErrNotFound))
    by (vm_compute; reflexivity).
  rewrite Hwrapped in Hall.
  assert (inl (fmt_Errorf_w "failed to get user data: %w" [] ErrNotFound)
          = @inl error DomainUserPermissionData.t ErrNotFound) as Habs.
  { apply Hall; [|reflexivity]. eexists. split; reflexivity. }
  discriminate Habs.
Qed.

(** ** The password probe *)

Section probe.
Context {stdlib : GoStdlib} {codec : Codec} {remote : Remote}.

Lemma HasValidUserPassword_run c username password h :
  HasValidUserPassword c username password h
  = match NewClient (Some (BaseURL c)) (Some username) (Some password) with
    | inl err => (inl (fmt_Errorf_w "failed to create client: %w" [] err), h)
    | inr userClient =>
        match NewRequest userClient "GET" (users_by_name_path username) None with
        | inl err => (inl (fmt_Errorf_w "failed to create request: %w" [] err), h)
        | inr req =>
            match RoundTrip (HTTPClient userClient) h req with
            | inl text =>
                (inl (fmt_Errorf_w "failed to execute request: %w" [] (lib_error text)),
                 h ++ [req])
            | inr resp => (verdict (StatusCode resp), h ++ [req])
            end
        end
    end.
Proof.
  unfold HasValidUserPassword. rewrite bind_wrapping_run. unfold lift at 1.
  destruct (NewClient _ _ _) as [err|userClient]; [reflexivity|].
  cbv beta. rewrite request_phase. unfold users_by_name_path.
  destruct (NewRequest userClient _ _ _) as [err|req]; [reflexivity|].
  destruct (RoundTrip _ h req) as [text|resp]; [reflexivity|].
  unfold verdict.
  destruct (StatusCode resp =? StatusUnauthorized); [reflexivity|].
  destruct (StatusCode resp =? StatusForbidden); reflexivity.
Qed.

Lemma probe_yields_run c username password h status :
  probe_yields c username password h status ->
  fst (HasValidUserPassword c username password h) = verdict status.
Proof.
  intros (userClient & resp & Hc & _ & _ & (req & Hreq & Hrt) & <-).
  rewrite HasValidUserPassword_run, Hc, Hreq, Hrt. reflexivity.
Qed.

Lemma verdict_inr status b :
  verdict status = inr b ->
  status = (if b then StatusForbidden else StatusUnauthorized).
Proof.
  unfold verdict.
  destruct (Z.eqb_spec status StatusUnauthorized) as [->|_].
  - intros [= <-]. reflexivity.
  - destruct (Z.eqb_spec status StatusForbidden) as [->|_]; [|discriminate].
    intros [= <-]. reflexivity.
Qed.

Lemma HasValidUserPassword_inr c username password h b :
  fst (HasValidUserPassword c username password h) = inr b ->
  probe_yields c username password h
    (if b then StatusForbidden else StatusUnauthorized).
Proof.
  rewrite HasValidUserPassword_run.
  destruct (NewClient _ _ _) as [err|userClient] eqn:Hc; [discriminate|].
  destruct (NewRequest userClient _ _ _) as [err|req] eqn:Hreq; [discriminate|].
  destruct (RoundTrip _ h req) as [text|resp] eqn:Hrt; [discriminate|].
  cbn [fst]. intros Hv. apply verdict_inr in Hv.
  destruct (NewClient_inr _ _ _ _ Hc) as (_ & _ & _ & _ & _ & [= Hu] & [= Hp] & _).
  exists userClient, resp. repeat split; auto. exists req. auto.
Qed.

(** C2.  [HasValidUserPassword] returns [(false, nil)] exactly when the
    probe, sent with the user's credentials to the users endpoint, is
    answered with 401, and [(true, nil)] exactly when it is answered with 403;
    for every other status it returns an error, and for an empty user name
    or password it returns the error of the client construction without
    sending anything. *)
Theorem HasValidUserPassword_by_status (c : Client) (username password : string)
    (h : list Request) :
  let r := fst (HasValidUserPassword c username password h) in
  (r = inr false <-> probe_yields c username password h StatusUnauthorized)
  /\ (r = inr true <-> probe_yields c username password h StatusForbidden)
  /\ (forall status,
         probe_yields c username password h status ->
         status <> StatusUnauthorized -> status <> StatusForbidden ->
         r = inl (fmt_Errorf "unexpected status code: %d" [arg_d status]))
  /\ (username = EmptyString \/ password = EmptyString ->
      exists err,
        HasValidUserPassword c username password h
        = (inl (fmt_Errorf_w "failed to create client: %w" [] err), h)).
Proof.
  intros r. subst r. split; [|split; [|split]].
  - split.
    + apply (HasValidUserPassword_inr c username password h false).
    + intros Hp. rewrite (probe_yields_run _ _ _ _ _ Hp). reflexivity.
  - split.
    + apply (HasValidUserPassword_inr c username password h true).
    + intros Hp. rewrite (probe_yields_run _ _ _ _ _ Hp). reflexivity.
  - intros status Hp H401 H403. rewrite (probe_yields_run _ _ _ _ _ Hp).
    unfold verdict.
    destruct (Z.eqb_spec status StatusUnauthorized); [contradiction|].
    destruct (Z.eqb_spec status StatusForbidden); [contradiction|]. reflexivity.
  - intros Hempty.
    destruct (NewClient_empty_credentials (Some (BaseURL c)) username password Hempty)
      as (err & Herr).
    exists err. rewrite HasValidUserPassword_run, Herr. reflexivity.
Qed.

End probe.

Example probe_stale_password :
  fst (HasValidUserPassword (stdlib := demo.stdlib)
         (remote := demo.service demo.routes) demo.admin "alice" "stale" [])
  = inr false.
Proof. vm_compute. reflexivity. Qed.

Example probe_good_password :
  fst (HasValidUserPassword (stdlib := demo.stdlib)
         (remote := demo.service demo.routes) demo.admin "alice" "s3cret" [])
  = inr true.
Proof. vm_compute. reflexivity. Qed.

Example probe_other_status :
  fst (HasValidUserPassword (stdlib := demo.stdlib)
         (remote := demo.service demo.routes) demo.admin "alice" "odd" [])
  = inl (fmt_Errorf "unexpected status code: %d" [arg_d 500]).
Proof. vm_compute. reflexivity. Qed.

(** ** Ensuring the domain, then creating the permission *)

Section ensure_domain.
Context {stdlib : GoStdlib} {codec : Codec} {remote : Remote}.

(** Unfolds a computation down to its case analysis. *)
Ltac run_io :=
  unfold mbind, IO_bind, wrapping, attempt, lift, Do, ReadAll, fail, ret, mret, IO_ret.

(** What follows the sending of a request does not touch the history. *)
Ltac answer_is_kept :=
  run_io; repeat case_match; simplify_eq/=; reflexivity.

Lemma skipn_past {A} (h l : list A) : skipn (List.length h) (h ++ l) = l.
Proof. induction h; cbn; auto. Qed.

Lemma skipn_all_of {A} (h : list A) : skipn (List.length h) h = [].
Proof. induction h; cbn; auto. Qed.

Lemma GetDomain_sent c fqdn h :
  snd (GetDomain c fqdn h) = h ++ domain_lookup c fqdn.
Proof.
  unfold GetDomain, domain_lookup, built, domains_path. rewrite request_phase.
  destruct (NewRequest c _ _ _) as [err|req]; [by rewrite app_nil_r|].
  destruct (RoundTrip _ h req) as [text|resp]; [reflexivity|].
  answer_is_kept.
Qed.

Lemma CreateDomain_sent c fqdn h :
  let domain := {| DomainData.Fqdn := fqdn; DomainData.ID := 0 |} in
  snd (CreateDomain c domain h) = h ++ domain_post c fqdn
  /\ (domain_post c fqdn = [] -> exists err, fst (CreateDomain c domain h) = inl err).
Proof.
  intros domain. unfold domain_post, posted, built. fold domain.
  destruct (CreateDomain c domain h) as [r h'] eqn:Hrun. cbn [fst snd].
  unfold CreateDomain in Hrun. rewrite bind_wrapping_run in Hrun.
  unfold lift at 1 in Hrun.
  destruct (Marshal domain) as [text|b] eqn:Hb.
  { injection Hrun as <- <-. rewrite app_nil_r. eauto. }
  cbv beta in Hrun. rewrite request_phase in Hrun.
  destruct (NewRequest c _ _ _) as [err|req] eqn:Hreq.
  { injection Hrun as <- <-. rewrite app_nil_r. eauto. }
  split; [|discriminate].
  destruct (RoundTrip _ h req) as [text|resp].
  { by injection Hrun as <- <-. }
  apply (f_equal snd) in Hrun. cbn [snd] in Hrun. rewrite <- Hrun.
  answer_is_kept.
Qed.

Lemma post_access_sent c access domainData h :
  posts_permission c access (DomainData.ID domainData)
    (fst (post_access c access domainData h)) h
    (snd (post_access c access domainData h)).
Proof.
  unfold posts_permission, permission_post, posted, built.
  destruct (post_access c access domainData h) as [r h'] eqn:Hrun. cbn [fst snd].
  unfold post_access in Hrun.
  fold (permission_payload access (DomainData.ID domainData)) in Hrun.
  rewrite bind_wrapping_run in Hrun. unfold lift at 1 in Hrun.
  destruct (Marshal (permission_payload _ _)) as [text|b] eqn:Hb.
  { injection Hrun as <- <-. rewrite app_nil_r. eauto. }
  cbv beta in Hrun. rewrite request_phase in Hrun.
  destruct (NewRequest c _ _ _) as [err|req] eqn:Hreq.
  { injection Hrun as <- <-. rewrite app_nil_r. eauto. }
  split; [|discriminate].
  destruct (RoundTrip _ h req) as [text|resp].
  { by injection Hrun as <- <-. }
  apply (f_equal snd) in Hrun. cbn [snd] in Hrun. rewrite <- Hrun.
  answer_is_kept.
Qed.

(** The requests of the three steps are the ones that [NewRequest] builds
    for them. *)
Lemma domain_lookup_request c fqdn req :
  req ∈ domain_lookup c fqdn -> request_for c "GET" (domains_path fqdn) None req.
Proof.
  unfold domain_lookup, built, request_for.
  destruct (NewRequest c _ _ _) as [err|req']; intros Hin.
  - by apply elem_of_nil in Hin.
  - by apply list_elem_of_singleton in Hin as ->.
Qed.

Lemma domain_post_request c fqdn req :
  req ∈ domain_post c fqdn -> is_domain_post c fqdn req.
Proof.
  unfold domain_post, posted, built, is_domain_post, request_for.
  destruct (Marshal _) as [text|b]; [intros Hin; by apply elem_of_nil in Hin|].
  destruct (NewRequest c _ _ _) as [err|req'] eqn:Hreq; intros Hin.
  - by apply elem_of_nil in Hin.
  - apply list_elem_of_singleton in Hin as ->. eauto.
Qed.

Lemma permission_post_request c access domainID req :
  req ∈ permission_post c access domainID -> is_permission_post c access domainID req.
Proof.
  unfold permission_post, posted, built, is_permission_post, request_for.
  destruct (Marshal _) as [text|b]; [intros Hin; by apply elem_of_nil in Hin|].
  destruct (NewRequest c _ _ _) as [err|req'] eqn:Hreq; intros Hin.
  - by apply elem_of_nil in Hin.
  - apply list_elem_of_singleton in Hin as ->. eauto.
Qed.

Lemma CreateDomainAccess_run c access h :
  CreateDomainAccess c access h
  = match GetDomain c (DomainUserPermissionCreateData.Domain access) h with
    | (inr domainData, h1) => post_access c access domainData h1
    | (inl err, h1) =>
        if eq_ErrNotFound err
        then match CreateDomain c
                     {| DomainData.Fqdn := DomainUserPermissionCreateData.Domain access;
                        DomainData.ID := 0 |} h1 with
             | (inr newDomainData, h1') => post_access c access newDomainData h1'
             | (inl err', h1') =>
                 (inl (fmt_Errorf_w "failed to create domain: %w" [] err'), h1')
             end
        else (inl (fmt_Errorf_w "failed to get domain data: %w" [] err), h1)
    end.
Proof.
  unfold CreateDomainAccess. rewrite bind_run. unfold attempt at 1.
  destruct (GetDomain c _ h) as [[err|domainData] h1]; cbv beta iota.
  - rewrite bind_run. destruct (eq_ErrNotFound err); cbn [negb].
    + rewrite bind_wrapping_run.
      destruct (CreateDomain c _ h1) as [[err'|newDomainData] h1']; reflexivity.
    + reflexivity.
  - rewrite bind_run. reflexivity.
Qed.

(** C1.  [CreateDomainAccess] first looks the domain up by FQDN: the lookup
    is sent whenever its request can be built.  When the domain is found,
    the only request that follows is the POST of the permission with the ID
    found, so that no domain is created.  When the lookup gives
    [ErrNotFound], the POST that creates the domain follows the lookup, and
    the POST of the permission with the ID of the new domain follows it; when
    the creation of the domain gives an error, that error is returned and no
    permission is POSTed.  When the lookup fails otherwise, the result is an
    error and no request follows the lookup, so that nothing is created.  A
    POST is left out only when its body cannot be marshalled or its request
    cannot be built, and the result is then an error. *)
Theorem CreateDomainAccess_ensures_domain (c : Client)
    (access : DomainUserPermissionCreateData.t) (h : list Request) :
  let fqdn := DomainUserPermissionCreateData.Domain access in
  let looked := fst (GetDomain c fqdn h) in
  let h1 := snd (GetDomain c fqdn h) in
  let r := fst (CreateDomainAccess c access h) in
  let h2 := snd (CreateDomainAccess c access h) in
  h1 = h ++ domain_lookup c fqdn
  /\ (forall domainData,
         looked = inr domainData ->
         posts_permission c access (DomainData.ID domainData) r h1 h2)
  /\ (looked = inl ErrNotFound ->
      let created := CreateDomain c {| DomainData.Fqdn := fqdn; DomainData.ID := 0 |} h1 in
      snd created = h1 ++ domain_post c fqdn
      /\ (domain_post c fqdn = [] -> exists err, fst created = inl err)
      /\ (forall newDomainData,
             fst created = inr newDomainData ->
             posts_permission c access (DomainData.ID newDomainData) r (snd created) h2)
      /\ (forall err,
             fst created = inl err ->
             r = inl (fmt_Errorf_w "failed to create domain: %w" [] err)
             /\ h2 = snd created))
  /\ (forall err,
         looked = inl err -> err <> ErrNotFound ->
         r = inl (fmt_Errorf_w "failed to get domain data: %w" [] err)
         /\ h2 = h1).
Proof.
  intros fqdn looked h1 r h2.
  split; [apply GetDomain_sent|].
  subst r h2. rewrite CreateDomainAccess_run. fold fqdn.
  subst looked h1. destruct (GetDomain c fqdn h) as [[err|domainData] h1]; cbn [fst snd] in *.
  - split; [discriminate|]. split.
    + intros [= ->]. cbn [eq_ErrNotFound].
      destruct (CreateDomain_sent c fqdn h1) as (Hsent & Hnone).
      split; [exact Hsent|]. split; [exact Hnone|].
      destruct (CreateDomain c _ h1) as [[err'|newDomainData] h1']; cbn [fst snd].
      * split; [discriminate|]. intros ? [= <-]. split; reflexivity.
      * split; [|discriminate]. intros ? [= <-]. apply post_access_sent.
    + intros ? [= <-] Hne.
      destruct err; try contradiction; cbn [eq_ErrNotFound]; auto.
  - split; [|split; [discriminate|discriminate]].
    intros ? [= <-]. apply post_access_sent.
Qed.

End ensure_domain.

(** ** The user reconciler *)

Section user_reconciler.
Context {stdlib : GoStdlib} {codec : Codec} {remote : Remote}.

Ltac run_io :=
  unfold mbind, IO_bind, wrapping, attempt, lift, Do, ReadAll, fail, ret, mret, IO_ret.

Lemma GetUserByUsername_sent c username h :
  snd (GetUserByUsername c username h) = h
  \/ exists req, request_for c "GET" (users_by_name_path username) None req
                 /\ snd (GetUserByUsername c username h) = h ++ [req].
Proof.
  unfold GetUserByUsername, request_for, users_by_name_path. rewrite request_phase.
  destruct (NewRequest c _ _ _) as [err|req]; [left; reflexivity|].
  right. exists req. split; [reflexivity|].
  destruct (RoundTrip _ h req) as [text|resp]; [reflexivity|].
  run_io. repeat case_match; simplify_eq/=; reflexivity.
Qed.

Lemma GetUserByUsername_only_gets c username h :
  only_gets (skipn (List.length h) (snd (GetUserByUsername c username h))).
Proof.
  destruct (GetUserByUsername_sent c username h) as [->|(req & Hreq & ->)].
  - rewrite skipn_all_of. intros ? Hin. by apply elem_of_nil in Hin.
  - rewrite skipn_past. intros ? Hin. apply list_elem_of_singleton in Hin as ->.
    apply NewRequest_inr in Hreq as (_ & Hm & _). exact Hm.
Qed.

(** The errors of [GetUserByUsername] never wrap [ErrNotFound]: on them,
    [errors.Is] and [==] agree. *)
Lemma GetUserByUsername_no_wrap c username h err :
  fst (GetUserByUsername c username h) = inl err ->
  errors_Is_ErrNotFound err = eq_ErrNotFound err.
Proof.
  unfold GetUserByUsername. rewrite request_phase.
  destruct (NewRequest c _ _ _) as [e|req] eqn:Hreq.
  { intros [= <-]. cbn.
    by destruct (NewRequest_inl _ _ _ _ _ Hreq) as [(m & ->)|(text & ->)]. }
  destruct (RoundTrip _ h req) as [text|resp]; [intros [= <-]; reflexivity|].
  run_io. repeat case_match; simplify_eq/=; intros; simplify_eq; reflexivity.
Qed.

Lemma user_Create_unfold r req resp h c :
  reads_cleanly (resource.Create_Plan req) resp ->
  UserResource.client r = Some c ->
  UserResource.Create r req resp h
  = (let data := snd (Get (resource.Create_Plan req)) in
     let resp := Append resp (fst (Get (resource.Create_Plan req))) in
     let username := ValueString (UserModel.Username data) in
     match GetUserByUsername c username h with
     | (inr existingUser, h) =>
         (AddError resp "User Exists"
            ("A user with username '%s' already exists (id=%s).",
             [diag.op_s username;
              diag.op_s (LastPathSegment (UserData.Url existingUser))]), h)
     | (inl err, h) =>
         if negb (eq_ErrNotFound err)
         then (AddError resp "Client Error"
                 ("Unable to check for existing user: %s", [diag.op_err err]), h)
         else
           match CreateUser c
                   {| UserCreateData.Username := username;
                      UserCreateData.Password := ValueString (UserModel.Password data);
                      UserCreateData.Email := ValueString (UserModel.Email data);
                      UserCreateData.Groups := [] |} h with
           | (inl err, h) =>
               (AddError resp "Client Error"
                  ("Unable to create user, got error: %s", [diag.op_err err]), h)
           | (inr _, h) =>
               match GetUserByUsername c username h with
               | (inl err, h) =>
                   (AddError resp "Client Error"
                      ("User created but failed to read back: %s", [diag.op_err err]), h)
               | (inr user, h) =>
                   (State_Set resp
                      {| UserModel.Username := UserModel.Username data;
                         UserModel.Password :=
                           StringValue (ValueString (UserModel.Password data));
                         UserModel.Email := StringValue (UserData.Email user);
                         UserModel.Id :=
                           StringValue (LastPathSegment (UserData.Url user)) |}, h)
               end
           end
     end).
Proof.
  unfold reads_cleanly, UserResource.Create. intros Hclean Hclient.
  destruct (Get (resource.Create_Plan req)) as [diags data]. cbn [fst snd] in *.
  rewrite Hclean, Hclient. reflexivity.
Qed.

(** C9.  When the planned user name is found remotely, the user [Create]
    adds the error ["User Exists"], keeps the state and sends nothing but
    the GET of the lookup; when the lookup fails otherwise than with
    [ErrNotFound], it adds an error and stops in the same way; a POST is
    sent only when the lookup gave [ErrNotFound]. *)
Theorem user_Create_checks_conflict (r : UserResource.t)
    (req : resource.CreateRequest UserModel.t)
    (resp : resource.Response UserModel.t) (h : list Request) (c : Client) :
  reads_cleanly (resource.Create_Plan req) resp ->
  UserResource.client r = Some c ->
  let seen := after_get (resource.Create_Plan req) resp in
  let data := snd (Get (resource.Create_Plan req)) in
  let username := ValueString (UserModel.Username data) in
  let looked := GetUserByUsername c username h in
  let out := UserResource.Create r req resp h in
  (forall existingUser,
      fst looked = inr existingUser ->
      out = ({| Diagnostics :=
                  seen
                  ++ [error_diag "User Exists"
                        "A user with username '%s' already exists (id=%s)."
                        [diag.op_s username;
                         diag.op_s (LastPathSegment (UserData.Url existingUser))]];
                State := State resp |}, snd looked)
      /\ only_gets (skipn (List.length h) (snd out)))
  /\ (forall err,
         fst looked = inl err -> err <> ErrNotFound ->
         out = ({| Diagnostics :=
                     seen
                     ++ [error_diag "Client Error"
                           "Unable to check for existing user: %s" [diag.op_err err]];
                   State := State resp |}, snd looked)
         /\ only_gets (skipn (List.length h) (snd out)))
  /\ ((exists sent, sent ∈ skipn (List.length h) (snd out)
                    /\ Method sent = "POST"%string) ->
      fst looked = inl ErrNotFound).
Proof.
  intros Hclean Hclient seen data username looked out.
  pose proof (GetUserByUsername_only_gets c username h) as Hgets.
  subst out looked. rewrite (user_Create_unfold r req resp h c Hclean Hclient).
  fold data. cbv zeta. subst username.
  destruct (GetUserByUsername c _ h) as [[err|user] h1]; cbn [fst snd] in *.
  - split; [discriminate|].
    destruct err; cbn [eq_ErrNotFound negb].
    1: { split; [intros ? [= <-] Hne; contradiction | reflexivity]. }
    all: rewrite (AddError_clean _ _ _ _ Hclean).
    all: split; [intros ? [= <-] _; split; [reflexivity | exact Hgets]|].
    all: intros (sent & Hin & Hpost); rewrite (Hgets _ Hin) in Hpost;
      discriminate Hpost.
  - rewrite (AddError_clean _ _ _ _ Hclean).
    split; [intros ? [= <-]; split; [reflexivity | exact Hgets]|].
    split; [discriminate|].
    intros (sent & Hin & Hpost). rewrite (Hgets _ Hin) in Hpost. discriminate Hpost.
Qed.

Lemma user_Read_unfold r req resp h c :
  reads_cleanly (resource.Read_State req) resp ->
  UserResource.client r = Some c ->
  UserResource.Read r req resp h
  = (let data := snd (Get (resource.Read_State req)) in
     let resp := Append resp (fst (Get (resource.Read_State req))) in
     let username := ValueString (UserModel.Username data) in
     match GetUserByUsername c username h with
     | (inl err, h) =>
         if eq_ErrNotFound err then (RemoveResource resp, h)
         else (AddError resp "Client Error"
                 ("Unable to read user: %s", [diag.op_err err]), h)
     | (inr user, h) =>
         match HasValidUserPassword c username
                 (ValueString (UserModel.Password data)) h with
         | (inl err, h) =>
             (AddError resp "Client Error"
                ("Unable to validate user password: %s", [diag.op_err err]), h)
         | (inr valid, h) =>
             (if negb valid
              then State_Set
                     (AddWarning resp "Invalid Password"
                        ("The stored password is no longer valid", []))
                     {| UserModel.Username := UserModel.Username data;
                        UserModel.Password := StringNull;
                        UserModel.Email := StringValue (UserData.Email user);
                        UserModel.Id :=
                          StringValue (LastPathSegment (UserData.Url user)) |}
              else State_Set resp
                     {| UserModel.Username := UserModel.Username data;
                        UserModel.Password := UserModel.Password data;
                        UserModel.Email := StringValue (UserData.Email user);
                        UserModel.Id :=
                          StringValue (LastPathSegment (UserData.Url user)) |}, h)
         end
     end).
Proof.
  unfold reads_cleanly, UserResource.Read. intros Hclean Hclient.
  destruct (Get (resource.Read_State req)) as [diags data]. cbn [fst snd] in *.
  rewrite Hclean, Hclient. cbv zeta.
  match goal with
  | |- context [if ?b then GetUserByUsername c ?u h else _] => destruct b
  end.
  all: destruct (GetUserByUsername c _ h) as [[err|user] h1]; [reflexivity|].
  all: cbn [UserModel.Username UserModel.Password UserModel.Email UserModel.Id].
  all: destruct (HasValidUserPassword c _ _ h1) as [[err|[|]] h2]; reflexivity.
Qed.

(** The user [Read] on a failed lookup: it drops the state for the error
    [ErrNotFound] itself, and adds an error and keeps the state otherwise. *)
Lemma user_Read_lookup_failed r req resp h c err :
  reads_cleanly (resource.Read_State req) resp ->
  UserResource.client r = Some c ->
  let seen := after_get (resource.Read_State req) resp in
  let data := snd (Get (resource.Read_State req)) in
  fst (GetUserByUsername c (ValueString (UserModel.Username data)) h) = inl err ->
  fst (UserResource.Read r req resp h)
  = if eq_ErrNotFound err
    then {| Diagnostics := seen; State := None |}
    else {| Diagnostics :=
              seen ++ [error_diag "Client Error" "Unable to read user: %s"
                         [diag.op_err err]];
            State := State resp |}.
Proof.
  intros Hclean Hclient seen data Hlooked.
  rewrite (user_Read_unfold r req resp h c Hclean Hclient). cbv zeta.
  fold data.
  destruct (GetUserByUsername c _ h) as [[err'|user] h1]; cbn [fst] in Hlooked;
    [|discriminate].
  injection Hlooked as ->.
  destruct (eq_ErrNotFound err); [reflexivity|].
  cbn [fst]. exact (AddError_clean _ _ _ _ Hclean).
Qed.

(** C10.  When the user is found but the probe of the stored password
    gives false without error, the user [Read] stores the refreshed state
    with a null password and the user name as it was, and adds a warning and
    no error; when the probe gives an error, [Read] adds an error and leaves
    the state as it was. *)
Theorem user_Read_checks_password (r : UserResource.t)
    (req : resource.ReadRequest UserModel.t)
    (resp : resource.Response UserModel.t) (h : list Request) (c : Client)
    (user : UserData.t) :
  reads_cleanly (resource.Read_State req) resp ->
  UserResource.client r = Some c ->
  let seen := after_get (resource.Read_State req) resp in
  let data := snd (Get (resource.Read_State req)) in
  let username := ValueString (UserModel.Username data) in
  fst (GetUserByUsername c username h) = inr user ->
  let h1 := snd (GetUserByUsername c username h) in
  let probe :=
    HasValidUserPassword c username (ValueString (UserModel.Password data)) h1 in
  let resp' := fst (UserResource.Read r req resp h) in
  let warning :=
    diag.mk diag.SeverityWarning "Invalid Password"
      ("The stored password is no longer valid", []) in
  (fst probe = inr false ->
   State resp'
   = Some {| UserModel.Username := UserModel.Username data;
             UserModel.Password := StringNull;
             UserModel.Email := StringValue (UserData.Email user);
             UserModel.Id := StringValue (LastPathSegment (UserData.Url user)) |}
   /\ warning ∈ Diagnostics resp'
   /\ (forall d, d ∈ Diagnostics resp' -> d ∈ seen \/ d = warning)
   /\ diag.HasError (Diagnostics resp') = false)
  /\ (forall err,
         fst probe = inl err ->
         resp' = {| Diagnostics :=
                      seen
                      ++ [error_diag "Client Error"
                            "Unable to validate user password: %s" [diag.op_err err]];
                    State := State resp |}
         /\ diag.HasError (Diagnostics resp') = true).
Proof.
  intros Hclean Hclient seen data username Hfound h1 probe resp' warning.
  subst resp' probe h1. rewrite (user_Read_unfold r req resp h c Hclean Hclient).
  cbv zeta. fold data. subst username.
  destruct (GetUserByUsername c _ h) as [[err|user'] h1]; cbn [fst snd] in *;
    [discriminate|].
  injection Hfound as ->.
  destruct (HasValidUserPassword c _ _ h1) as [[err|valid] h2]; cbn [fst snd].
  - split; [discriminate|]. intros ? [= <-].
    rewrite (AddError_clean _ _ _ _ Hclean).
    split; [reflexivity|]. apply HasError_with_error.
  - split; [|discriminate]. intros [= ->]. cbn [negb State_Set State Diagnostics].
    split; [reflexivity|].
    destruct (AddWarning_spec (Append resp (fst (Get (resource.Read_State req))))
                "Invalid Password" "The stored password is no longer valid" [])
      as (Hin & Horigin & Herr & _).
    split; [exact Hin|]. split; [exact Horigin|].
    rewrite Herr. exact Hclean.
Qed.

End user_reconciler.

(** ** The domain-access reconciler *)

Section access_reconciler.
Context {stdlib : GoStdlib} {codec : Codec} {remote : Remote}.

Ltac run_io :=
  unfold mbind, IO_bind, wrapping, attempt, lift, Do, ReadAll, fail, ret, mret, IO_ret.

Lemma access_Read_unfold r req resp h c :
  access_read_guards r req resp c ->
  UserDomainAccessResource.Read r req resp h
  = (let data := snd (Get (resource.Read_State req)) in
     let resp := Append resp (fst (Get (resource.Read_State req))) in
     match access_read_lookup req c h with
     | (inl err, h) =>
         if errors_Is_ErrNotFound err then (RemoveResource resp, h)
         else (AddError resp "Client Error"
                 ("Unable to read user domain access: %s", [diag.op_err err]), h)
     | (inr found, h) =>
         (State_Set resp
            {| UserDomainAccessModel.UserId := UserDomainAccessModel.UserId data;
               UserDomainAccessModel.Domain := UserDomainAccessModel.Domain data;
               UserDomainAccessModel.AccessLevel :=
                 StringValue (DomainUserPermissionData.AccessLevel found);
               UserDomainAccessModel.Id := UserDomainAccessModel.Id data;
               UserDomainAccessModel.DatabaseID :=
                 Int64Value (DomainUserPermissionData.ID found) |}, h)
     end).
Proof.
  unfold access_read_guards, reads_cleanly, keys_set, access_read_lookup,
    UserDomainAccessResource.Read.
  intros (Hclean & Hclient & Huser & Hdomain).
  destruct (Get (resource.Read_State req)) as [diags data]. cbn [fst snd] in *.
  rewrite Hclean, Hclient, Huser, Hdomain. reflexivity.
Qed.

(** The domain-access [Read] on a failed lookup: it drops the state when
    the error is or wraps [ErrNotFound], and adds an error and keeps the
    state otherwise. *)
Lemma access_Read_lookup_failed r req resp h c err :
  access_read_guards r req resp c ->
  fst (access_read_lookup req c h) = inl err ->
  let seen := after_get (resource.Read_State req) resp in
  fst (UserDomainAccessResource.Read r req resp h)
  = if errors_Is_ErrNotFound err
    then {| Diagnostics := seen; State := None |}
    else {| Diagnostics :=
              seen ++ [error_diag "Client Error" "Unable to read user domain access: %s"
                         [diag.op_err err]];
            State := State resp |}.
Proof.
  intros Hguards Hlooked seen. rewrite (access_Read_unfold r req resp h c Hguards).
  cbv zeta.
  destruct (access_read_lookup req c h) as [[err'|found] h1]; cbn [fst] in Hlooked;
    [|discriminate].
  injection Hlooked as ->.
  destruct (errors_Is_ErrNotFound err); [reflexivity|].
  cbn [fst]. destruct Hguards as (Hclean & _). exact (AddError_clean _ _ _ _ Hclean).
Qed.

End access_reconciler.

(** C3, amended.  On a failed lookup the user [Read] drops the state,
    adding no diagnostic, when the error is [ErrNotFound], and for every
    other error adds an error diagnostic and leaves the state as it was;
    the errors of its lookup never wrap [ErrNotFound].  The domain-access
    [Read] does the same with [errors.Is] as the test: it drops the state
    when the error is [ErrNotFound] or wraps it, as the error of
    [GetDomainAccess] does when the user is not found, and adds an error
    diagnostic and leaves the state as it was for every error that neither
    is nor wraps [ErrNotFound]. *)
Theorem Read_drops_state_on_not_found {stdlib : GoStdlib} {codec : Codec}
    {remote : Remote} (h : list Request) (c : Client) (err : error) :
  (forall r req resp,
      reads_cleanly (resource.Read_State req) resp ->
      UserResource.client r = Some c ->
      let seen := after_get (resource.Read_State req) resp in
      let data := snd (Get (resource.Read_State req)) in
      fst (GetUserByUsername c (ValueString (UserModel.Username data)) h) = inl err ->
      let resp' := fst (UserResource.Read r req resp h) in
      errors_Is_ErrNotFound err = eq_ErrNotFound err
      /\ (err = ErrNotFound -> resp' = {| Diagnostics := seen; State := None |})
      /\ (err <> ErrNotFound ->
          resp' = {| Diagnostics :=
                       seen ++ [error_diag "Client Error" "Unable to read user: %s"
                                  [diag.op_err err]];
                     State := State resp |}))
  /\ (forall r req resp,
         access_read_guards r req resp c ->
         let seen := after_get (resource.Read_State req) resp in
         fst (access_read_lookup req c h) = inl err ->
         let resp' := fst (UserDomainAccessResource.Read r req resp h) in
         (errors_Is_ErrNotFound err = true ->
          resp' = {| Diagnostics := seen; State := None |})
         /\ (errors_Is_ErrNotFound err = false ->
             resp' = {| Diagnostics :=
                          seen ++ [error_diag "Client Error"
                                     "Unable to read user domain access: %s"
                                     [diag.op_err err]];
                        State := State resp |})).
Proof.
  split.
  - intros r req resp Hclean Hclient seen data Hlooked resp'.
    split; [exact (GetUserByUsername_no_wrap c _ h err Hlooked)|].
    subst resp'.
    rewrite (user_Read_lookup_failed r req resp h c err Hclean Hclient Hlooked).
    split.
    + intros ->. reflexivity.
    + intros Hne. destruct err; try contradiction; reflexivity.
  - intros r req resp Hguards seen Hlooked resp'. subst resp'.
    rewrite (access_Read_lookup_failed r req resp h c err Hguards Hlooked).
    split; intros ->; reflexivity.
Qed.

(** The user is gone: every request is answered with 404, the lookup gives
    the wrapped [ErrNotFound], and [Read] drops the state without an error. *)
Lemma access_Read_drops_on_wrapped_ErrNotFound :
  ~ access_read_splits_on_identity (stdlib := demo.stdlib) (codec := demo.codec)
      (remote := demo.service []).
Proof.
  intros Hall.
  pose (req := resource.mkReadRequest
                 (resource.mkSource ([], demo.stored "domain" (Int64Value 11)))).
  destruct (Hall demo.access_resource req
              {| Diagnostics := []; State := Some (demo.stored "domain" (Int64Value 11)) |}
              [] demo.admin
              (fmt_Errorf_w "failed to get user data: %w" [] ErrNotFound))
    as (_ & Hother).
  - repeat split; reflexivity.
  - vm_compute. reflexivity.
  - destruct Hother as (Herr & _); [discriminate|].
    vm_compute in Herr. discriminate Herr.
Qed.

(** ** Creating and replacing a grant *)

Section access_grants.
Context {stdlib : GoStdlib} {codec : Codec} {remote : Remote}.

Ltac run_io :=
  unfold mbind, IO_bind, wrapping, attempt, lift, Do, ReadAll, fail, ret, mret, IO_ret.

Lemma DeleteDomainAccess_run c id h :
  DeleteDomainAccess c id h
  = match NewRequest c "DELETE" (permission_by_id_path id) None with
    | inl err => (inl (fmt_Errorf_w "failed to create request: %w" [] err), h)
    | inr req =>
        (match RoundTrip (HTTPClient c) h req with
         | inl text => inl (fmt_Errorf_w "failed to execute request: %w" []
                              (lib_error text))
         | inr resp => inr resp
         end, h ++ [req])
    end.
Proof.
  unfold DeleteDomainAccess, permission_by_id_path. cbv zeta. rewrite request_phase.
  destruct (NewRequest c _ _ _) as [err|req]; [reflexivity|].
  destruct (RoundTrip _ h req) as [text|resp]; reflexivity.
Qed.

(** [DeleteDomainAccess] sends its DELETE whenever the request can be
    built, returns the answer whatever its status, and fails exactly when
    the request cannot be built or gets no answer. *)
Lemma DeleteDomainAccess_sent c id h :
  snd (DeleteDomainAccess c id h) = h ++ permission_delete c id
  /\ (forall sent answer,
         permission_delete c id = [sent] ->
         RoundTrip (HTTPClient c) h sent = inr answer ->
         fst (DeleteDomainAccess c id h) = inr answer)
  /\ ((exists err, fst (DeleteDomainAccess c id h) = inl err) <-> delete_fails c id h).
Proof.
  rewrite DeleteDomainAccess_run. unfold delete_fails, permission_delete, built.
  destruct (NewRequest c _ _ _) as [err|req]; cbn [fst snd].
  - rewrite app_nil_r. split; [reflexivity|]. split; [discriminate|].
    split; eauto.
  - split; [reflexivity|]. split.
    + intros sent answer [= <-] ->. reflexivity.
    + destruct (RoundTrip _ h req) as [text|resp] eqn:Hrt.
      * split; [intros _; right; exists req, text; auto|eauto].
      * split; [intros [? [=]]|].
        intros [[=]|(sent & text & [= <-] & Habs)].
        rewrite Hrt in Habs. discriminate Habs.
Qed.

Lemma access_Create_unfold r req resp h c :
  reads_cleanly (resource.Create_Plan req) resp ->
  UserDomainAccessResource.client r = Some c ->
  UserDomainAccessResource.Create r req resp h
  = (let data := snd (Get (resource.Create_Plan req)) in
     let resp := Append resp (fst (Get (resource.Create_Plan req))) in
     match GetDomainAccess c (ValueString (UserDomainAccessModel.UserId data))
             (ValueString (UserDomainAccessModel.Domain data)) h with
     | (inr existing, h) =>
         (AddError resp "Domain Access Already Exists"
            ("A domain access permission already exists for this user and domain combination.",
             []), h)
     | (inl _, h) =>
         match CreateDomainAccess c (UserDomainAccessResource.createData data) h with
         | (inl err, h) =>
             (AddError resp "Client Error"
                ("Unable to create user domain access: %s", [diag.op_err err]), h)
         | (inr domain, h) =>
             (State_Set resp
                {| UserDomainAccessModel.UserId := UserDomainAccessModel.UserId data;
                   UserDomainAccessModel.Domain := UserDomainAccessModel.Domain data;
                   UserDomainAccessModel.AccessLevel :=
                     UserDomainAccessModel.AccessLevel data;
                   UserDomainAccessModel.Id :=
                     StringValue (UserDomainAccessResource.composite_id data);
                   UserDomainAccessModel.DatabaseID :=
                     Int64Value (DomainUserPermissionData.ID domain) |}, h)
         end
     end).
Proof.
  unfold reads_cleanly, UserDomainAccessResource.Create. intros Hclean Hclient.
  destruct (Get (resource.Create_Plan req)) as [diags data]. cbn [fst snd] in *.
  rewrite Hclean, Hclient. reflexivity.
Qed.

Lemma access_Update_unfold r req resp h c :
  reads_cleanly (resource.Update_Plan req) resp ->
  UserDomainAccessResource.client r = Some c ->
  keys_set (snd (Get (resource.Update_Plan req))) ->
  database_id_set (snd (Get (resource.Update_Plan req))) ->
  UserDomainAccessResource.Update r req resp h
  = (let data := snd (Get (resource.Update_Plan req)) in
     let resp := Append resp (fst (Get (resource.Update_Plan req))) in
     match DeleteDomainAccess c
             (ValueInt64 (UserDomainAccessModel.DatabaseID data)) h with
     | (inl err, h) =>
         (AddError resp "Client Error"
            ("Unable to delete user domain access: %s", [diag.op_err err]), h)
     | (inr _, h) =>
         match CreateDomainAccess c (UserDomainAccessResource.createData data) h with
         | (inl err, h) =>
             (AddError resp "Client Error"
                ("Unable to update user domain access: %s", [diag.op_err err]), h)
         | (inr domain, h) =>
             (State_Set resp
                {| UserDomainAccessModel.UserId := UserDomainAccessModel.UserId data;
                   UserDomainAccessModel.Domain := UserDomainAccessModel.Domain data;
                   UserDomainAccessModel.AccessLevel :=
                     UserDomainAccessModel.AccessLevel data;
                   UserDomainAccessModel.Id :=
                     StringValue (UserDomainAccessResource.composite_id data);
                   UserDomainAccessModel.DatabaseID :=
                     Int64Value (DomainUserPermissionData.ID domain) |}, h)
         end
     end).
Proof.
  unfold reads_cleanly, keys_set, database_id_set, UserDomainAccessResource.Update.
  intros Hclean Hclient (Huser & Hdomain) (Hnull & Hzero).
  destruct (Get (resource.Update_Plan req)) as [diags data]. cbn [fst snd] in *.
  rewrite Hclean, Hclient, Huser, Hdomain, Hnull.
  apply Z.eqb_neq in Hzero. rewrite Hzero. reflexivity.
Qed.

(** A successful [CreateDomainAccess] has sent, as its last request, the
    POST of the permission for some domain ID. *)
Lemma CreateDomainAccess_success_posted c access h permission :
  fst (CreateDomainAccess c access h) = inr permission ->
  exists before sent domainID,
    snd (CreateDomainAccess c access h) = (h ++ before) ++ [sent]
    /\ is_permission_post c access domainID sent.
Proof.
  rewrite CreateDomainAccess_run.
  pose proof (GetDomain_sent c (DomainUserPermissionCreateData.Domain access) h)
    as Hlookup.
  assert (forall domainData h1 before,
             h1 = h ++ before ->
             fst (post_access c access domainData h1) = inr permission ->
             exists before sent domainID,
               snd (post_access c access domainData h1) = (h ++ before) ++ [sent]
               /\ is_permission_post c access domainID sent) as Hpost.
  { intros domainData h1 before -> Hok.
    destruct (post_access_sent c access domainData (h ++ before)) as (Hh & Hnone).
    pose proof (permission_post_request c access (DomainData.ID domainData)) as Hin.
    unfold permission_post, posted, built in Hh, Hnone, Hin.
    destruct (Marshal _) as [text|b].
    { destruct (Hnone eq_refl) as [err Herr]. rewrite Hok in Herr. discriminate. }
    destruct (NewRequest c _ _ _) as [err|sent].
    { destruct (Hnone eq_refl) as [err' Herr]. rewrite Hok in Herr. discriminate. }
    exists before, sent, (DomainData.ID domainData).
    split; [exact Hh|]. apply Hin, list_elem_of_singleton. reflexivity. }
  destruct (GetDomain c _ h) as [[err|domainData] h1]; cbn [snd] in Hlookup.
  - destruct (eq_ErrNotFound err); [|discriminate].
    destruct (CreateDomain_sent c (DomainUserPermissionCreateData.Domain access) h1)
      as (Hcreate & _).
    destruct (CreateDomain c _ h1) as [[err'|newDomainData] h1']; [discriminate|].
    cbn [fst snd] in Hcreate |- *. intros Hok.
    apply (Hpost newDomainData h1'
             (domain_lookup c (DomainUserPermissionCreateData.Domain access)
                ++ domain_post c (DomainUserPermissionCreateData.Domain access)));
      [|exact Hok].
    rewrite Hcreate, Hlookup, <- app_assoc. reflexivity.
  - intros Hok.
    by apply (Hpost domainData h1
                (domain_lookup c (DomainUserPermissionCreateData.Domain access))).
Qed.

End access_grants.

(** C5, amended.  The domain-access [Update], once its guards have passed,
    first deletes the permission whose ID is the stored [database_id] (which
    the plan carries over unchanged): the DELETE is sent whenever its
    request can be built.  The delete fails exactly when the request cannot
    be built or gets no answer; [Update] then adds an error, leaves the
    state as it was and sends nothing more.  An answered DELETE, whatever
    its status, is no failure: [Update] then creates the grant from the
    planned [user_id], [domain] and [access_level], and on success stores
    the new [database_id] and the [id] made of the three planned values
    joined by colons; when the create fails it adds an error and leaves the
    state as it was. *)
Theorem access_Update_replaces_grant {stdlib : GoStdlib} {codec : Codec}
    {remote : Remote} (r : UserDomainAccessResource.t)
    (req : resource.UpdateRequest UserDomainAccessModel.t)
    (resp : resource.Response UserDomainAccessModel.t) (h : list Request)
    (c : Client) :
  let seen := after_get (resource.Update_Plan req) resp in
  let data := snd (Get (resource.Update_Plan req)) in
  let prior := snd (Get (resource.Update_State req)) in
  reads_cleanly (resource.Update_Plan req) resp ->
  UserDomainAccessResource.client r = Some c ->
  keys_set data ->
  database_id_set data ->
  UserDomainAccessModel.DatabaseID data = UserDomainAccessModel.DatabaseID prior ->
  let id := ValueInt64 (UserDomainAccessModel.DatabaseID prior) in
  let user_id := ValueString (UserDomainAccessModel.UserId data) in
  let domain := ValueString (UserDomainAccessModel.Domain data) in
  let access_level := ValueString (UserDomainAccessModel.AccessLevel data) in
  let deleted := DeleteDomainAccess c id h in
  let created :=
    CreateDomainAccess c
      {| DomainUserPermissionCreateData.UserID := user_id;
         DomainUserPermissionCreateData.Domain := domain;
         DomainUserPermissionCreateData.AccessLevel := access_level |}
      (snd deleted) in
  let out := UserDomainAccessResource.Update r req resp h in
  snd deleted = h ++ permission_delete c id
  /\ (forall sent answer,
         permission_delete c id = [sent] ->
         RoundTrip (HTTPClient c) h sent = inr answer ->
         fst deleted = inr answer)
  /\ ((exists err, fst deleted = inl err) <-> delete_fails c id h)
  /\ (forall err,
         fst deleted = inl err ->
         out = ({| Diagnostics :=
                     seen
                     ++ [error_diag "Client Error"
                           "Unable to delete user domain access: %s" [diag.op_err err]];
                   State := State resp |}, snd deleted))
  /\ (forall answer,
         fst deleted = inr answer ->
         snd out = snd created
         /\ (forall permission,
                fst created = inr permission ->
                fst out
                = {| Diagnostics := seen;
                     State :=
                       Some {| UserDomainAccessModel.UserId :=
                                 UserDomainAccessModel.UserId data;
                               UserDomainAccessModel.Domain :=
                                 UserDomainAccessModel.Domain data;
                               UserDomainAccessModel.AccessLevel :=
                                 UserDomainAccessModel.AccessLevel data;
                               UserDomainAccessModel.Id :=
                                 StringValue (user_id +:+ ":" +:+ domain +:+ ":"
                                                +:+ access_level);
                               UserDomainAccessModel.DatabaseID :=
                                 Int64Value (DomainUserPermissionData.ID permission) |} |})
         /\ (forall err,
                fst created = inl err ->
                fst out
                = {| Diagnostics :=
                       seen
                       ++ [error_diag "Client Error"
                             "Unable to update user domain access: %s" [diag.op_err err]];
                     State := State resp |})).
Proof.
  intros seen data prior Hclean Hclient Hkeys Hid Hsame
    id user_id domain access_level deleted created out.
  subst out created deleted id.
  rewrite (access_Update_unfold r req resp h c Hclean Hclient Hkeys Hid).
  cbv zeta. fold data. rewrite <- Hsame.
  destruct (DeleteDomainAccess_sent c (ValueInt64 (UserDomainAccessModel.DatabaseID data)) h)
    as (Hsent & Hanswered & Hfails).
  split; [exact Hsent|]. split; [exact Hanswered|]. split; [exact Hfails|].
  destruct (DeleteDomainAccess c _ h) as [[err|answer] h1]; cbn [fst snd].
  - split; [|discriminate]. intros ? [= <-].
    rewrite (AddError_clean _ _ _ _ Hclean). reflexivity.
  - split; [discriminate|]. intros _ _.
    change (UserDomainAccessResource.createData data)
      with {| DomainUserPermissionCreateData.UserID := user_id;
              DomainUserPermissionCreateData.Domain := domain;
              DomainUserPermissionCreateData.AccessLevel := access_level |}.
    destruct (CreateDomainAccess c _ h1) as [[err|permission] h2]; cbn [fst snd].
    + split; [reflexivity|]. split; [discriminate|]. intros ? [= <-].
      exact (AddError_clean _ _ _ _ Hclean).
    + split; [reflexivity|]. split; [|discriminate]. intros ? [= <-]. reflexivity.
Qed.

(** The grant 11 of alice on example.com is replaced by one for
    subdomains. *)
Lemma access_Update_replaces_grant_witness :
  let req := resource.mkUpdateRequest
               (resource.mkSource ([], demo.stored "subdomain" (Int64Value 11)))
               (resource.mkSource ([], demo.stored "domain" (Int64Value 11))) in
  fst (UserDomainAccessResource.Update (stdlib := demo.stdlib) (codec := demo.codec)
         (remote := demo.service demo.routes) demo.access_resource req demo.nothing [])
  = {| Diagnostics := [];
       State := Some (demo.stored "subdomain" (Int64Value 11)) |}.
Proof.
  intros req.
  destruct (access_Update_replaces_grant (stdlib := demo.stdlib) (codec := demo.codec)
              (remote := demo.service demo.routes) demo.access_resource req
              demo.nothing [] demo.admin)
    as (_ & _ & _ & _ & Hdeleted).
  - reflexivity.
  - reflexivity.
  - split; reflexivity.
  - split; [reflexivity | discriminate].
  - reflexivity.
  - destruct (Hdeleted {| StatusCode := 204; Body := inr EmptyString |})
      as (_ & Hstored & _); [vm_compute; reflexivity|].
    rewrite (Hstored demo.grant); [reflexivity | vm_compute; reflexivity].
Defined.

(** The service answers the DELETE of the permission 11 with 500: the
    update goes on, looks the domain up, POSTs the new permission and stores
    the new state, although the permission 11 is still there. *)
Lemma access_Update_ignores_rejected_delete :
  ~ rejected_delete_stops_update (stdlib := demo.stdlib) (codec := demo.codec)
      (remote := demo.service demo.routes_failing_delete).
Proof.
  intros Hall.
  destruct (Hall demo.access_resource
              (resource.mkUpdateRequest
                 (resource.mkSource ([], demo.stored "subdomain" (Int64Value 11)))
                 (resource.mkSource ([], demo.stored "domain" (Int64Value 11))))
              demo.nothing [] demo.admin
              {| Method := "DELETE";
                 URL := demo.https_url "lego.test" "/api/v1/domain-user-permissions/11/";
                 Header := <["User-Agent" := "terraform-provider-legocharm"%string]>
                             (<["Authorization" := "Basic admin:hunter2"%string]> ∅);
                 ReqBody := None |}
              {| StatusCode := 500; Body := inr "<html>"%string |})
    as (Hsent & _).
  - reflexivity.
  - reflexivity.
  - split; reflexivity.
  - split; [reflexivity | discriminate].
  - vm_compute. reflexivity.
  - vm_compute. reflexivity.
  - vm_compute. discriminate.
  - apply (f_equal (@List.length _)) in Hsent. vm_compute in Hsent. discriminate Hsent.
Qed.

(** C8, amended.  The provider puts no condition on [access_level]: when
    no grant is found for the user and the domain and the service accepts
    the create, [Create] has POSTed a permission that carries the planned
    [access_level] as it is, and stores the planned [access_level] as it
    is, without any error. *)
Theorem access_level_is_forwarded {stdlib : GoStdlib} {codec : Codec}
    {remote : Remote} (r : UserDomainAccessResource.t)
    (req : resource.CreateRequest UserDomainAccessModel.t)
    (resp : resource.Response UserDomainAccessModel.t) (h : list Request)
    (c : Client) (err : error) (permission : DomainUserPermissionData.t) :
  let seen := after_get (resource.Create_Plan req) resp in
  let data := snd (Get (resource.Create_Plan req)) in
  let user_id := ValueString (UserDomainAccessModel.UserId data) in
  let domain := ValueString (UserDomainAccessModel.Domain data) in
  let access_level := ValueString (UserDomainAccessModel.AccessLevel data) in
  let access :=
    {| DomainUserPermissionCreateData.UserID := user_id;
       DomainUserPermissionCreateData.Domain := domain;
       DomainUserPermissionCreateData.AccessLevel := access_level |} in
  reads_cleanly (resource.Create_Plan req) resp ->
  UserDomainAccessResource.client r = Some c ->
  fst (GetDomainAccess c user_id domain h) = inl err ->
  let h1 := snd (GetDomainAccess c user_id domain h) in
  fst (CreateDomainAccess c access h1) = inr permission ->
  let out := UserDomainAccessResource.Create r req resp h in
  (exists before sent domainID b,
      snd out = (h1 ++ before) ++ [sent]
      /\ request_for c "POST" "/api/v1/domain-user-permissions/" (Some b) sent
      /\ Marshal
           {| DomainUserPermissionCreatePayloadData.UserID := user_id;
              DomainUserPermissionCreatePayloadData.Domain := domainID;
              DomainUserPermissionCreatePayloadData.AccessLevel := access_level |}
         = inr b)
  /\ fst out
     = {| Diagnostics := seen;
          State :=
            Some {| UserDomainAccessModel.UserId := UserDomainAccessModel.UserId data;
                    UserDomainAccessModel.Domain := UserDomainAccessModel.Domain data;
                    UserDomainAccessModel.AccessLevel :=
                      UserDomainAccessModel.AccessLevel data;
                    UserDomainAccessModel.Id :=
                      StringValue (user_id +:+ ":" +:+ domain +:+ ":" +:+ access_level);
                    UserDomainAccessModel.DatabaseID :=
                      Int64Value (DomainUserPermissionData.ID permission) |} |}.
Proof.
  intros seen data user_id domain access_level access Hclean Hclient
    Hnone h1 Hcreated out.
  subst out h1. rewrite (access_Create_unfold r req resp h c Hclean Hclient).
  cbv zeta. fold data user_id domain.
  change (UserDomainAccessResource.createData data) with access.
  destruct (GetDomainAccess c user_id domain h) as [[err'|existing] h1];
    cbn [fst snd] in *; [|discriminate].
  destruct (CreateDomainAccess_success_posted c access h1 permission Hcreated)
    as (before & sent & domainID & Hsent & b & Hb & Hreq).
  destruct (CreateDomainAccess c access h1) as [[err''|permission'] h2];
    cbn [fst snd] in *; [discriminate|].
  injection Hcreated as ->. split; [|reflexivity].
  exists before, sent, domainID, b. auto.
Qed.

(** A grant with the access level ["admin"] is created and stored. *)
Lemma access_level_is_forwarded_witness :
  let req := resource.mkCreateRequest (resource.mkSource ([], demo.planned "admin")) in
  State (fst (UserDomainAccessResource.Create (stdlib := demo.stdlib)
                (codec := demo.codec) (remote := demo.service demo.routes)
                demo.access_resource req demo.nothing []))
  = Some (demo.stored "admin" (Int64Value 11)).
Proof.
  intros req.
  destruct (access_level_is_forwarded (stdlib := demo.stdlib) (codec := demo.codec)
              (remote := demo.service demo.routes) demo.access_resource req
              demo.nothing [] demo.admin ErrNotFound demo.grant)
    as (_ & Hstored).
  - reflexivity.
  - reflexivity.
  - vm_compute. reflexivity.
  - vm_compute. reflexivity.
  - rewrite Hstored. reflexivity.
Defined.

(** The create of a grant with the access level ["admin"] is not rejected:
    requests are sent and no error is added. *)
Lemma access_level_admin_is_not_rejected :
  ~ access_level_is_checked (stdlib := demo.stdlib) (codec := demo.codec)
      (remote := demo.service demo.routes).
Proof.
  intros Hall.
  destruct (Hall demo.access_resource
              (resource.mkCreateRequest (resource.mkSource ([], demo.planned "admin")))
              demo.nothing []) as (Herr & _).
  - discriminate.
  - discriminate.
  - vm_compute in Herr. discriminate Herr.
Qed.

(** ** The reconcilers on the small service *)

(** alice exists already: her create is refused and nothing is stored. *)
Lemma user_Create_checks_conflict_witness :
  let req := resource.mkCreateRequest
               (resource.mkSource ([], demo.user_model "alice" "s3cret")) in
  let out := UserResource.Create (stdlib := demo.stdlib) (codec := demo.codec)
               (remote := demo.service demo.routes) demo.user_resource req
               demo.nothing [] in
  State (fst out) = None /\ diag.HasError (Diagnostics (fst out)) = true.
Proof.
  intros req out.
  destruct (user_Create_checks_conflict (stdlib := demo.stdlib) (codec := demo.codec)
              (remote := demo.service demo.routes) demo.user_resource req
              demo.nothing [] demo.admin eq_refl eq_refl)
    as (Hexists & _ & _).
  destruct (Hexists demo.alice) as (Hout & _); [vm_compute; reflexivity|].
  subst out. rewrite Hout. split; reflexivity.
Defined.

(** The stored password of alice is stale: the refreshed state has a null
    password and her user name. *)
Lemma user_Read_checks_password_witness :
  let req := resource.mkReadRequest
               (resource.mkSource ([], demo.user_model "alice" "stale")) in
  State (fst (UserResource.Read (stdlib := demo.stdlib) (codec := demo.codec)
                (remote := demo.service demo.routes) demo.user_resource req
                demo.nothing []))
  = Some {| UserModel.Username := StringValue "alice";
            UserModel.Password := StringNull;
            UserModel.Email := StringValue "alice@example.com";
            UserModel.Id := StringValue "7" |}.
Proof.
  intros req.
  destruct (user_Read_checks_password (stdlib := demo.stdlib) (codec := demo.codec)
              (remote := demo.service demo.routes) demo.user_resource req
              demo.nothing [] demo.admin demo.alice eq_refl eq_refl)
    as (Hstale & _); [vm_compute; reflexivity|].
  destruct Hstale as (Hresp & _); [vm_compute; reflexivity|].
  rewrite Hresp. reflexivity.
Defined.

Example CreateDomainAccess_new_domain :
  let access := {| DomainUserPermissionCreateData.UserID := "7";
                   DomainUserPermissionCreateData.Domain := "new.example";
                   DomainUserPermissionCreateData.AccessLevel := "domain" |} in
  let out := CreateDomainAccess (stdlib := demo.stdlib) (codec := demo.codec)
               (remote := demo.service demo.routes) demo.admin access [] in
  fst out = inr demo.grant
  /\ List.map (fun sent => (Method sent, demo.String_of (URL sent), ReqBody sent)) (snd out)
     = [("GET"%string, demo.at_lego "/api/v1/domains/?fqdn=new.example", None);
        ("POST"%string, demo.at_lego "/api/v1/domains/", Some "{domain new.example}"%string);
        ("POST"%string, demo.at_lego "/api/v1/domain-user-permissions/",
         Some "{payload 7 3 domain}"%string)].
Proof. vm_compute. split; reflexivity. Qed.

Example CreateDomainAccess_known_domain :
  let access := {| DomainUserPermissionCreateData.UserID := "7";
                   DomainUserPermissionCreateData.Domain := "example.com";
                   DomainUserPermissionCreateData.AccessLevel := "subdomain" |} in
  let out := CreateDomainAccess (stdlib := demo.stdlib) (codec := demo.codec)
               (remote := demo.service demo.routes) demo.admin access [] in
  List.map (fun sent => (Method sent, demo.String_of (URL sent), ReqBody sent)) (snd out)
  = [("GET"%string, demo.at_lego "/api/v1/domains/?fqdn=example.com", None);
     ("POST"%string, demo.at_lego "/api/v1/domain-user-permissions/",
      Some "{payload 7 3 subdomain}"%string)].
Proof. vm_compute. reflexivity. Qed.

Example CreateDomainAccess_lookup_down :
  let access := {| DomainUserPermissionCreateData.UserID := "7";
                   DomainUserPermissionCreateData.Domain := "down.example";
                   DomainUserPermissionCreateData.AccessLevel := "domain" |} in
  let out := CreateDomainAccess (stdlib := demo.stdlib) (codec := demo.codec)
               (remote := demo.service demo.routes) demo.admin access [] in
  fst out
  = inl (fmt_Errorf_w "failed to get domain data: %w" []
           (fmt_Errorf "failed to parse domain response: %s" [arg_s "<html>"]))
  /\ List.map (fun sent => (Method sent, demo.String_of (URL sent))) (snd out)
     = [("GET"%string, demo.at_lego "/api/v1/domains/?fqdn=down.example")].
Proof. vm_compute. split; reflexivity. Qed.

Example GetUserByUsername_empty_array :
  fst (GetUserByUsername (stdlib := demo.stdlib) (codec := demo.codec)
         (remote := demo.service demo.routes) demo.admin "bob" [])
  = inl ErrNotFound.
Proof. vm_compute. reflexivity. Qed.

Example GetUserByUsername_undecodable_body :
  fst (GetUserByUsername (stdlib := demo.stdlib) (codec := demo.codec)
         (remote := demo.service demo.routes) demo.admin "carol" [])
  = inl (fmt_Errorf "failed to parse user response: %s" [arg_s "<html>"]).
Proof. vm_compute. reflexivity. Qed.

Example access_Read_user_gone :
  let req := resource.mkReadRequest
               (resource.mkSource ([], demo.stored "domain" (Int64Value 11))) in
  let before := {| Diagnostics := [];
                   State := Some (demo.stored "domain" (Int64Value 11)) |} in
  fst (access_read_lookup (stdlib := demo.stdlib) (codec := demo.codec)
         (remote := demo.service []) req demo.admin [])
  = inl (fmt_Errorf_w "failed to get user data: %w" [] ErrNotFound)
  /\ fst (UserDomainAccessResource.Read (stdlib := demo.stdlib) (codec := demo.codec)
            (remote := demo.service []) demo.access_resource req before [])
     = {| Diagnostics := []; State := None |}.
Proof. vm_compute. split; reflexivity. Qed.

Example access_Update_delete_fails :
  let req := resource.mkUpdateRequest
               (resource.mkSource ([], demo.stored "subdomain" (Int64Value 12)))
               (resource.mkSource ([], demo.stored "domain" (Int64Value 12))) in
  let before := {| Diagnostics := [];
                   State := Some (demo.stored "domain" (Int64Value 12)) |} in
  let out := UserDomainAccessResource.Update (stdlib := demo.stdlib)
               (codec := demo.codec) (remote := demo.service demo.routes)
               demo.access_resource req before [] in
  State (fst out) = State before
  /\ diag.HasError (Diagnostics (fst out)) = true
  /\ List.map (fun sent => (Method sent, demo.String_of (URL sent))) (snd out)
     = [("DELETE"%string, demo.at_lego "/api/v1/domain-user-permissions/12/")].
Proof. vm_compute. repeat split; reflexivity. Qed.

(** The answer to the DELETE is not looked at: the permission 99 is unknown
    to the service, which answers 404, and the grant is created all the
    same. *)
Example access_Update_ignores_delete_status :
  let req := resource.mkUpdateRequest
               (resource.mkSource ([], demo.stored "subdomain" (Int64Value 99)))
               (resource.mkSource ([], demo.stored "domain" (Int64Value 99))) in
  let out := UserDomainAccessResource.Update (stdlib := demo.stdlib)
               (codec := demo.codec) (remote := demo.service demo.routes)
               demo.access_resource req demo.nothing [] in
  fst (DeleteDomainAccess (stdlib := demo.stdlib)
         (remote := demo.service demo.routes) demo.admin 99 [])
  = inr {| StatusCode := 404; Body := inr EmptyString |}
  /\ State (fst out) = Some (demo.stored "subdomain" (Int64Value 11))
  /\ List.map (fun sent => (Method sent, demo.String_of (URL sent))) (snd out)
     = [("DELETE"%string, demo.at_lego "/api/v1/domain-user-permissions/99/");
        ("GET"%string, demo.at_lego "/api/v1/domains/?fqdn=example.com");
        ("POST"%string, demo.at_lego "/api/v1/domain-user-permissions/")].
Proof. vm_compute. repeat split; reflexivity. Qed.

(** Once the grant exists, [Read] refreshes the state from it, and a second
    [Create] is refused. *)
Example access_Read_refreshes :
  let req := resource.mkReadRequest
               (resource.mkSource ([], demo.stored "subdomain" Int64Null)) in
  fst (UserDomainAccessResource.Read (stdlib := demo.stdlib) (codec := demo.codec)
         (remote := demo.service demo.routes_granted) demo.access_resource req
         demo.nothing [])
  = {| Diagnostics := [];
       State := Some {| UserDomainAccessModel.UserId := StringValue "7";
                        UserDomainAccessModel.Domain := StringValue "example.com";
                        UserDomainAccessModel.AccessLevel := StringValue "domain";
                        UserDomainAccessModel.Id := StringValue "7:example.com:subdomain";
                        UserDomainAccessModel.DatabaseID := Int64Value 11 |} |}.
Proof. vm_compute. reflexivity. Qed.

Example access_Create_refused_when_granted :
  let req := resource.mkCreateRequest (resource.mkSource ([], demo.planned "domain")) in
  let out := UserDomainAccessResource.Create (stdlib := demo.stdlib)
               (codec := demo.codec) (remote := demo.service demo.routes_granted)
               demo.access_resource req demo.nothing [] in
  State (fst out) = None
  /\ List.map diag.Summary (Diagnostics (fst out)) = ["Domain Access Already Exists"%string].
Proof. vm_compute. split; reflexivity. Qed.

(** * More of the code *)

(** ** Splitting and joining *)

Lemma Split_scan_byte (c : ascii) (cur : string) (a : ascii) (rest : string) :
  strings.Split_scan (String c EmptyString) O cur (String a rest)
  = if Ascii.eqb a c
    then String.rev cur :: strings.Split_scan (String c EmptyString) O EmptyString rest
    else strings.Split_scan (String c EmptyString) O (String a cur) rest.
Proof. cbn [strings.Split_scan]. rewrite prefix_byte. reflexivity. Qed.

Lemma app_String (a : ascii) (x y : string) : String a x +:+ y = String a (x +:+ y).
Proof. reflexivity. Qed.

Lemma app_Empty (y : string) : EmptyString +:+ y = y.
Proof. reflexivity. Qed.

Lemma count_byte_app (c : ascii) (x y : string) :
  strings.count_byte c (x +:+ y)
  = (strings.count_byte c x + strings.count_byte c y)%nat.
Proof.
  induction x as [|a x IH]; [reflexivity|].
  rewrite app_String. cbn [strings.count_byte]. rewrite IH. lia.
Qed.

Lemma count_byte_rev_app (c : ascii) (x y : string) :
  strings.count_byte c (String.rev_app x y)
  = (strings.count_byte c x + strings.count_byte c y)%nat.
Proof.
  revert y. induction x as [|a x IH]; intros y;
    cbn [String.rev_app strings.count_byte]; [reflexivity|].
  rewrite IH. cbn [strings.count_byte]. lia.
Qed.

Lemma count_byte_head (c a : ascii) (s : string) :
  strings.count_byte c (String a s) = O ->
  Ascii.eqb a c = false /\ strings.count_byte c s = O.
Proof.
  cbn. rewrite (Ascii.eqb_sym c a). destruct (Ascii.eqb a c); [discriminate|]. auto.
Qed.

(** A string without the separator is one part. *)
Lemma Split_scan_free (c : ascii) (s cur : string) :
  strings.count_byte c s = O ->
  strings.Split_scan (String c EmptyString) O cur s = [String.rev_app cur s].
Proof.
  revert cur. induction s as [|a s IH]; intros cur Hfree; [reflexivity|].
  apply count_byte_head in Hfree as [Ha Hfree].
  rewrite Split_scan_byte, Ha. rewrite (IH _ Hfree). reflexivity.
Qed.

(** The scan cuts at the first separator. *)
Lemma Split_scan_cut (c : ascii) (x cur rest : string) :
  strings.count_byte c x = O ->
  strings.Split_scan (String c EmptyString) O cur (x +:+ String c rest)
  = String.rev_app cur x
    :: strings.Split_scan (String c EmptyString) O EmptyString rest.
Proof.
  revert cur. induction x as [|a x IH]; intros cur Hfree.
  - rewrite ?app_String, ?app_Empty. rewrite Split_scan_byte, Ascii.eqb_refl. reflexivity.
  - apply count_byte_head in Hfree as [Ha Hfree].
    rewrite ?app_String, ?app_Empty. rewrite Split_scan_byte, Ha. rewrite (IH _ Hfree). reflexivity.
Qed.

Lemma Split_scan_not_nil (sep : string) (skip : nat) (cur s : string) :
  strings.Split_scan sep skip cur s <> [].
Proof.
  revert skip cur. induction s as [|a s IH]; intros skip cur; [discriminate|].
  cbn [strings.Split_scan]. destruct skip; [|apply IH].
  destruct (String.prefix sep _); [discriminate|apply IH].
Qed.

Lemma last_cons_not_nil {A} (x d : A) (l : list A) :
  l <> [] -> List.last (x :: l) d = List.last l d.
Proof. destruct l; [contradiction|reflexivity]. Qed.

(** No part of a split holds the separator. *)
Lemma Split_scan_parts_free (c : ascii) (s cur part : string) :
  strings.count_byte c cur = O ->
  part ∈ strings.Split_scan (String c EmptyString) O cur s ->
  strings.count_byte c part = O.
Proof.
  revert cur. induction s as [|a s IH]; intros cur Hcur Hin.
  - apply list_elem_of_singleton in Hin as ->.
    unfold String.rev. rewrite count_byte_rev_app, Hcur. reflexivity.
  - rewrite Split_scan_byte in Hin. destruct (Ascii.eqb a c) eqn:Ha.
    + apply elem_of_cons in Hin as [->|Hin].
      * unfold String.rev. rewrite count_byte_rev_app, Hcur. reflexivity.
      * by apply (IH EmptyString).
    + apply (IH (String a cur)); [|exact Hin].
      cbn. rewrite (Ascii.eqb_sym c a), Ha. exact Hcur.
Qed.

(** The last part of a split is what follows the last separator. *)
Lemma Split_scan_last (c : ascii) (p seg cur d : string) :
  strings.count_byte c seg = O ->
  List.last (strings.Split_scan (String c EmptyString) O cur (p +:+ String c seg)) d
  = seg.
Proof.
  intros Hfree. revert cur. induction p as [|a p IH]; intros cur.
  - rewrite ?app_String, ?app_Empty. rewrite Split_scan_byte, Ascii.eqb_refl.
    rewrite (Split_scan_free _ _ _ Hfree). reflexivity.
  - rewrite ?app_String, ?app_Empty. rewrite Split_scan_byte.
    destruct (Ascii.eqb a c); [|apply IH].
    rewrite last_cons_not_nil by apply Split_scan_not_nil. apply IH.
Qed.

Lemma HasSuffix_app (x suf : string) : strings.HasSuffix (x +:+ suf) suf = true.
Proof.
  induction x as [|a x IH].
  - rewrite ?app_String, ?app_Empty. destruct suf; cbn; [reflexivity|].
    rewrite Ascii.eqb_refl, String.eqb_refl. reflexivity.
  - rewrite ?app_String, ?app_Empty; cbn [strings.HasSuffix]. rewrite IH. apply orb_true_r.
Qed.

Lemma HasSuffix_byte_count (c : ascii) (s : string) :
  strings.HasSuffix s (String c EmptyString) = true ->
  (1 <= strings.count_byte c s)%nat.
Proof.
  induction s as [|a s IH]; [discriminate|].
  cbn [strings.HasSuffix strings.count_byte]. intros H.
  apply orb_true_iff in H as [H|H].
  - apply String.eqb_eq in H. injection H as -> ->. rewrite Ascii.eqb_refl. lia.
  - apply IH in H. lia.
Qed.

Lemma HasSuffix_byte_app (c : ascii) (p seg : string) :
  seg <> EmptyString ->
  strings.HasSuffix (p +:+ seg) (String c EmptyString)
  = strings.HasSuffix seg (String c EmptyString).
Proof.
  intros Hne. induction p as [|a p IH]; [reflexivity|].
  rewrite ?app_String, ?app_Empty; cbn [strings.HasSuffix]. rewrite IH.
  destruct (String.eqb_spec (String a (p +:+ seg)) (String c EmptyString)) as [Heq|_];
    [|reflexivity].
  injection Heq as _ Heq. destruct p; [contradiction|discriminate].
Qed.

Lemma substring_app_left (x y : string) :
  String.substring 0 (String.length x) (x +:+ y) = x.
Proof.
  induction x as [|a x IH].
  - destruct y; reflexivity.
  - rewrite app_String. cbn [String.length String.substring]. rewrite IH. reflexivity.
Qed.

Lemma length_app_string (x y : string) :
  String.length (x +:+ y) = (String.length x + String.length y)%nat.
Proof.
  induction x as [|a x IH]; [reflexivity|].
  rewrite app_String. cbn [String.length]. rewrite IH. reflexivity.
Qed.

Lemma TrimSuffix_app (x suf : string) : strings.TrimSuffix (x +:+ suf) suf = x.
Proof.
  unfold strings.TrimSuffix. rewrite HasSuffix_app, length_app_string.
  replace (String.length x + String.length suf - String.length suf)%nat
    with (String.length x) by lia.
  apply substring_app_left.
Qed.

Lemma app_assoc_string (x y z : string) : (x +:+ y) +:+ z = x +:+ (y +:+ z).
Proof.
  induction x as [|a x IH]; [reflexivity|].
  rewrite !app_String, IH. reflexivity.
Qed.

(** X1.  [LastPathSegment] never returns a string that holds a slash,
    whatever the URL it is given. *)
Theorem LastPathSegment_no_slash (u : string) :
  strings.count_byte "/" (LastPathSegment u) = O.
Proof.
  unfold LastPathSegment, strings.Split.
  set (parts := strings.Split_scan "/" O EmptyString (strings.TrimSuffix u "/")).
  assert (parts <> []) as Hne by apply Split_scan_not_nil.
  destruct (Nat.eqb_spec (List.length parts) 0) as [Hlen|_].
  { destruct parts; [contradiction|discriminate]. }
  apply (Split_scan_parts_free "/" (strings.TrimSuffix u "/") EmptyString);
    [reflexivity|].
  fold parts. apply list_elem_of_In.
  destruct (exists_last Hne) as (l & x & ->). rewrite last_last.
  apply in_or_app. right. left. reflexivity.
Qed.

(** X2.  For a segment without slash, [LastPathSegment] of a URL that
    ends with a slash, the segment and one more slash is that segment; this
    is the empty string for a URL that ends with two slashes, so the result
    is not always a non-empty segment.  Without the slash at the end, it is
    the segment too, when the segment is not empty. *)
Theorem LastPathSegment_of_segment (p seg : string) :
  strings.count_byte "/" seg = O ->
  LastPathSegment (p +:+ "/" +:+ seg +:+ "/") = seg
  /\ (seg <> EmptyString -> LastPathSegment (p +:+ "/" +:+ seg) = seg).
Proof.
  intros Hfree. split.
  - unfold LastPathSegment.
    replace (p +:+ "/" +:+ seg +:+ "/") with ((p +:+ "/" +:+ seg) +:+ "/")
      by (rewrite !app_assoc_string; reflexivity).
    rewrite TrimSuffix_app. unfold strings.Split.
    destruct (Nat.eqb_spec (List.length (strings.Split_scan "/" 0 "" (p +:+ "/" +:+ seg))) 0)
      as [Hlen|_].
    { apply length_zero_iff_nil in Hlen. by apply Split_scan_not_nil in Hlen. }
    apply (Split_scan_last "/"). exact Hfree.
  - intros Hne. unfold LastPathSegment, strings.TrimSuffix.
    assert (strings.HasSuffix (p +:+ "/" +:+ seg) "/" = false) as ->.
    { replace (p +:+ "/" +:+ seg) with ((p +:+ "/") +:+ seg)
        by (rewrite !app_assoc_string; reflexivity).
      rewrite HasSuffix_byte_app by exact Hne.
      destruct (strings.HasSuffix seg "/") eqn:Hs; [|reflexivity].
      apply HasSuffix_byte_count in Hs. lia. }
    unfold strings.Split.
    destruct (Nat.eqb_spec (List.length (strings.Split_scan "/" 0 "" (p +:+ "/" +:+ seg))) 0)
      as [Hlen|_].
    { apply length_zero_iff_nil in Hlen. by apply Split_scan_not_nil in Hlen. }
    apply (Split_scan_last "/"). exact Hfree.
Qed.

Lemma LastPathSegment_of_segment_witness :
  LastPathSegment "https://lego.test/api/v1/users/7/" = "7"%string
  /\ LastPathSegment "https://lego.test/api/v1/users//" = EmptyString.
Proof.
  split.
  - exact (proj1 (LastPathSegment_of_segment "https://lego.test/api/v1/users" "7" eq_refl)).
  - exact (proj1 (LastPathSegment_of_segment "https://lego.test/api/v1/users" "" eq_refl)).
Defined.

Lemma Split_two (x y : string) :
  strings.count_byte ":" x = O -> strings.count_byte ":" y = O ->
  strings.Split (x +:+ ":" +:+ y) ":" = [x; y].
Proof.
  intros Hx Hy. unfold strings.Split.
  change (x +:+ ":" +:+ y) with (x +:+ String ":" y).
  rewrite (Split_scan_cut ":" x EmptyString y Hx).
  rewrite (Split_scan_free ":" y EmptyString Hy). reflexivity.
Qed.

Lemma Split_three (x y z : string) :
  strings.count_byte ":" x = O -> strings.count_byte ":" y = O ->
  strings.count_byte ":" z = O ->
  strings.Split (x +:+ ":" +:+ y +:+ ":" +:+ z) ":" = [x; y; z].
Proof.
  intros Hx Hy Hz. unfold strings.Split.
  change (x +:+ ":" +:+ y +:+ ":" +:+ z) with (x +:+ String ":" (y +:+ String ":" z)).
  rewrite (Split_scan_cut ":" x EmptyString (y +:+ String ":" z) Hx).
  rewrite (Split_scan_cut ":" y EmptyString z Hy).
  rewrite (Split_scan_free ":" z EmptyString Hz). reflexivity.
Qed.

(** X3.  The user import of the ID made of a user name, a colon and a
    password stores that user name and that password when neither holds a
    colon; as soon as one of them holds a colon, it adds the error
    ["Invalid Import ID"] and leaves the state as it was: a user whose
    password holds a colon cannot be imported. *)
Theorem user_ImportState_colon_free (username password : string)
    (r : UserResource.t) (resp : resource.Response UserModel.t) :
  let resp' :=
    UserResource.ImportState r {| resource.ID := username +:+ ":" +:+ password |} resp in
  (strings.count_byte ":" username = O /\ strings.count_byte ":" password = O ->
   resp' = {| Diagnostics := Diagnostics resp;
              State := Some {| UserModel.Username := StringValue username;
                               UserModel.Password := StringValue password;
                               UserModel.Email := StringNull;
                               UserModel.Id := StringNull |} |})
  /\ ((strings.count_byte ":" username + strings.count_byte ":" password)%nat <> O ->
      error_diag "Invalid Import ID"
        "Import ID must be in the format 'username:password'" [] ∈ Diagnostics resp'
      /\ diag.HasError (Diagnostics resp') = true
      /\ State resp' = State resp).
Proof.
  intros resp'. subst resp'. unfold UserResource.ImportState. cbn [resource.ID]. split.
  - intros [Hu Hp]. rewrite (Split_two _ _ Hu Hp). reflexivity.
  - intros Hcolon. rewrite Split_colon_length, count_byte_app.
    change (":" +:+ password) with (String ":" password). cbn [strings.count_byte].
    rewrite Ascii.eqb_refl.
    destruct (Nat.eqb_spec
                (S (strings.count_byte ":" username
                    + (1 + strings.count_byte ":" password))) 2) as [Hlen|_];
      [lia|].
    apply AddError_spec.
Qed.

Lemma user_ImportState_colon_free_witness :
  State (UserResource.ImportState (UserResource.mk None)
           {| resource.ID := "alice:s3cret" |} {| Diagnostics := []; State := None |})
  = Some {| UserModel.Username := StringValue "alice";
            UserModel.Password := StringValue "s3cret";
            UserModel.Email := StringNull;
            UserModel.Id := StringNull |}
  /\ diag.HasError
       (Diagnostics (UserResource.ImportState (UserResource.mk None)
                       {| resource.ID := "alice:s3:cret" |}
                       {| Diagnostics := []; State := None |})) = true.
Proof.
  split.
  - exact (f_equal State
             (proj1 (user_ImportState_colon_free "alice" "s3cret" (UserResource.mk None)
                       {| Diagnostics := []; State := None |})
                (conj eq_refl eq_refl))).
  - apply (proj2 (user_ImportState_colon_free "alice" "s3:cret" (UserResource.mk None)
                    {| Diagnostics := []; State := None |})).
    cbn. lia.
Defined.

(** X4.  The [id] that the domain-access [Create] and [Update] store,
    made of [user_id], [domain] and [access_level] joined by colons, is read
    back by the domain-access import into those three values, with a null
    [database_id], when none of them holds a colon; when one of them does,
    the import refuses the [id] and leaves the state as it was. *)
Theorem access_ImportState_of_composite_id (data : UserDomainAccessModel.t)
    (r : UserDomainAccessResource.t)
    (resp : resource.Response UserDomainAccessModel.t) :
  let user_id := ValueString (UserDomainAccessModel.UserId data) in
  let domain := ValueString (UserDomainAccessModel.Domain data) in
  let access_level := ValueString (UserDomainAccessModel.AccessLevel data) in
  let id := UserDomainAccessResource.composite_id data in
  let resp' := UserDomainAccessResource.ImportState r {| resource.ID := id |} resp in
  (strings.count_byte ":" user_id = O /\ strings.count_byte ":" domain = O
   /\ strings.count_byte ":" access_level = O ->
   resp' = {| Diagnostics := Diagnostics resp;
              State :=
                Some {| UserDomainAccessModel.UserId := StringValue user_id;
                        UserDomainAccessModel.Domain := StringValue domain;
                        UserDomainAccessModel.AccessLevel := StringValue access_level;
                        UserDomainAccessModel.Id := StringValue id;
                        UserDomainAccessModel.DatabaseID := Int64Null |} |})
  /\ ((strings.count_byte ":" user_id + strings.count_byte ":" domain
       + strings.count_byte ":" access_level)%nat <> O ->
      error_diag "Invalid Import ID"
        "Import ID must be in the format 'username:domain:access_level'" []
        ∈ Diagnostics resp'
      /\ diag.HasError (Diagnostics resp') = true
      /\ State resp' = State resp).
Proof.
  intros user_id domain access_level id resp'. subst resp' id.
  unfold UserDomainAccessResource.ImportState, UserDomainAccessResource.composite_id.
  cbn [resource.ID]. fold user_id domain access_level. split.
  - intros (Hu & Hd & Ha). rewrite (Split_three _ _ _ Hu Hd Ha). reflexivity.
  - intros Hcolon. rewrite Split_colon_length, count_byte_app.
    change (":" +:+ domain +:+ ":" +:+ access_level)
      with (String ":" (domain +:+ String ":" access_level)).
    cbn [strings.count_byte]. rewrite count_byte_app. cbn [strings.count_byte].
    rewrite Ascii.eqb_refl.
    destruct (Nat.eqb_spec
                (S (strings.count_byte ":" user_id
                    + (1 + (strings.count_byte ":" domain
                            + (1 + strings.count_byte ":" access_level))))) 3)
      as [Hlen|_]; [lia|].
    apply AddError_spec.
Qed.

Lemma access_ImportState_of_composite_id_witness :
  State (UserDomainAccessResource.ImportState (UserDomainAccessResource.mk None)
           {| resource.ID := "7:example.com:domain" |}
           {| Diagnostics := []; State := None |})
  = Some (demo.stored "domain" Int64Null).
Proof.
  exact (f_equal State
           (proj1 (access_ImportState_of_composite_id (demo.stored "domain" Int64Null)
                     (UserDomainAccessResource.mk None)
                     {| Diagnostics := []; State := None |})
              (conj eq_refl (conj eq_refl eq_refl)))).
Defined.

(** ** The calls: statuses, results and requests *)

Section calls.
Context {stdlib : GoStdlib} {codec : Codec} {remote : Remote}.

Ltac run_io :=
  unfold mbind, IO_bind, wrapping, attempt, lift, Do, ReadAll, fail, ret, mret, IO_ret.

Ltac answered H :=
  let req := fresh "req" in
  let Hreq := fresh "Hreq" in
  let Hrt := fresh "Hrt" in
  destruct H as (req & Hreq & Hrt);
  unfold users_by_id_path, users_by_name_path, domains_path, permissions_path,
    permission_by_id_path in Hreq |- *;
  rewrite request_phase, Hreq, Hrt.

Lemma created_by_status_run {A} (dec : json_Unmarshal A) (resp : Response)
    (body failed parse_failed : string) (h : list Request) :
  Body resp = inr body ->
  created_by_status dec
    (fst ((ReadAll "failed to read response body: %w" resp ≫= λ body,
           if (StatusCode resp <? 200) || (StatusCode resp >=? 400)
           then fail (fmt_Errorf failed [arg_d (StatusCode resp); arg_s body])
           else match Unmarshal (T := A) body with
                | inl text =>
                    fail (fmt_Errorf_w parse_failed [arg_s body] (lib_error text))
                | inr v => ret v
                end) h))
    resp body failed parse_failed.
Proof.
  intros Hbody. unfold ReadAll. rewrite Hbody, bind_run. cbn [ret mret IO_ret].
  rewrite Z.geb_leb. unfold created_by_status, Unmarshal.
  destruct (Z.ltb_spec (StatusCode resp) 200), (Z.leb_spec 400 (StatusCode resp));
    cbn [orb]; (split; [intros ?; first [reflexivity | lia] | intros ?; try lia]).
  destruct (dec body); reflexivity.
Qed.

(** X5.  Once their POST is answered with a readable body,
    [CreateUser] and [CreateDomain] return an error that quotes the status
    and the body when the status is below 200 or at least 400, and the
    decoded body (or the error of the decoding) for every status from 200 to
    399: an answer with a 3xx status counts as a success. *)
Theorem create_calls_by_status (c : Client) (h : list Request) (resp : Response)
    (body : string) :
  Body resp = inr body ->
  (forall user b,
      Marshal user = inr b ->
      answers c h "POST" "/api/v1/users/" (Some b) resp ->
      created_by_status dec_user (fst (CreateUser c user h)) resp body
        "failed to create user: status %d, body: %s"
        "failed to parse user response: %w (body: %s)")
  /\ (forall domain b,
         Marshal domain = inr b ->
         answers c h "POST" "/api/v1/domains/" (Some b) resp ->
         created_by_status dec_domain (fst (CreateDomain c domain h)) resp body
           "failed to create domain: status %d, body: %s"
           "failed to parse domain response: %w (body: %s)").
Proof.
  intros Hbody. split.
  - intros user b Hb Hans. unfold CreateUser.
    rewrite bind_wrapping_run. unfold lift at 1. rewrite Hb. cbv beta.
    answered Hans. by apply created_by_status_run.
  - intros domain b Hb Hans. unfold CreateDomain.
    rewrite bind_wrapping_run. unfold lift at 1. rewrite Hb. cbv beta.
    answered Hans. by apply created_by_status_run.
Qed.

(** X6.  [DeleteUserById] and [DeleteDomainAccess] return the answer of
    the service, and no error, exactly when their DELETE is answered,
    whatever the status of the answer: a 404 or a 500 is no error for
    them. *)
Theorem delete_calls_ignore_status (c : Client) (h : list Request) (resp : Response) :
  (forall id, answers c h "DELETE" (users_by_id_path id) None resp
              <-> fst (DeleteUserById c id h) = inr resp)
  /\ (forall id, answers c h "DELETE" (permission_by_id_path id) None resp
                 <-> fst (DeleteDomainAccess c id h) = inr resp).
Proof.
  split; intros id.
  - unfold DeleteUserById. split.
    + intros Hans. answered Hans. reflexivity.
    + rewrite request_phase. unfold answers, users_by_id_path.
      destruct (NewRequest c _ _ _) as [err|req]; [discriminate|].
      destruct (RoundTrip _ h req) as [text|resp'] eqn:Hrt; [discriminate|].
      intros [= <-]. eauto.
  - unfold DeleteDomainAccess. split.
    + intros Hans. answered Hans. reflexivity.
    + rewrite request_phase. unfold answers, permission_by_id_path.
      destruct (NewRequest c _ _ _) as [err|req]; [discriminate|].
      destruct (RoundTrip _ h req) as [text|resp'] eqn:Hrt; [discriminate|].
      intros [= <-]. eauto.
Qed.

Ltac decoded Hans Hst Hbody :=
  answered Hans; rewrite (status_eqb_404 _ Hst);
  unfold ReadAll; rewrite Hbody; rewrite bind_run; cbn [ret mret IO_ret].

(** X7.  When the answer to [GetUserByUsername], to [GetDomain] or to
    the permission query of [GetDomainAccess] is not a 404 and its body
    decodes as a non-empty array, the lookup returns the first element of
    the array and ignores the others; when the body does not decode as an
    array but decodes as a single object, the lookup returns that object. *)
Theorem lookups_return_first_or_single (c : Client) (h : list Request) :
  (forall username,
      first_or_single dec_users dec_user (fst (GetUserByUsername c username h)) c
        (users_by_name_path username) h)
  /\ (forall fqdn,
         first_or_single dec_domains dec_domain (fst (GetDomain c fqdn h)) c
           (domains_path fqdn) h)
  /\ (forall userId domain user h1,
         GetUserById c userId h = (inr user, h1) ->
         first_or_single dec_accesses dec_access
           (fst (GetDomainAccess c userId domain h)) c
           (permissions_path (UserData.Username user) domain) h1).
Proof.
  split; [|split].
  - intros username resp body Hans Hst Hbody. unfold GetUserByUsername.
    decoded Hans Hst Hbody. unfold Unmarshal.
    split; [intros first rest ->|intros text single -> ->]; reflexivity.
  - intros fqdn resp body Hans Hst Hbody. unfold GetDomain.
    decoded Hans Hst Hbody. unfold Unmarshal.
    split; [intros first rest ->|intros text single -> ->]; reflexivity.
  - intros userId domain user h1 Huser resp body Hans Hst Hbody.
    rewrite (GetDomainAccess_after_user _ _ _ _ _ _ Huser).
    decoded Hans Hst Hbody. unfold Unmarshal.
    split; [intros first rest ->|intros text single -> ->]; reflexivity.
Qed.

(** *** The requests of each call *)

Lemma sends_pure {X} (P : Request -> Prop) (f : list Request -> X * list Request) :
  (forall h, snd (f h) = h) -> sends_within P 0 f.
Proof.
  intros Hf h. exists []. rewrite app_nil_r. split; [apply Hf|].
  split; [reflexivity|constructor].
Qed.

Lemma sends_weaken {X} (P Q : Request -> Prop) (n k : nat)
    (f : list Request -> X * list Request) :
  (forall req, P req -> Q req) -> (n <= k)%nat ->
  sends_within P n f -> sends_within Q k f.
Proof.
  intros HPQ Hle Hf h. destruct (Hf h) as (sent & Hs & Hl & HP).
  exists sent. split; [exact Hs|]. split; [lia|].
  eapply Forall_impl; [exact HP|exact HPQ].
Qed.

Lemma sends_bind {A B} (P : Request -> Prop) (n k : nat) (m : IO A) (f : A -> IO B) :
  sends_within P n m -> (forall x, sends_within P k (f x)) ->
  sends_within P (n + k) (m ≫= f).
Proof.
  intros Hm Hf h. rewrite bind_run.
  destruct (Hm h) as (s1 & H1 & L1 & F1).
  destruct (m h) as [[err|x] h1]; cbn [snd] in *; subst h1.
  - exists s1. split; [reflexivity|]. split; [lia|exact F1].
  - destruct (Hf x (h ++ s1)) as (s2 & H2 & L2 & F2).
    exists (s1 ++ s2). rewrite H2, app_assoc. split; [reflexivity|].
    rewrite length_app. split; [lia|]. by apply Forall_app.
Qed.

Lemma sends_wrapping {A} (P : Request -> Prop) (n : nat) (format : string) (m : IO A) :
  sends_within P n m -> sends_within P n (wrapping format m).
Proof.
  intros Hm h. destruct (Hm h) as (sent & Hs & Hl & Hf).
  exists sent. split; [|auto]. unfold wrapping.
  destruct (m h) as [[err|x] h1]; exact Hs.
Qed.

Lemma sends_attempt {A} (P : Request -> Prop) (n : nat) (m : IO A) :
  sends_within P n m -> sends_within P n (attempt m).
Proof.
  intros Hm h. destruct (Hm h) as (sent & Hs & Hl & Hf).
  exists sent. split; [|auto]. unfold attempt.
  destruct (m h) as [r h1]; exact Hs.
Qed.

Lemma sends_after_lift {A B} (P : Request -> Prop) (n : nat) (format : string)
    (r : result A) (f : A -> IO B) :
  (forall x, sends_within P n (f x)) ->
  sends_within P n (wrapping format (lift r) ≫= f).
Proof.
  intros Hf. apply (sends_bind P 0 n); [|exact Hf].
  apply sends_wrapping, sends_pure. reflexivity.
Qed.

(** Building a request and sending it adds that one request. *)
Lemma sends_request {A} (c : Client) (method path : string) (body : option string)
    (f1 f2 : string) (k : Response -> IO A) :
  (forall resp h, snd (k resp h) = h) ->
  sends_within (built_with c [method]) 1
    (wrapping f1 (lift (NewRequest c method path body))
       ≫= λ req, wrapping f2 (Do c req) ≫= k).
Proof.
  intros Hk h. rewrite request_phase.
  destruct (NewRequest c method path body) as [err|req] eqn:Hreq.
  { exists []. rewrite app_nil_r. split; [reflexivity|].
    split; [cbn; lia|constructor]. }
  exists [req]. split.
  - destruct (RoundTrip _ h req) as [text|resp]; [reflexivity|apply Hk].
  - split; [reflexivity|]. constructor; [|constructor].
    exists method, path, body. split; [|exact Hreq].
    apply list_elem_of_singleton. reflexivity.
Qed.

Lemma built_with_more (c : Client) (methods methods' : list string) (req : Request) :
  (forall method, method ∈ methods -> method ∈ methods') ->
  built_with c methods req -> built_with c methods' req.
Proof. intros Hsub (method & path & body & Hin & Hreq). exists method, path, body. auto. Qed.

(** What follows the answer does not touch the history. *)
Ltac pure_tail :=
  intros ? ?; run_io; repeat case_match; simplify_eq/=; reflexivity.

Lemma GetUserById_sends c userId :
  sends_within (built_with c ["GET"%string]) 1 (GetUserById c userId).
Proof. unfold GetUserById. apply sends_request. pure_tail. Qed.

Lemma GetUserByUsername_sends c username :
  sends_within (built_with c ["GET"%string]) 1 (GetUserByUsername c username).
Proof. unfold GetUserByUsername. apply sends_request. pure_tail. Qed.

Lemma GetDomain_sends c fqdn :
  sends_within (built_with c ["GET"%string]) 1 (GetDomain c fqdn).
Proof. unfold GetDomain. apply sends_request. pure_tail. Qed.

Lemma CreateUser_sends c user :
  sends_within (built_with c ["POST"%string]) 1 (CreateUser c user).
Proof.
  unfold CreateUser. apply sends_after_lift. intros b.
  apply sends_request. pure_tail.
Qed.

Lemma CreateDomain_sends c domain :
  sends_within (built_with c ["POST"%string]) 1 (CreateDomain c domain).
Proof.
  unfold CreateDomain. apply sends_after_lift. intros b.
  apply sends_request. pure_tail.
Qed.

Lemma post_access_sends c access domainData :
  sends_within (built_with c ["POST"%string]) 1 (post_access c access domainData).
Proof.
  unfold post_access. apply sends_after_lift. intros b.
  apply sends_request. pure_tail.
Qed.

Lemma DeleteUserById_sends c id :
  sends_within (built_with c ["DELETE"%string]) 1 (DeleteUserById c id).
Proof. unfold DeleteUserById. apply sends_request. pure_tail. Qed.

Lemma DeleteDomainAccess_sends c id :
  sends_within (built_with c ["DELETE"%string]) 1 (DeleteDomainAccess c id).
Proof. unfold DeleteDomainAccess. apply sends_request. pure_tail. Qed.

Lemma GetDomainAccess_sends c userId domain :
  sends_within (built_with c ["GET"%string]) 2 (GetDomainAccess c userId domain).
Proof.
  unfold GetDomainAccess. apply (sends_bind _ 1 1).
  - apply sends_wrapping, GetUserById_sends.
  - intros user. apply sends_request. pure_tail.
Qed.

(** Membership in a list of method names. *)
Ltac listed :=
  let Hin := fresh "Hin" in
  intros ? Hin;
  repeat (apply elem_of_cons in Hin as [->|Hin]);
  [.. | by apply elem_of_nil in Hin];
  repeat first [apply list_elem_of_here | apply list_elem_of_further].

Lemma CreateDomainAccess_sends c access :
  sends_within (built_with c ["GET"%string; "POST"%string]) 3
    (CreateDomainAccess c access).
Proof.
  assert (forall domainData,
             sends_within (built_with c ["GET"%string; "POST"%string]) 1
               (post_access c access domainData)) as Hpost.
  { intros domainData.
    apply (sends_weaken (built_with c ["POST"%string]) _ 1 1); [|lia|].
    - intros req. apply built_with_more. listed.
    - apply post_access_sends. }
  unfold CreateDomainAccess. apply (sends_bind _ 1 2).
  - apply sends_attempt.
    apply (sends_weaken (built_with c ["GET"%string]) _ 1 1); [|lia|].
    + intros req. apply built_with_more. listed.
    + apply GetDomain_sends.
  - intros [err|domainData].
    + apply (sends_bind _ 1 1); [|exact Hpost].
      destruct (negb (eq_ErrNotFound err)).
      * apply (sends_weaken (built_with c ["GET"%string; "POST"%string]) _ 0 1);
          [auto|lia|]. apply sends_pure. reflexivity.
      * apply (sends_bind _ 1 0).
        -- apply sends_wrapping.
           apply (sends_weaken (built_with c ["POST"%string]) _ 1 1); [|lia|].
           ++ intros req. apply built_with_more. listed.
           ++ apply CreateDomain_sends.
        -- intros d. apply sends_pure. reflexivity.
    + apply (sends_bind _ 1 1); [|exact Hpost].
      apply (sends_weaken (built_with c ["GET"%string; "POST"%string]) _ 0 1);
        [auto|lia|]. apply sends_pure. reflexivity.
Qed.

Lemma prefix_app (x y : string) : String.prefix x (x +:+ y) = true.
Proof.
  induction x as [|a x IH]; [destruct y; reflexivity|].
  change (String a x +:+ y) with (String a (x +:+ y)). cbn [String.prefix].
  destruct (ascii_dec a a); [exact IH|contradiction].
Qed.

Lemma app_assoc_slash (s t : string) : (s +:+ "/") +:+ t = s +:+ "/" +:+ t.
Proof.
  induction s as [|a s IH]; [reflexivity|].
  change (String a s +:+ "/") with (String a (s +:+ "/")).
  change ((String a (s +:+ "/")) +:+ t) with (String a ((s +:+ "/") +:+ t)).
  rewrite IH. reflexivity.
Qed.

(** A request that the client built carries the client's credentials, has
    a URL parsed from a text below the client's base URL, and has the method
    asked for. *)
Lemma built_with_signed (c : Client) (methods : list string) (req : Request) :
  built_with c methods req ->
  Header req !! "Authorization" = Some (basic_auth (Username c) (Password c))
  /\ Header req !! "User-Agent" = Some "terraform-provider-legocharm"%string
  /\ (exists text, strings.HasPrefix text (BaseURL c +:+ "/") = true
                   /\ request_url text = Some (URL req))
  /\ (EmptyString ∉ methods -> Method req ∈ methods).
Proof.
  intros (method & path & body & Hin & Hreq).
  apply NewRequest_inr in Hreq as (Hurl & Hm & _ & Hauth & Hua & _).
  split; [exact Hauth|]. split; [exact Hua|]. split.
  - eexists. split; [|exact Hurl].
    unfold strings.HasPrefix. rewrite <- app_assoc_slash. apply prefix_app.
  - intros Hne. rewrite Hm. destruct (String.eqb_spec method "") as [->|_];
      [contradiction|exact Hin].
Qed.

(** X8.  Every call of the client appends requests to the history and
    never removes one: at most one request for [GetUserById],
    [GetUserByUsername], [CreateUser], [DeleteUserById], [GetDomain],
    [CreateDomain] and [DeleteDomainAccess], at most two for
    [GetDomainAccess] and at most three for [CreateDomainAccess].  Each of
    them was built by [NewRequest] on the client: the lookups send GETs
    only, the creates POSTs only, the deletes DELETEs only, and
    [CreateDomainAccess] GETs and POSTs but no DELETE.  Such a request
    carries the basic authentication of the client's user name and password
    and the provider's [User-Agent], and its URL is the one that
    [http.NewRequest] parses from a text that starts with the client's base
    URL and a slash. *)
Theorem client_calls_send_own_requests (c : Client) :
  (forall userId, sends_within (built_with c ["GET"%string]) 1 (GetUserById c userId))
  /\ (forall username,
         sends_within (built_with c ["GET"%string]) 1 (GetUserByUsername c username))
  /\ (forall user, sends_within (built_with c ["POST"%string]) 1 (CreateUser c user))
  /\ (forall id, sends_within (built_with c ["DELETE"%string]) 1 (DeleteUserById c id))
  /\ (forall userId domain,
         sends_within (built_with c ["GET"%string]) 2 (GetDomainAccess c userId domain))
  /\ (forall fqdn, sends_within (built_with c ["GET"%string]) 1 (GetDomain c fqdn))
  /\ (forall domain,
         sends_within (built_with c ["POST"%string]) 1 (CreateDomain c domain))
  /\ (forall access,
         sends_within (built_with c ["GET"%string; "POST"%string]) 3
           (CreateDomainAccess c access))
  /\ (forall id,
         sends_within (built_with c ["DELETE"%string]) 1 (DeleteDomainAccess c id))
  /\ (forall methods req,
         built_with c methods req ->
         Header req !! "Authorization" = Some (basic_auth (Username c) (Password c))
         /\ Header req !! "User-Agent" = Some "terraform-provider-legocharm"%string
         /\ (exists text, strings.HasPrefix text (BaseURL c +:+ "/") = true
                          /\ request_url text = Some (URL req))
         /\ (EmptyString ∉ methods -> Method req ∈ methods)).
Proof.
  split; [exact (GetUserById_sends c)|].
  split; [exact (GetUserByUsername_sends c)|].
  split; [exact (CreateUser_sends c)|].
  split; [exact (DeleteUserById_sends c)|].
  split; [exact (GetDomainAccess_sends c)|].
  split; [exact (GetDomain_sends c)|].
  split; [exact (CreateDomain_sends c)|].
  split; [exact (CreateDomainAccess_sends c)|].
  split; [exact (DeleteDomainAccess_sends c)|].
  exact (built_with_signed c).
Qed.

Lemma HasValidUserPassword_sends c username password :
  sends_within (probe_request c username password) 1
    (HasValidUserPassword c username password).
Proof.
  intros h. rewrite HasValidUserPassword_run.
  destruct (NewClient _ _ _) as [err|userClient] eqn:Hc.
  { exists []. rewrite app_nil_r. split; [reflexivity|]. split; [cbn; lia|constructor]. }
  destruct (NewRequest userClient _ _ _) as [err|req] eqn:Hreq.
  { exists []. rewrite app_nil_r. split; [reflexivity|]. split; [cbn; lia|constructor]. }
  exists [req]. split; [destruct (RoundTrip _ h req); reflexivity|].
  split; [reflexivity|]. constructor; [|constructor].
  destruct (NewClient_inr _ _ _ _ Hc)
    as (addr & u & [= <-] & Hu & Hbase & [= Hn] & [= Hp] & _).
  apply NewRequest_inr in Hreq as (Hurl & Hm & Hb & Hauth & _).
  split; [exact Hm|]. split; [exact Hb|].
  split; [rewrite Hauth, <- Hn, <- Hp; reflexivity|].
  exists u. split; [exact Hu|]. rewrite <- Hurl, Hbase. reflexivity.
Qed.

(** X9.  [HasValidUserPassword] appends at most one request: a GET
    without body that carries the basic authentication of the probed user
    name and password, not the client's own, and whose URL is the one that
    [http.NewRequest] parses from the text of the users endpoint below the
    base URL of the client (or below that base URL behind ["https://"]).
    For an empty user name or password it sends nothing. *)
Theorem probe_sends_user_credentials (c : Client) (username password : string) :
  sends_within (probe_request c username password) 1
    (HasValidUserPassword c username password)
  /\ (username = EmptyString \/ password = EmptyString ->
      forall h, snd (HasValidUserPassword c username password h) = h).
Proof.
  split; [apply HasValidUserPassword_sends|].
  intros Hempty h. rewrite HasValidUserPassword_run.
  destruct (NewClient_empty_credentials (Some (BaseURL c)) username password Hempty)
    as (err & ->).
  reflexivity.
Qed.

End calls.

Lemma create_calls_by_status_witness :
  fst (CreateUser (stdlib := demo.stdlib) (codec := demo.codec)
         (remote := demo.service demo.routes) demo.admin
         (UserCreateData.mk "alice" "s3cret" "alice@example.com" []) [])
  = inr demo.alice.
Proof.
  refine (proj2 (proj1 (create_calls_by_status (stdlib := demo.stdlib)
                          (codec := demo.codec) (remote := demo.service demo.routes)
                          demo.admin [] {| StatusCode := 201; Body := inr "{alice}"%string |}
                          "{alice}" eq_refl)
                   (UserCreateData.mk "alice" "s3cret" "alice@example.com" [])
                   "{user alice}"%string eq_refl _) _).
  - eexists. split; reflexivity.
  - cbn. lia.
Defined.

Lemma lookups_return_first_or_single_witness :
  fst (GetDomain (stdlib := demo.stdlib) (codec := demo.codec)
         (remote := demo.service demo.routes) demo.admin "example.com" [])
  = inr demo.example_com.
Proof.
  refine (proj1 (proj1 (proj2 (lookups_return_first_or_single (stdlib := demo.stdlib)
                                 (codec := demo.codec)
                                 (remote := demo.service demo.routes) demo.admin []))
                   "example.com"%string
                   {| StatusCode := 200; Body := inr "[{example.com}]"%string |}
                   "[{example.com}]"%string _ _ eq_refl) demo.example_com [] eq_refl).
  - eexists. split; reflexivity.
  - discriminate.
Defined.

(** ** The reconcilers: states and requests *)

Lemma HasError_Append (ds new : list diag.Diagnostic) :
  diag.HasError (diag.Append ds new) = diag.HasError ds || diag.HasError new.
Proof.
  destruct (diag.HasError ds) eqn:Hds; cbn [orb].
  - apply HasError_elem in Hds as (d & Hin & Herr). apply HasError_elem.
    exists d. split; [by apply Append_keeps|exact Herr].
  - destruct (diag.HasError new) eqn:Hnew.
    + apply HasError_elem in Hnew as (d & Hin & Herr). apply HasError_elem.
      exists d. split; [by apply Append_adds|exact Herr].
    + destruct (diag.HasError (diag.Append ds new)) eqn:Hall; [|reflexivity].
      apply HasError_elem in Hall as (d & Hin & Herr).
      apply Append_origin in Hin as [Hin|Hin].
      * rewrite (HasError_false_elem _ _ Hds Hin) in Herr. discriminate Herr.
      * rewrite (HasError_false_elem _ _ Hnew Hin) in Herr. discriminate Herr.
Qed.

Lemma AddError_keeps_state {M} (resp0 resp : resource.Response M) summary detail :
  State resp = State resp0 ->
  keeps_state_on_error resp0 (AddError resp summary detail).
Proof. intros Hst _. exact Hst. Qed.

Lemma State_Set_without_error {M} (resp0 resp : resource.Response M) (data : M) :
  diag.HasError (Diagnostics resp) = false ->
  keeps_state_on_error resp0 (State_Set resp data).
Proof.
  intros Hclean Herr. unfold State_Set in Herr. cbn [Diagnostics] in Herr.
  rewrite Hclean in Herr. discriminate Herr.
Qed.

Lemma RemoveResource_without_error {M} (resp0 resp : resource.Response M) :
  diag.HasError (Diagnostics resp) = false ->
  keeps_state_on_error resp0 (RemoveResource resp).
Proof.
  intros Hclean Herr. unfold RemoveResource in Herr. cbn [Diagnostics] in Herr.
  rewrite Hclean in Herr. discriminate Herr.
Qed.

Lemma kept_state {M} (resp0 resp : resource.Response M) :
  State resp = State resp0 -> keeps_state_on_error resp0 resp.
Proof. intros Hst _. exact Hst. Qed.

Section reconciler_states.
Context {stdlib : GoStdlib} {codec : Codec} {remote : Remote}.

(** Settles a leaf of a reconciler: an added error, a stored or removed
    state on diagnostics without error, or the response as it was. *)
Ltac leaf Hclean :=
  cbn [fst];
  first [ apply AddError_keeps_state; reflexivity
        | apply State_Set_without_error; exact Hclean
        | apply RemoveResource_without_error; exact Hclean
        | apply kept_state; reflexivity ].

(** X10.  Whenever the user [Create], [Read] or [Update] leaves an error
    among the diagnostics, the state is what it was before the call; for
    [Update] this needs that reading the prior state gave no error, since
    [Update] stores its result without looking at the diagnostics of that
    reading.  The user [Delete] never writes the state. *)
Theorem user_calls_keep_state_on_error (r : UserResource.t)
    (resp : resource.Response UserModel.t) (h : list Request) :
  (forall req, keeps_state_on_error resp (fst (UserResource.Create r req resp h)))
  /\ (forall req, keeps_state_on_error resp (fst (UserResource.Read r req resp h)))
  /\ (forall req,
         diag.HasError (fst (Get (resource.Update_State req))) = false ->
         keeps_state_on_error resp (fst (UserResource.Update r req resp h)))
  /\ (forall req, State (fst (UserResource.Delete r req resp h)) = State resp).
Proof.
  split; [|split; [|split]].
  - intros req. unfold UserResource.Create.
    destruct (Get (resource.Create_Plan req)) as [diags data].
    destruct (diag.HasError (Diagnostics (Append resp diags))) eqn:Hclean; [leaf Hclean|].
    destruct (UserResource.client r) as [c|]; [|leaf Hclean].
    destruct (GetUserByUsername c _ h) as [[err|existing] h1]; [|leaf Hclean].
    destruct (negb (eq_ErrNotFound err)); [leaf Hclean|].
    destruct (CreateUser c _ h1) as [[err'|created] h2]; [leaf Hclean|].
    destruct (GetUserByUsername c _ h2) as [[err'|user] h3]; leaf Hclean.
  - intros req. unfold UserResource.Read.
    destruct (Get (resource.Read_State req)) as [diags data].
    destruct (diag.HasError (Diagnostics (Append resp diags))) eqn:Hclean; [leaf Hclean|].
    destruct (UserResource.client r) as [c|]; [|leaf Hclean].
    match goal with
    | |- context [if ?b then GetUserByUsername c ?u h else _] => destruct b
    end.
    all: destruct (GetUserByUsername c _ h) as [[err|user] h1];
      [destruct (eq_ErrNotFound err); leaf Hclean|].
    all: destruct (HasValidUserPassword c _ _ h1) as [[err|[|]] h2]; cbn [negb];
      [leaf Hclean|leaf Hclean|].
    all: apply State_Set_without_error.
    all: destruct (AddWarning_spec (Append resp diags) "Invalid Password"
                     "The stored password is no longer valid" []) as (_ & _ & -> & _).
    all: exact Hclean.
  - intros req Hprior. unfold UserResource.Update.
    destruct (Get (resource.Update_Plan req)) as [diags plan].
    destruct (diag.HasError (Diagnostics (Append resp diags))) eqn:Hclean; [leaf Hclean|].
    destruct (UserResource.client r) as [c|]; [|leaf Hclean].
    destruct (GetUserByUsername c _ h) as [[err|user] h1];
      [destruct (eq_ErrNotFound err); leaf Hclean|].
    destruct (Get (resource.Update_State req)) as [diags' state]. cbn [fst] in *.
    apply State_Set_without_error. cbn [Append Diagnostics] in *.
    rewrite HasError_Append, Hclean, Hprior. reflexivity.
  - intros req. unfold UserResource.Delete.
    destruct (Get (resource.Delete_State req)) as [diags data].
    destruct (diag.HasError (Diagnostics (Append resp diags))); [reflexivity|].
    destruct (UserResource.client r) as [c|]; [|reflexivity].
    destruct (_ && _).
    + destruct (DeleteUserById c _ h) as [[err|answer] h1]; reflexivity.
    + destruct (GetUserByUsername c _ h) as [[err|user] h1].
      * destruct (eq_ErrNotFound err); reflexivity.
      * destruct (DeleteUserById c _ h1) as [[err|answer] h2]; reflexivity.
Qed.

(** X11.  Whenever the domain-access [Create], [Read], [Update] or
    [Delete] leaves an error among the diagnostics, the state is what it was
    before the call. *)
Theorem access_calls_keep_state_on_error (r : UserDomainAccessResource.t)
    (resp : resource.Response UserDomainAccessModel.t) (h : list Request) :
  (forall req,
      keeps_state_on_error resp (fst (UserDomainAccessResource.Create r req resp h)))
  /\ (forall req,
         keeps_state_on_error resp (fst (UserDomainAccessResource.Read r req resp h)))
  /\ (forall req,
         keeps_state_on_error resp (fst (UserDomainAccessResource.Update r req resp h)))
  /\ (forall req,
         keeps_state_on_error resp (fst (UserDomainAccessResource.Delete r req resp h))).
Proof.
  split; [|split; [|split]].
  - intros req. unfold UserDomainAccessResource.Create.
    destruct (Get (resource.Create_Plan req)) as [diags data].
    destruct (diag.HasError (Diagnostics (Append resp diags))) eqn:Hclean; [leaf Hclean|].
    destruct (UserDomainAccessResource.client r) as [c|]; [|leaf Hclean].
    destruct (GetDomainAccess c _ _ h) as [[err|existing] h1]; [|leaf Hclean].
    destruct (CreateDomainAccess c _ h1) as [[err'|created] h2]; leaf Hclean.
  - intros req. unfold UserDomainAccessResource.Read.
    destruct (Get (resource.Read_State req)) as [diags data].
    destruct (diag.HasError (Diagnostics (Append resp diags))) eqn:Hclean; [leaf Hclean|].
    destruct (UserDomainAccessResource.client r) as [c|]; [|leaf Hclean].
    destruct (_ || _); [leaf Hclean|].
    destruct (GetDomainAccess c _ _ h) as [[err|found] h1]; [|leaf Hclean].
    destruct (errors_Is_ErrNotFound err); leaf Hclean.
  - intros req. unfold UserDomainAccessResource.Update.
    destruct (Get (resource.Update_Plan req)) as [diags data].
    destruct (diag.HasError (Diagnostics (Append resp diags))) eqn:Hclean; [leaf Hclean|].
    destruct (UserDomainAccessResource.client r) as [c|]; [|leaf Hclean].
    destruct (_ || _); [leaf Hclean|].
    destruct (_ || _); [leaf Hclean|].
    destruct (DeleteDomainAccess c _ h) as [[err|answer] h1]; [leaf Hclean|].
    destruct (CreateDomainAccess c _ h1) as [[err'|created] h2]; leaf Hclean.
  - intros req. unfold UserDomainAccessResource.Delete.
    destruct (Get (resource.Delete_State req)) as [diags data].
    destruct (diag.HasError (Diagnostics (Append resp diags))) eqn:Hclean; [leaf Hclean|].
    destruct (UserDomainAccessResource.client r) as [c|]; [|leaf Hclean].
    destruct (_ || _); [leaf Hclean|].
    destruct (DeleteDomainAccess c _ h) as [[err|answer] h1]; leaf Hclean.
Qed.

End reconciler_states.

(** *** The requests of each reconciler call *)

Section reconciler_requests.
Context {stdlib : GoStdlib} {codec : Codec} {remote : Remote}.

Ltac listed :=
  let Hin := fresh "Hin" in
  intros ? Hin;
  repeat (apply elem_of_cons in Hin as [->|Hin]);
  [.. | by apply elem_of_nil in Hin];
  repeat first [apply list_elem_of_here | apply list_elem_of_further].

Ltac nothing_sent :=
  exists []; rewrite app_nil_r; split; [reflexivity|split; [cbn; lia|constructor]].

(** Runs the call [t], of which [L] tells the requests. *)
Ltac run_call L t s Hl Hf :=
  let Hs := fresh "Hs" in
  destruct L as (s & Hs & Hl & Hf);
  revert Hs; destruct t as [[?|?] ?]; cbn [snd]; intros ->.

Ltac widen :=
  first [ assumption
        | constructor
        | eapply Forall_impl; [eassumption|]; intros ?; apply built_with_more; listed ].

Ltac sent_is l :=
  exists l; split;
  [ rewrite ?app_nil_r, <- ?app_assoc; reflexivity
  | split; [rewrite ?length_app; cbn [List.length]; lia
           | rewrite ?Forall_app; repeat split; widen] ].

Lemma user_Create_sends c req resp :
  sends_within (built_with c ["GET"%string; "POST"%string]) 3
    (UserResource.Create (UserResource.mk (Some c)) req resp).
Proof.
  intros h. unfold UserResource.Create. cbn [UserResource.client].
  destruct (Get (resource.Create_Plan req)) as [diags data].
  destruct (diag.HasError _); [nothing_sent|].
  run_call (GetUserByUsername_sends c (ValueString (UserModel.Username data)) h)
    (GetUserByUsername c (ValueString (UserModel.Username data)) h) s1 L1 F1;
    [|sent_is s1].
  destruct (negb (eq_ErrNotFound _)); [sent_is s1|].
  match goal with
  | |- context [CreateUser c ?u ?h1] =>
      run_call (CreateUser_sends c u h1) (CreateUser c u h1) s2 L2 F2
  end; [sent_is (s1 ++ s2)|].
  match goal with
  | |- context [GetUserByUsername c ?u ?h2] =>
      run_call (GetUserByUsername_sends c u h2) (GetUserByUsername c u h2) s3 L3 F3
  end; sent_is (s1 ++ s2 ++ s3).
Qed.

Lemma user_Read_sends c req resp :
  sends_within (user_read_request c (snd (Get (resource.Read_State req)))) 2
    (UserResource.Read (UserResource.mk (Some c)) req resp).
Proof.
  intros h. unfold UserResource.Read, user_read_request. cbn [UserResource.client].
  destruct (Get (resource.Read_State req)) as [diags data]. cbn [snd].
  destruct (diag.HasError _); [nothing_sent|].
  match goal with
  | |- context [if ?b then GetUserByUsername c ?u h else _] => destruct b
  end.
  all: run_call (GetUserByUsername_sends c (ValueString (UserModel.Username data)) h)
         (GetUserByUsername c (ValueString (UserModel.Username data)) h) s1 L1 F1;
    [destruct (eq_ErrNotFound _);
     (exists s1; split; [reflexivity|split; [lia|]];
      eapply Forall_impl; [exact F1|]; intros ?; by left)|].
  all: cbn [UserModel.Username UserModel.Password].
  all: match goal with
       | |- context [HasValidUserPassword ?c0 ?u ?p ?h1] =>
           run_call (HasValidUserPassword_sends c0 u p h1)
             (HasValidUserPassword c0 u p h1) s2 L2 F2
       end.
  all: try match goal with |- context [negb ?b] => destruct b end.
  all: exists (s1 ++ s2); split; [rewrite <- ?app_assoc; reflexivity|].
  all: split; [rewrite length_app; lia|].
  all: apply Forall_app; split;
    [eapply Forall_impl; [exact F1|]; intros ?; by left
    |eapply Forall_impl; [exact F2|]; intros ?; by right].
Qed.

Lemma user_Update_sends c req resp :
  sends_within (built_with c ["GET"%string]) 1
    (UserResource.Update (UserResource.mk (Some c)) req resp).
Proof.
  intros h. unfold UserResource.Update. cbn [UserResource.client].
  destruct (Get (resource.Update_Plan req)) as [diags plan].
  destruct (diag.HasError _); [nothing_sent|].
  run_call (GetUserByUsername_sends c (ValueString (UserModel.Username plan)) h)
    (GetUserByUsername c (ValueString (UserModel.Username plan)) h) s1 L1 F1.
  - destruct (eq_ErrNotFound _); sent_is s1.
  - destruct (Get (resource.Update_State req)) as [diags' state]. sent_is s1.
Qed.

Lemma user_Delete_sends c req resp :
  sends_within (built_with c ["GET"%string; "DELETE"%string]) 2
    (UserResource.Delete (UserResource.mk (Some c)) req resp).
Proof.
  intros h. unfold UserResource.Delete. cbn [UserResource.client].
  destruct (Get (resource.Delete_State req)) as [diags data].
  destruct (diag.HasError _); [nothing_sent|].
  destruct (_ && _).
  - run_call (DeleteUserById_sends c (ValueString (UserModel.Id data)) h)
      (DeleteUserById c (ValueString (UserModel.Id data)) h) s1 L1 F1; sent_is s1.
  - run_call (GetUserByUsername_sends c (ValueString (UserModel.Username data)) h)
      (GetUserByUsername c (ValueString (UserModel.Username data)) h) s1 L1 F1.
    + destruct (eq_ErrNotFound _); sent_is s1.
    + match goal with
      | |- context [DeleteUserById c ?i ?h1] =>
          run_call (DeleteUserById_sends c i h1) (DeleteUserById c i h1) s2 L2 F2
      end; sent_is (s1 ++ s2).
Qed.

(** X12.  With the client [c] configured, the user [Create] appends at
    most three requests to the history, GETs and POSTs built by [c]; the
    user [Read] at most two, each of them the GET of the lookup built by [c]
    or the probe that carries the stored user name and password; the user
    [Update] at most one, a GET built by [c], so that it changes nothing on
    the service; the user [Delete] at most two, GETs and DELETEs built by
    [c]. *)
Theorem user_calls_send_own_requests (c : Client)
    (resp : resource.Response UserModel.t) :
  let r := UserResource.mk (Some c) in
  (forall req,
      sends_within (built_with c ["GET"%string; "POST"%string]) 3
        (UserResource.Create r req resp))
  /\ (forall req,
         sends_within (user_read_request c (snd (Get (resource.Read_State req)))) 2
           (UserResource.Read r req resp))
  /\ (forall req,
         sends_within (built_with c ["GET"%string]) 1 (UserResource.Update r req resp))
  /\ (forall req,
         sends_within (built_with c ["GET"%string; "DELETE"%string]) 2
           (UserResource.Delete r req resp)).
Proof.
  intros r. subst r.
  split; [intros; apply user_Create_sends|].
  split; [intros; apply user_Read_sends|].
  split; [intros; apply user_Update_sends|].
  intros; apply user_Delete_sends.
Qed.

Lemma access_Create_sends c req resp :
  sends_within (built_with c ["GET"%string; "POST"%string]) 5
    (UserDomainAccessResource.Create (UserDomainAccessResource.mk (Some c)) req resp).
Proof.
  intros h. unfold UserDomainAccessResource.Create.
  cbn [UserDomainAccessResource.client].
  destruct (Get (resource.Create_Plan req)) as [diags data].
  destruct (diag.HasError _); [nothing_sent|].
  match goal with
  | |- context [GetDomainAccess c ?u ?d h] =>
      run_call (GetDomainAccess_sends c u d h) (GetDomainAccess c u d h) s1 L1 F1
  end; [|sent_is s1].
  match goal with
  | |- context [CreateDomainAccess c ?a ?h1] =>
      run_call (CreateDomainAccess_sends c a h1) (CreateDomainAccess c a h1) s2 L2 F2
  end; sent_is (s1 ++ s2).
Qed.

Lemma access_Read_sends c req resp :
  sends_within (built_with c ["GET"%string]) 2
    (UserDomainAccessResource.Read (UserDomainAccessResource.mk (Some c)) req resp).
Proof.
  intros h. unfold UserDomainAccessResource.Read.
  cbn [UserDomainAccessResource.client].
  destruct (Get (resource.Read_State req)) as [diags data].
  destruct (diag.HasError _); [nothing_sent|].
  destruct (_ || _); [nothing_sent|].
  match goal with
  | |- context [GetDomainAccess c ?u ?d h] =>
      run_call (GetDomainAccess_sends c u d h) (GetDomainAccess c u d h) s1 L1 F1
  end; [destruct (errors_Is_ErrNotFound _)|]; sent_is s1.
Qed.

Lemma access_Update_sends c req resp :
  sends_within (built_with c ["DELETE"%string; "GET"%string; "POST"%string]) 4
    (UserDomainAccessResource.Update (UserDomainAccessResource.mk (Some c)) req resp).
Proof.
  intros h. unfold UserDomainAccessResource.Update.
  cbn [UserDomainAccessResource.client].
  destruct (Get (resource.Update_Plan req)) as [diags data].
  destruct (diag.HasError _); [nothing_sent|].
  destruct (_ || _); [nothing_sent|].
  destruct (_ || _); [nothing_sent|].
  match goal with
  | |- context [DeleteDomainAccess c ?i h] =>
      run_call (DeleteDomainAccess_sends c i h) (DeleteDomainAccess c i h) s1 L1 F1
  end; [sent_is s1|].
  match goal with
  | |- context [CreateDomainAccess c ?a ?h1] =>
      run_call (CreateDomainAccess_sends c a h1) (CreateDomainAccess c a h1) s2 L2 F2
  end; sent_is (s1 ++ s2).
Qed.

Lemma access_Delete_sends c req resp :
  sends_within (built_with c ["DELETE"%string]) 1
    (UserDomainAccessResource.Delete (UserDomainAccessResource.mk (Some c)) req resp).
Proof.
  intros h. unfold UserDomainAccessResource.Delete.
  cbn [UserDomainAccessResource.client].
  destruct (Get (resource.Delete_State req)) as [diags data].
  destruct (diag.HasError _); [nothing_sent|].
  destruct (_ || _); [nothing_sent|].
  match goal with
  | |- context [DeleteDomainAccess c ?i h] =>
      run_call (DeleteDomainAccess_sends c i h) (DeleteDomainAccess c i h) s1 L1 F1
  end; sent_is s1.
Qed.

(** X13.  With the client [c] configured, the domain-access [Create]
    appends at most five requests to the history, GETs and POSTs built by
    [c]; [Read] at most two, GETs only; [Update] at most four, among them no
    request with a method other than DELETE, GET and POST; [Delete] at most
    one, a DELETE. *)
Theorem access_calls_send_own_requests (c : Client)
    (resp : resource.Response UserDomainAccessModel.t) :
  let r := UserDomainAccessResource.mk (Some c) in
  (forall req,
      sends_within (built_with c ["GET"%string; "POST"%string]) 5
        (UserDomainAccessResource.Create r req resp))
  /\ (forall req,
         sends_within (built_with c ["GET"%string]) 2
           (UserDomainAccessResource.Read r req resp))
  /\ (forall req,
         sends_within (built_with c ["DELETE"%string; "GET"%string; "POST"%string]) 4
           (UserDomainAccessResource.Update r req resp))
  /\ (forall req,
         sends_within (built_with c ["DELETE"%string]) 1
           (UserDomainAccessResource.Delete r req resp)).
Proof.
  intros r. subst r.
  split; [intros; apply access_Create_sends|].
  split; [intros; apply access_Read_sends|].
  split; [intros; apply access_Update_sends|].
  intros; apply access_Delete_sends.
Qed.

End reconciler_requests.

(** ** The reconcilers, call by call *)

Section reconciler_calls.
Context {stdlib : GoStdlib} {codec : Codec} {remote : Remote}.

Lemma DeleteUserById_answered c id h answer :
  answers c h "DELETE" (users_by_id_path id) None answer ->
  fst (DeleteUserById c id h) = inr answer.
Proof.
  intros (req & Hreq & Hrt). unfold DeleteUserById, users_by_id_path in *.
  rewrite request_phase, Hreq, Hrt. reflexivity.
Qed.

Lemma DeleteDomainAccess_answered c id h answer :
  answers c h "DELETE" (permission_by_id_path id) None answer ->
  fst (DeleteDomainAccess c id h) = inr answer.
Proof.
  intros (req & Hreq & Hrt). unfold DeleteDomainAccess, permission_by_id_path in *.
  cbv zeta. rewrite request_phase, Hreq, Hrt. reflexivity.
Qed.

(** X14.  On a state whose password is null, unknown or empty, the user
    [Read] that finds the user fails: the probe cannot build its client, and
    [Read] adds the error ["Unable to validate user password"], leaves the
    state as it was and sends nothing after the lookup.  A null password is
    what [Read] itself stores once it has found the password invalid, so the
    refresh that follows such a [Read] ends with this error. *)
Theorem user_Read_needs_stored_password (r : UserResource.t)
    (req : resource.ReadRequest UserModel.t)
    (resp : resource.Response UserModel.t) (h : list Request) (c : Client)
    (user : UserData.t) :
  reads_cleanly (resource.Read_State req) resp ->
  UserResource.client r = Some c ->
  let seen := after_get (resource.Read_State req) resp in
  let data := snd (Get (resource.Read_State req)) in
  let username := ValueString (UserModel.Username data) in
  ValueString (UserModel.Password data) = EmptyString ->
  fst (GetUserByUsername c username h) = inr user ->
  exists err,
    UserResource.Read r req resp h
    = ({| Diagnostics :=
            seen
            ++ [error_diag "Client Error" "Unable to validate user password: %s"
                  [diag.op_err (fmt_Errorf_w "failed to create client: %w" [] err)]];
          State := State resp |},
       snd (GetUserByUsername c username h)).
Proof.
  intros Hclean Hclient seen data username Hempty Hfound.
  rewrite (user_Read_unfold r req resp h c Hclean Hclient). cbv zeta.
  fold data. fold username. rewrite Hempty.
  destruct (GetUserByUsername c username h) as [[err|user'] h1]; cbn [fst snd] in *;
    [discriminate|].
  destruct (NewClient_empty_credentials (Some (BaseURL c)) username EmptyString
              (or_intror eq_refl)) as (err & Herr).
  exists err. rewrite HasValidUserPassword_run, Herr.
  rewrite (AddError_clean _ _ _ _ Hclean). reflexivity.
Qed.

(** X15.  The user [Update] sends nothing but its lookup by the planned
    user name.  When the lookup gives [ErrNotFound] it removes the resource
    and adds no diagnostic; for every other error it adds an error and
    leaves the state as it was; when the user is found it stores the planned
    user name, the email and the ID of the user found and, as password, the
    password of the prior state when that is a known value, and the planned
    password otherwise. *)
Theorem user_Update_refreshes (r : UserResource.t)
    (req : resource.UpdateRequest UserModel.t)
    (resp : resource.Response UserModel.t) (h : list Request) (c : Client) :
  reads_cleanly (resource.Update_Plan req) resp ->
  UserResource.client r = Some c ->
  let seen := after_get (resource.Update_Plan req) resp in
  let plan := snd (Get (resource.Update_Plan req)) in
  let prior := snd (Get (resource.Update_State req)) in
  let looked := GetUserByUsername c (ValueString (UserModel.Username plan)) h in
  let out := UserResource.Update r req resp h in
  snd out = snd looked
  /\ (fst looked = inl ErrNotFound ->
      fst out = {| Diagnostics := seen; State := None |})
  /\ (forall err,
         fst looked = inl err -> err <> ErrNotFound ->
         fst out = {| Diagnostics :=
                        seen ++ [error_diag "Client Error" "Unable to read user: %s"
                                   [diag.op_err err]];
                      State := State resp |})
  /\ (forall user,
         fst looked = inr user ->
         fst out
         = {| Diagnostics := diag.Append seen (fst (Get (resource.Update_State req)));
              State :=
                Some {| UserModel.Username := UserModel.Username plan;
                        UserModel.Password :=
                          match UserModel.Password prior with
                          | StringValue password => StringValue password
                          | _ => UserModel.Password plan
                          end;
                        UserModel.Email := StringValue (UserData.Email user);
                        UserModel.Id :=
                          StringValue (LastPathSegment (UserData.Url user)) |} |}).
Proof.
  intros Hclean Hclient seen plan prior looked out.
  subst out looked seen plan prior. unfold reads_cleanly, after_get in *.
  unfold UserResource.Update.
  destruct (Get (resource.Update_Plan req)) as [diags plan]. cbn [fst snd] in *.
  rewrite Hclean, Hclient.
  destruct (GetUserByUsername c _ h) as [[err|user] h1]; cbn [fst snd].
  - destruct err; cbn [eq_ErrNotFound fst snd].
    1: { split; [reflexivity|]. split; [reflexivity|].
         split; [intros ? [= <-] Hne; contradiction|discriminate]. }
    all: split; [reflexivity|].
    all: split; [discriminate|].
    all: split; [|discriminate].
    all: intros ? [= <-] _; apply (AddError_clean _ _ _ _ Hclean).
  - destruct (Get (resource.Update_State req)) as [diags' prior]. cbn [fst snd].
    split; [reflexivity|]. split; [discriminate|]. split; [discriminate|].
    intros ? [= <-]. destruct (UserModel.Password prior); reflexivity.
Qed.

Lemma id_is_set (id : types.String) :
  negb (types.String_IsNull id) && negb (String.eqb (ValueString id) "")
  = negb (String.eqb (ValueString id) "").
Proof. destruct id; reflexivity. Qed.

(** X16.  With a stored [id] that is not empty, the user [Delete] only
    calls [DeleteUserById] with it: whatever the status of the answer, it
    adds no diagnostic, and it adds an error when the call gives one.  With
    a null or empty [id] it looks the user up by name first: for
    [ErrNotFound] it ends without diagnostic and without sending a DELETE,
    for every other error of the lookup it adds an error, and for a user
    found it calls [DeleteUserById] with the last path segment of the user's
    URL. *)
Theorem user_Delete_by_id_or_lookup (r : UserResource.t)
    (req : resource.DeleteRequest UserModel.t)
    (resp : resource.Response UserModel.t) (h : list Request) (c : Client) :
  reads_cleanly (resource.Delete_State req) resp ->
  UserResource.client r = Some c ->
  let seen := after_get (resource.Delete_State req) resp in
  let data := snd (Get (resource.Delete_State req)) in
  let id := ValueString (UserModel.Id data) in
  let looked := GetUserByUsername c (ValueString (UserModel.Username data)) h in
  let out := UserResource.Delete r req resp h in
  let failed err :=
    {| Diagnostics :=
         seen ++ [error_diag "Client Error" "Unable to delete user: %s" [diag.op_err err]];
       State := State resp |} in
  let done := {| Diagnostics := seen; State := State resp |} in
  (id <> EmptyString ->
   snd out = snd (DeleteUserById c id h)
   /\ (forall answer,
          answers c h "DELETE" (users_by_id_path id) None answer -> fst out = done)
   /\ (forall err, fst (DeleteUserById c id h) = inl err -> fst out = failed err))
  /\ (id = EmptyString ->
      (fst looked = inl ErrNotFound -> out = (done, snd looked))
      /\ (forall err,
             fst looked = inl err -> err <> ErrNotFound ->
             out = ({| Diagnostics :=
                         seen
                         ++ [error_diag "Client Error"
                               "Unable to locate user for deletion: %s" [diag.op_err err]];
                       State := State resp |}, snd looked))
      /\ (forall user,
             fst looked = inr user ->
             let deleted :=
               DeleteUserById c (LastPathSegment (UserData.Url user)) (snd looked) in
             snd out = snd deleted
             /\ (forall answer,
                    answers c (snd looked) "DELETE"
                      (users_by_id_path (LastPathSegment (UserData.Url user))) None answer ->
                    fst out = done)
             /\ (forall err, fst deleted = inl err -> fst out = failed err))).
Proof.
  intros Hclean Hclient seen data id looked out failed done.
  subst out looked failed done seen id data. unfold reads_cleanly, after_get in *.
  unfold UserResource.Delete.
  destruct (Get (resource.Delete_State req)) as [diags data]. cbn [fst snd] in *.
  rewrite Hclean, Hclient, id_is_set. split.
  - intros Hid. apply String.eqb_neq in Hid. rewrite Hid. cbn [negb].
    split; [destruct (DeleteUserById c _ h) as [[err|answer] h1]; reflexivity|].
    split.
    + intros answer Hans. apply DeleteUserById_answered in Hans.
      destruct (DeleteUserById c _ h) as [[err|answer'] h1]; [discriminate|reflexivity].
    + intros err Herr.
      destruct (DeleteUserById c _ h) as [[err'|answer'] h1]; cbn [fst] in *;
        [|discriminate].
      injection Herr as ->. apply (AddError_clean _ _ _ _ Hclean).
  - intros Hid. rewrite Hid. cbn [String.eqb negb].
    destruct (GetUserByUsername c _ h) as [[err|user] h1]; cbn [fst snd].
    + destruct err; cbn [eq_ErrNotFound].
      1: { split; [reflexivity|].
           split; [intros ? [= <-] Hne; contradiction|discriminate]. }
      all: split; [discriminate|].
      all: split; [|discriminate].
      all: intros ? [= <-] _; rewrite (AddError_clean _ _ _ _ Hclean); reflexivity.
    + split; [discriminate|]. split; [discriminate|]. intros ? [= <-].
      split; [destruct (DeleteUserById c _ h1) as [[err|answer] h2]; reflexivity|].
      split.
      * intros answer Hans. apply DeleteUserById_answered in Hans.
        destruct (DeleteUserById c _ h1) as [[err|answer'] h2];
          [discriminate|reflexivity].
      * intros err Herr.
        destruct (DeleteUserById c _ h1) as [[err'|answer'] h2]; cbn [fst] in *;
          [|discriminate].
        injection Herr as ->. apply (AddError_clean _ _ _ _ Hclean).
Qed.

Lemma database_id_is_unset (id : types.Int64) :
  types.Int64_IsNull id || (ValueInt64 id =? 0) = (ValueInt64 id =? 0).
Proof. destruct id; reflexivity. Qed.

(** X17.  The domain-access [Delete] on a state whose [database_id] is
    null or zero adds the error ["Invalid State"], sends nothing and leaves
    the state as it was.  Otherwise it only calls [DeleteDomainAccess] with
    the [database_id]: when the DELETE is answered, whatever the status, it
    removes the resource and adds no diagnostic; when the call gives an
    error, it adds an error and leaves the state as it was. *)
Theorem access_Delete_by_database_id (r : UserDomainAccessResource.t)
    (req : resource.DeleteRequest UserDomainAccessModel.t)
    (resp : resource.Response UserDomainAccessModel.t) (h : list Request)
    (c : Client) :
  reads_cleanly (resource.Delete_State req) resp ->
  UserDomainAccessResource.client r = Some c ->
  let seen := after_get (resource.Delete_State req) resp in
  let data := snd (Get (resource.Delete_State req)) in
  let id := ValueInt64 (UserDomainAccessModel.DatabaseID data) in
  let out := UserDomainAccessResource.Delete r req resp h in
  (id = 0 ->
   out = ({| Diagnostics :=
               seen ++ [error_diag "Invalid State" "Database ID is null or zero in state" []];
             State := State resp |}, h))
  /\ (id <> 0 ->
      snd out = snd (DeleteDomainAccess c id h)
      /\ (forall answer,
             answers c h "DELETE" (permission_by_id_path id) None answer ->
             fst out = {| Diagnostics := seen; State := None |})
      /\ (forall err,
             fst (DeleteDomainAccess c id h) = inl err ->
             fst out
             = {| Diagnostics :=
                    seen
                    ++ [error_diag "Client Error" "Unable to delete user domain access: %s"
                          [diag.op_err err]];
                  State := State resp |})).
Proof.
  intros Hclean Hclient seen data id out.
  subst out seen id data. unfold reads_cleanly, after_get in *.
  unfold UserDomainAccessResource.Delete.
  destruct (Get (resource.Delete_State req)) as [diags data]. cbn [fst snd] in *.
  rewrite Hclean, Hclient, database_id_is_unset. split.
  - intros ->. cbn [Z.eqb]. rewrite (AddError_clean _ _ _ _ Hclean). reflexivity.
  - intros Hid. apply Z.eqb_neq in Hid. rewrite Hid.
    split; [destruct (DeleteDomainAccess c _ h) as [[err|answer] h1]; reflexivity|].
    split.
    + intros answer Hans. apply DeleteDomainAccess_answered in Hans.
      destruct (DeleteDomainAccess c _ h) as [[err|answer'] h1];
        [discriminate|reflexivity].
    + intros err Herr.
      destruct (DeleteDomainAccess c _ h) as [[err'|answer'] h1]; cbn [fst] in *;
        [|discriminate].
      injection Herr as ->. apply (AddError_clean _ _ _ _ Hclean).
Qed.

(** X18.  The state that the domain-access import stores has a null
    [database_id]: a [Delete] on it, before any [Read] has filled the
    [database_id] in, adds the error ["Invalid State"], sends nothing and
    leaves the state as it was. *)
Theorem imported_access_state_is_not_deleted (id : string)
    (r0 : UserDomainAccessResource.t)
    (resp0 : resource.Response UserDomainAccessModel.t)
    (r : UserDomainAccessResource.t)
    (req : resource.DeleteRequest UserDomainAccessModel.t)
    (resp : resource.Response UserDomainAccessModel.t) (h : list Request)
    (c : Client) :
  strings.count_byte ":" id = 2%nat ->
  State (UserDomainAccessResource.ImportState r0 {| resource.ID := id |} resp0)
  = Some (snd (Get (resource.Delete_State req))) ->
  reads_cleanly (resource.Delete_State req) resp ->
  UserDomainAccessResource.client r = Some c ->
  UserDomainAccessResource.Delete r req resp h
  = ({| Diagnostics :=
          after_get (resource.Delete_State req) resp
          ++ [error_diag "Invalid State" "Database ID is null or zero in state" []];
        State := State resp |}, h).
Proof.
  intros Hcolons Himported Hclean Hclient.
  unfold UserDomainAccessResource.ImportState in Himported. cbn [resource.ID] in Himported.
  rewrite Split_colon_length, Hcolons in Himported.
  cbn [Nat.eqb negb State_Set State] in Himported. injection Himported as Himported.
  unfold reads_cleanly, after_get in *. unfold UserDomainAccessResource.Delete.
  destruct (Get (resource.Delete_State req)) as [diags data]. cbn [fst snd] in *.
  rewrite Hclean, Hclient. subst data.
  cbn [UserDomainAccessModel.DatabaseID types.Int64_IsNull orb].
  rewrite (AddError_clean _ _ _ _ Hclean). reflexivity.
Qed.

(** X19.  On the state that the domain-access import stores for an ID
    of three parts without colon, a [Read] that finds the grant keeps
    [user_id], [domain] and the [id] as imported and takes [access_level]
    and [database_id] from the grant found: the access level of the import
    ID is not compared with the one on the service, and stays in [id]. *)
Theorem imported_access_state_is_read_back (user_id domain access_level : string)
    (r0 : UserDomainAccessResource.t)
    (resp0 : resource.Response UserDomainAccessModel.t)
    (r : UserDomainAccessResource.t)
    (req : resource.ReadRequest UserDomainAccessModel.t)
    (resp : resource.Response UserDomainAccessModel.t) (h : list Request)
    (c : Client) (found : DomainUserPermissionData.t) :
  strings.count_byte ":" user_id = O ->
  strings.count_byte ":" domain = O ->
  strings.count_byte ":" access_level = O ->
  let id := user_id +:+ ":" +:+ domain +:+ ":" +:+ access_level in
  State (UserDomainAccessResource.ImportState r0 {| resource.ID := id |} resp0)
  = Some (snd (Get (resource.Read_State req))) ->
  reads_cleanly (resource.Read_State req) resp ->
  UserDomainAccessResource.client r = Some c ->
  fst (GetDomainAccess c user_id domain h) = inr found ->
  UserDomainAccessResource.Read r req resp h
  = ({| Diagnostics := after_get (resource.Read_State req) resp;
        State :=
          Some {| UserDomainAccessModel.UserId := StringValue user_id;
                  UserDomainAccessModel.Domain := StringValue domain;
                  UserDomainAccessModel.AccessLevel :=
                    StringValue (DomainUserPermissionData.AccessLevel found);
                  UserDomainAccessModel.Id := StringValue id;
                  UserDomainAccessModel.DatabaseID :=
                    Int64Value (DomainUserPermissionData.ID found) |} |},
     snd (GetDomainAccess c user_id domain h)).
Proof.
  intros Hu Hd Ha id Himported Hclean Hclient Hfound.
  unfold UserDomainAccessResource.ImportState in Himported. cbn [resource.ID] in Himported.
  subst id. rewrite (Split_three _ _ _ Hu Hd Ha) in Himported.
  cbn [List.length Nat.eqb negb State_Set State List.nth] in Himported.
  injection Himported as Himported.
  unfold reads_cleanly, after_get in *. unfold UserDomainAccessResource.Read.
  destruct (Get (resource.Read_State req)) as [diags data]. cbn [fst snd] in *.
  rewrite Hclean, Hclient. subst data.
  cbn [UserDomainAccessModel.UserId UserDomainAccessModel.Domain
       UserDomainAccessModel.Id types.String_IsNull orb ValueString].
  destruct (GetDomainAccess c user_id domain h) as [[err|found'] h1]; cbn [fst snd] in *;
    [discriminate|].
  injection Hfound as ->. reflexivity.
Qed.

(** X20.  When the lookup of the domain-access [Create] finds a grant
    for the planned user and domain, [Create] adds the error
    ["Domain Access Already Exists"], leaves the state as it was, and has
    sent nothing but the GETs of the lookup, at most two. *)
Theorem access_Create_refuses_existing (r : UserDomainAccessResource.t)
    (req : resource.CreateRequest UserDomainAccessModel.t)
    (resp : resource.Response UserDomainAccessModel.t) (h : list Request)
    (c : Client) (existing : DomainUserPermissionData.t) :
  reads_cleanly (resource.Create_Plan req) resp ->
  UserDomainAccessResource.client r = Some c ->
  let data := snd (Get (resource.Create_Plan req)) in
  let looked :=
    GetDomainAccess c (ValueString (UserDomainAccessModel.UserId data))
      (ValueString (UserDomainAccessModel.Domain data)) h in
  fst looked = inr existing ->
  UserDomainAccessResource.Create r req resp h
  = ({| Diagnostics :=
          after_get (resource.Create_Plan req) resp
          ++ [error_diag "Domain Access Already Exists"
                "A domain access permission already exists for this user and domain combination."
                []];
        State := State resp |}, snd looked)
  /\ exists sent,
       snd looked = h ++ sent
       /\ (List.length sent <= 2)%nat
       /\ Forall (built_with c ["GET"%string]) sent.
Proof.
  intros Hclean Hclient data looked Hfound. subst looked. split.
  - rewrite (access_Create_unfold r req resp h c Hclean Hclient). cbv zeta. fold data.
    destruct (GetDomainAccess c _ _ h) as [[err|existing'] h1]; cbn [fst snd] in *;
      [discriminate|].
    rewrite (AddError_clean _ _ _ _ Hclean). reflexivity.
  - apply GetDomainAccess_sends.
Qed.

(** A reconciler call whose guard fails: the two tests it starts with. *)
Ltac guarded :=
  let Hguard := fresh "Hguard" in
  let Herr := fresh "Herr" in
  intros ? Hguard;
  unfold refused, guard_fails, after_get in *;
  unfold UserResource.Create, UserResource.Read, UserResource.Update,
    UserResource.Delete, UserDomainAccessResource.Create,
    UserDomainAccessResource.Read, UserDomainAccessResource.Update,
    UserDomainAccessResource.Delete;
  destruct (Get _) as [? ?]; cbn [fst] in Hguard;
  destruct (diag.HasError (Diagnostics (Append _ _))) eqn:Herr;
  [ cbn [fst snd]; auto
  | destruct Hguard as [->|Hguard]; [|discriminate Hguard];
    cbn [fst snd]; split; [reflexivity|];
    split; [apply AddError_spec|reflexivity] ].

(** X21.  Each of [Create], [Read], [Update] and [Delete], of the user
    reconciler and of the domain-access reconciler, when there is no client
    or when reading the plan or state left an error, sends nothing, leaves
    an error among the diagnostics and leaves the state as it was. *)
Theorem calls_are_guarded (h : list Request) :
  (forall (r : UserResource.t) resp,
      (forall req, guard_fails (UserResource.client r) (resource.Create_Plan req) resp ->
                   refused resp h (UserResource.Create r req resp h))
      /\ (forall req, guard_fails (UserResource.client r) (resource.Read_State req) resp ->
                      refused resp h (UserResource.Read r req resp h))
      /\ (forall req, guard_fails (UserResource.client r) (resource.Update_Plan req) resp ->
                      refused resp h (UserResource.Update r req resp h))
      /\ (forall req, guard_fails (UserResource.client r) (resource.Delete_State req) resp ->
                      refused resp h (UserResource.Delete r req resp h)))
  /\ (forall (r : UserDomainAccessResource.t) resp,
         (forall req,
             guard_fails (UserDomainAccessResource.client r) (resource.Create_Plan req) resp ->
             refused resp h (UserDomainAccessResource.Create r req resp h))
         /\ (forall req,
                guard_fails (UserDomainAccessResource.client r) (resource.Read_State req) resp ->
                refused resp h (UserDomainAccessResource.Read r req resp h))
         /\ (forall req,
                guard_fails (UserDomainAccessResource.client r) (resource.Update_Plan req) resp ->
                refused resp h (UserDomainAccessResource.Update r req resp h))
         /\ (forall req,
                guard_fails (UserDomainAccessResource.client r) (resource.Delete_State req) resp ->
                refused resp h (UserDomainAccessResource.Delete r req resp h))).
Proof.
  split; intros r resp; (split; [|split; [|split]]); guarded.
Qed.

End reconciler_calls.

(** *** On the small service *)

(** The refresh that follows the invalidation of the password: the first
    [Read] meets a stale password and stores a null one, on which the
    second [Read] fails. *)
Lemma user_Read_needs_stored_password_witness :
  let first :=
    UserResource.Read (stdlib := demo.stdlib) (codec := demo.codec)
      (remote := demo.service demo.routes) demo.user_resource
      (resource.mkReadRequest (resource.mkSource ([], demo.user_model "alice" "stale")))
      demo.nothing [] in
  exists m,
    State (fst first) = Some m
    /\ UserModel.Password m = StringNull
    /\ diag.HasError
         (Diagnostics
            (fst (UserResource.Read (stdlib := demo.stdlib) (codec := demo.codec)
                    (remote := demo.service demo.routes) demo.user_resource
                    (resource.mkReadRequest (resource.mkSource ([], m)))
                    demo.nothing (snd first)))) = true.
Proof.
  intros first.
  exists {| UserModel.Username := StringValue "alice";
            UserModel.Password := StringNull;
            UserModel.Email := StringValue "alice@example.com";
            UserModel.Id := StringValue "7" |}.
  split; [vm_compute; reflexivity|]. split; [reflexivity|].
  destruct (user_Read_needs_stored_password (stdlib := demo.stdlib)
              (codec := demo.codec) (remote := demo.service demo.routes)
              demo.user_resource
              (resource.mkReadRequest
                 (resource.mkSource
                    ([], {| UserModel.Username := StringValue "alice";
                            UserModel.Password := StringNull;
                            UserModel.Email := StringValue "alice@example.com";
                            UserModel.Id := StringValue "7" |})))
              demo.nothing (snd first) demo.admin demo.alice
              eq_refl eq_refl eq_refl eq_refl) as (err & ->).
  reflexivity.
Defined.

(** The planned password gives way to the stored one. *)
Lemma user_Update_refreshes_witness :
  State (fst (UserResource.Update (stdlib := demo.stdlib) (codec := demo.codec)
                (remote := demo.service demo.routes) demo.user_resource
                (resource.mkUpdateRequest
                   (resource.mkSource ([], demo.user_model "alice" "planned"))
                   (resource.mkSource ([], demo.user_model "alice" "s3cret")))
                demo.nothing []))
  = Some {| UserModel.Username := StringValue "alice";
            UserModel.Password := StringValue "s3cret";
            UserModel.Email := StringValue "alice@example.com";
            UserModel.Id := StringValue "7" |}.
Proof.
  destruct (user_Update_refreshes (stdlib := demo.stdlib) (codec := demo.codec)
              (remote := demo.service demo.routes) demo.user_resource
              (resource.mkUpdateRequest
                 (resource.mkSource ([], demo.user_model "alice" "planned"))
                 (resource.mkSource ([], demo.user_model "alice" "s3cret")))
              demo.nothing [] demo.admin eq_refl eq_refl) as (_ & _ & _ & Hfound).
  rewrite (Hfound demo.alice eq_refl). reflexivity.
Defined.

(** The service has no route for the DELETE of the user 7 and answers 404:
    the user [Delete] reports nothing. *)
Lemma user_Delete_by_id_or_lookup_witness :
  fst (UserResource.Delete (stdlib := demo.stdlib) (codec := demo.codec)
         (remote := demo.service demo.routes) demo.user_resource
         (resource.mkDeleteRequest
            (resource.mkSource ([], demo.user_model "alice" "s3cret")))
         demo.nothing [])
  = {| Diagnostics := []; State := None |}.
Proof.
  destruct (user_Delete_by_id_or_lookup (stdlib := demo.stdlib) (codec := demo.codec)
              (remote := demo.service demo.routes) demo.user_resource
              (resource.mkDeleteRequest
                 (resource.mkSource ([], demo.user_model "alice" "s3cret")))
              demo.nothing [] demo.admin eq_refl eq_refl) as (Hid & _).
  destruct Hid as (_ & Hanswered & _); [discriminate|].
  apply (Hanswered {| StatusCode := 404; Body := inr EmptyString |}).
  eexists. split; reflexivity.
Defined.

(** The permission 11 is deleted and the resource removed. *)
Lemma access_Delete_by_database_id_witness :
  fst (UserDomainAccessResource.Delete (stdlib := demo.stdlib)
         (remote := demo.service demo.routes) demo.access_resource
         (resource.mkDeleteRequest
            (resource.mkSource ([], demo.stored "domain" (Int64Value 11))))
         {| Diagnostics := []; State := Some (demo.stored "domain" (Int64Value 11)) |} [])
  = {| Diagnostics := []; State := None |}.
Proof.
  destruct (access_Delete_by_database_id (stdlib := demo.stdlib)
              (remote := demo.service demo.routes) demo.access_resource
              (resource.mkDeleteRequest
                 (resource.mkSource ([], demo.stored "domain" (Int64Value 11))))
              {| Diagnostics := [];
                 State := Some (demo.stored "domain" (Int64Value 11)) |}
              [] demo.admin eq_refl eq_refl) as (_ & Hid).
  destruct Hid as (_ & Hanswered & _); [discriminate|].
  apply (Hanswered {| StatusCode := 204; Body := inr EmptyString |}).
  eexists. split; reflexivity.
Defined.

(** The state of the import of ["7:example.com:domain"], deleted before any
    [Read]. *)
Lemma imported_access_state_is_not_deleted_witness :
  diag.HasError
    (Diagnostics
       (fst (UserDomainAccessResource.Delete (stdlib := demo.stdlib)
               (remote := demo.service demo.routes_granted)
               demo.access_resource
               (resource.mkDeleteRequest
                  (resource.mkSource ([], demo.stored "domain" Int64Null)))
               demo.nothing []))) = true.
Proof.
  rewrite (imported_access_state_is_not_deleted (stdlib := demo.stdlib)
             (remote := demo.service demo.routes_granted)
             "7:example.com:domain" demo.access_resource demo.nothing
             demo.access_resource
             (resource.mkDeleteRequest
                (resource.mkSource ([], demo.stored "domain" Int64Null)))
             demo.nothing [] demo.admin eq_refl eq_refl eq_refl eq_refl).
  reflexivity.
Defined.

(** The import of ["7:example.com:subdomain"], read back from a service
    where the grant is for the domain itself. *)
Lemma imported_access_state_is_read_back_witness :
  State (fst (UserDomainAccessResource.Read (stdlib := demo.stdlib)
                (codec := demo.codec) (remote := demo.service demo.routes_granted)
                demo.access_resource
                (resource.mkReadRequest
                   (resource.mkSource ([], demo.stored "subdomain" Int64Null)))
                demo.nothing []))
  = Some {| UserDomainAccessModel.UserId := StringValue "7";
            UserDomainAccessModel.Domain := StringValue "example.com";
            UserDomainAccessModel.AccessLevel := StringValue "domain";
            UserDomainAccessModel.Id := StringValue "7:example.com:subdomain";
            UserDomainAccessModel.DatabaseID := Int64Value 11 |}.
Proof.
  rewrite (imported_access_state_is_read_back (stdlib := demo.stdlib)
             (codec := demo.codec) (remote := demo.service demo.routes_granted)
             "7" "example.com" "subdomain" demo.access_resource demo.nothing
             demo.access_resource
             (resource.mkReadRequest
                (resource.mkSource ([], demo.stored "subdomain" Int64Null)))
             demo.nothing [] demo.admin demo.grant
             eq_refl eq_refl eq_refl eq_refl eq_refl eq_refl eq_refl).
  reflexivity.
Defined.

(** A second grant for alice on example.com is refused. *)
Lemma access_Create_refuses_existing_witness :
  fst (UserDomainAccessResource.Create (stdlib := demo.stdlib) (codec := demo.codec)
         (remote := demo.service demo.routes_granted) demo.access_resource
         (resource.mkCreateRequest (resource.mkSource ([], demo.planned "subdomain")))
         demo.nothing [])
  = {| Diagnostics :=
         [error_diag "Domain Access Already Exists"
            "A domain access permission already exists for this user and domain combination."
            []];
       State := None |}.
Proof.
  destruct (access_Create_refuses_existing (stdlib := demo.stdlib) (codec := demo.codec)
              (remote := demo.service demo.routes_granted) demo.access_resource
              (resource.mkCreateRequest (resource.mkSource ([], demo.planned "subdomain")))
              demo.nothing [] demo.admin demo.grant eq_refl eq_refl eq_refl)
    as (-> & _).
  reflexivity.
Defined.

(** The reading of the prior state reports an error, and the user [Update]
    stores its result all the same. *)
Example user_Update_stores_despite_state_error :
  let broken := diag.mk diag.SeverityError "Value Conversion Error" ("", []) in
  let out :=
    fst (UserResource.Update (stdlib := demo.stdlib) (codec := demo.codec)
           (remote := demo.service demo.routes) demo.user_resource
           (resource.mkUpdateRequest
              (resource.mkSource ([], demo.user_model "alice" "planned"))
              (resource.mkSource ([broken], demo.user_model "alice" "s3cret")))
           demo.nothing []) in
  diag.HasError (Diagnostics out) = true /\ State out <> None.
Proof. vm_compute. split; [reflexivity|discriminate]. Qed.

(** The DELETE of a permission that the service does not know is answered
    with 404, and reported as done. *)
Example access_Delete_ignores_status :
  UserDomainAccessResource.Delete (stdlib := demo.stdlib)
    (remote := demo.service demo.routes) demo.access_resource
    (resource.mkDeleteRequest
       (resource.mkSource ([], demo.stored "domain" (Int64Value 99))))
    {| Diagnostics := []; State := Some (demo.stored "domain" (Int64Value 99)) |} []
  = ({| Diagnostics := []; State := None |},
     [{| Method := "DELETE";
         URL := demo.https_url "lego.test" "/api/v1/domain-user-permissions/99/";
         Header := <["User-Agent" := "terraform-provider-legocharm"%string]>
                     (<["Authorization" := "Basic admin:hunter2"%string]> ∅);
         ReqBody := None |}]).
Proof. vm_compute. reflexivity. Qed.

(** ** Creating and refreshing a user *)

Section user_paths.
Context {stdlib : GoStdlib} {codec : Codec} {remote : Remote}.

(** X22.  When its lookup gives [ErrNotFound], the user [Create] calls
    [CreateUser] with the planned user name, password and email and no
    group.  When that call fails, it adds an error and leaves the state as
    it was.  Otherwise it looks the user up again: when this second lookup
    fails, it adds the error ["User created but failed to read back"] and
    leaves the state as it was, although the user was created; when it
    succeeds, [Create] stores the planned user name, the planned password as
    a known value, and the email and the ID of the user read back, the
    answer to the POST being used for nothing. *)
Theorem user_Create_creates (r : UserResource.t)
    (req : resource.CreateRequest UserModel.t)
    (resp : resource.Response UserModel.t) (h : list Request) (c : Client) :
  reads_cleanly (resource.Create_Plan req) resp ->
  UserResource.client r = Some c ->
  let seen := after_get (resource.Create_Plan req) resp in
  let data := snd (Get (resource.Create_Plan req)) in
  let username := ValueString (UserModel.Username data) in
  let looked := GetUserByUsername c username h in
  fst looked = inl ErrNotFound ->
  let created :=
    CreateUser c
      {| UserCreateData.Username := username;
         UserCreateData.Password := ValueString (UserModel.Password data);
         UserCreateData.Email := ValueString (UserModel.Email data);
         UserCreateData.Groups := [] |} (snd looked) in
  let back := GetUserByUsername c username (snd created) in
  let out := UserResource.Create r req resp h in
  (forall err,
      fst created = inl err ->
      out = ({| Diagnostics :=
                  seen ++ [error_diag "Client Error" "Unable to create user, got error: %s"
                             [diag.op_err err]];
                State := State resp |}, snd created))
  /\ (forall made,
         fst created = inr made ->
         snd out = snd back
         /\ (forall err,
                fst back = inl err ->
                fst out
                = {| Diagnostics :=
                       seen
                       ++ [error_diag "Client Error"
                             "User created but failed to read back: %s" [diag.op_err err]];
                     State := State resp |})
         /\ (forall user,
                fst back = inr user ->
                fst out
                = {| Diagnostics := seen;
                     State :=
                       Some {| UserModel.Username := UserModel.Username data;
                               UserModel.Password :=
                                 StringValue (ValueString (UserModel.Password data));
                               UserModel.Email := StringValue (UserData.Email user);
                               UserModel.Id :=
                                 StringValue (LastPathSegment (UserData.Url user)) |} |})).
Proof.
  intros Hclean Hclient seen data username looked Hnone created back out.
  subst out back created looked.
  rewrite (user_Create_unfold r req resp h c Hclean Hclient). cbv zeta.
  fold data. fold username.
  destruct (GetUserByUsername c username h) as [[err|existing] h1]; cbn [fst snd] in *;
    [|discriminate].
  injection Hnone as ->. cbn [eq_ErrNotFound negb].
  destruct (CreateUser c _ h1) as [[err|made] h2]; cbn [fst snd].
  - split; [|discriminate]. intros ? [= <-].
    rewrite (AddError_clean _ _ _ _ Hclean). reflexivity.
  - split; [discriminate|]. intros _ _.
    destruct (GetUserByUsername c username h2) as [[err|user] h3]; cbn [fst snd].
    + split; [reflexivity|]. split; [|discriminate]. intros ? [= <-].
      apply (AddError_clean _ _ _ _ Hclean).
    + split; [reflexivity|]. split; [discriminate|]. intros ? [= <-]. reflexivity.
Qed.

(** X23.  When the user is found and the probe says that the stored
    password is valid, the user [Read] stores the user name and the password
    as they were, the email and the ID of the user found, and adds no
    diagnostic. *)
Theorem user_Read_refreshes (r : UserResource.t)
    (req : resource.ReadRequest UserModel.t)
    (resp : resource.Response UserModel.t) (h : list Request) (c : Client)
    (user : UserData.t) :
  reads_cleanly (resource.Read_State req) resp ->
  UserResource.client r = Some c ->
  let data := snd (Get (resource.Read_State req)) in
  let username := ValueString (UserModel.Username data) in
  let looked := GetUserByUsername c username h in
  fst looked = inr user ->
  let probe :=
    HasValidUserPassword c username (ValueString (UserModel.Password data))
      (snd looked) in
  fst probe = inr true ->
  UserResource.Read r req resp h
  = ({| Diagnostics := after_get (resource.Read_State req) resp;
        State :=
          Some {| UserModel.Username := UserModel.Username data;
                  UserModel.Password := UserModel.Password data;
                  UserModel.Email := StringValue (UserData.Email user);
                  UserModel.Id := StringValue (LastPathSegment (UserData.Url user)) |} |},
     snd probe).
Proof.
  intros Hclean Hclient data username looked Hfound probe Hvalid.
  subst probe looked.
  rewrite (user_Read_unfold r req resp h c Hclean Hclient). cbv zeta.
  fold data. fold username.
  destruct (GetUserByUsername c username h) as [[err|user'] h1]; cbn [fst snd] in *;
    [discriminate|].
  injection Hfound as ->.
  destruct (HasValidUserPassword c username _ h1) as [[err|valid] h2]; cbn [fst snd] in *;
    [discriminate|].
  injection Hvalid as ->. reflexivity.
Qed.

End user_paths.

(** ** The arguments and the timeout of [NewClient] *)

Section client_arguments.
Context {stdlib : GoStdlib} {remote : Remote}.

Lemma NewClient_with_timeout address username password c :
  NewClient address username password = inr c ->
  client_timeout = inr (Timeout (HTTPClient c)).
Proof.
  unfold NewClient.
  destruct address as [[|a0 addr]|]; try discriminate.
  destruct username as [[|u0 user]|]; try discriminate.
  destruct password as [[|p0 pass]|]; try discriminate.
  cbv zeta.
  match goal with
  | |- context [match ?checked with inl err => inl err | inr u => _ end] =>
      destruct checked as [err|u]; [discriminate|]
  end.
  destruct client_timeout as [err|timeout]; [discriminate|].
  intros [= <-]. reflexivity.
Qed.

Lemma wrap64_in_range (n : Z) : - 2 ^ 63 <= n < 2 ^ 63 -> wrap64 n = n.
Proof.
  intros Hn. unfold wrap64.
  rewrite Z.mod_small by lia. lia.
Qed.

(** X24.  The timeout of a client that [NewClient] returns is 120
    seconds when [LEGOCHARM_API_TIMEOUT] is empty, the duration it denotes
    when it parses as a duration, and otherwise, when it parses as an
    integer, that number of seconds in nanoseconds wrapped to 64 bits, which
    is the number of seconds itself between -9223372036 and 9223372036.
    When the variable is set to a text that parses neither way, [NewClient]
    returns no client whatever its arguments, and [HasValidUserPassword]
    fails without sending anything. *)
Theorem NewClient_timeout :
  let v := os_Getenv "LEGOCHARM_API_TIMEOUT" in
  (forall address username password c,
      NewClient address username password = inr c ->
      let timeout := Timeout (HTTPClient c) in
      (v = EmptyString -> timeout = 120 * Second)
      /\ (v <> EmptyString ->
          forall d, time_ParseDuration v = inr d -> timeout = d)
      /\ (v <> EmptyString ->
          forall text seconds,
            time_ParseDuration v = inl text -> strconv_Atoi v = inr seconds ->
            timeout = wrap64 (seconds * Second)
            /\ (- 9223372036 <= seconds <= 9223372036 -> timeout = seconds * Second)))
  /\ (v <> EmptyString ->
      forall text text',
        time_ParseDuration v = inl text -> strconv_Atoi v = inl text' ->
        (forall address username password,
            exists err, NewClient address username password = inl err)
        /\ (forall c username password h,
               exists err,
                 HasValidUserPassword c username password h
                 = (inl (fmt_Errorf_w "failed to create client: %w" [] err), h))).
Proof.
  intros v. split.
  - intros address username password c Hc timeout. apply NewClient_with_timeout in Hc.
    fold timeout in Hc. unfold client_timeout in Hc. fold v in Hc. cbv zeta in Hc.
    split; [|split].
    + intros Hv. rewrite Hv in Hc. cbn [String.eqb] in Hc. congruence.
    + intros Hv d Hd. apply String.eqb_neq in Hv. rewrite Hv, Hd in Hc. congruence.
    + intros Hv text seconds Hd Hs. apply String.eqb_neq in Hv.
      rewrite Hv, Hd, Hs in Hc. injection Hc as Hc.
      split; [congruence|]. intros Hrange. rewrite <- Hc.
      apply wrap64_in_range. unfold Second. lia.
  - intros Hv text text' Hd Hs.
    assert (forall address username password,
               exists err, NewClient address username password = inl err) as Hfails.
    { intros address username password.
      destruct (NewClient address username password) as [err|c] eqn:Hc; [eauto|].
      apply NewClient_with_timeout in Hc. unfold client_timeout in Hc.
      fold v in Hc. cbv zeta in Hc. apply String.eqb_neq in Hv.
      rewrite Hv, Hd, Hs in Hc. discriminate Hc. }
    split; [exact Hfails|]. intros c username password h.
    destruct (Hfails (Some (BaseURL c)) (Some username) (Some password)) as (err & Herr).
    exists err. rewrite HasValidUserPassword_run, Herr. reflexivity.
Qed.

End client_arguments.

(** A number of seconds above 9223372036 wraps around to a negative
    timeout. *)
Example timeout_wraps_around :
  wrap64 (9223372037 * Second) = -9223372036709551616.
Proof. reflexivity. Qed.

(** The user bob is created, and the state is filled from what the service
    tells of the user when asked again. *)
Lemma user_Create_creates_witness :
  let req := resource.mkCreateRequest (resource.mkSource ([], demo.user_model "bob" "pw")) in
  fst (UserResource.Create (stdlib := demo.stdlib) (codec := demo.codec)
         (remote := demo.service_then demo.routes demo.routes_created)
         demo.user_resource req demo.nothing [])
  = {| Diagnostics := [];
       State := Some {| UserModel.Username := StringValue "bob";
                        UserModel.Password := StringValue "pw";
                        UserModel.Email := StringValue "alice@example.com";
                        UserModel.Id := StringValue "7" |} |}.
Proof.
  intros req.
  destruct (user_Create_creates (stdlib := demo.stdlib) (codec := demo.codec)
              (remote := demo.service_then demo.routes demo.routes_created)
              demo.user_resource req demo.nothing [] demo.admin
              eq_refl eq_refl eq_refl) as (_ & Hmade).
  destruct (Hmade demo.alice) as (_ & _ & Hback); [vm_compute; reflexivity|].
  rewrite (Hback demo.alice); [reflexivity|vm_compute; reflexivity].
Defined.

(** The stored password of alice is still good. *)
Lemma user_Read_refreshes_witness :
  let req :=
    resource.mkReadRequest (resource.mkSource ([], demo.user_model "alice" "s3cret")) in
  fst (UserResource.Read (stdlib := demo.stdlib) (codec := demo.codec)
         (remote := demo.service demo.routes) demo.user_resource req demo.nothing [])
  = {| Diagnostics := [];
       State := Some {| UserModel.Username := StringValue "alice";
                        UserModel.Password := StringValue "s3cret";
                        UserModel.Email := StringValue "alice@example.com";
                        UserModel.Id := StringValue "7" |} |}.
Proof.
  intros req.
  rewrite (user_Read_refreshes (stdlib := demo.stdlib) (codec := demo.codec)
             (remote := demo.service demo.routes) demo.user_resource req demo.nothing
             [] demo.admin demo.alice eq_refl eq_refl eq_refl eq_refl).
  reflexivity.
Defined.

(** ** The provider *)

Section provider_facts.
Context {stdlib : GoStdlib}.

Lemma provider_HasError_app (ds ds' : list legocharmProvider.Diagnostic) :
  legocharmProvider.HasError (ds ++ ds')
  = legocharmProvider.HasError ds || legocharmProvider.HasError ds'.
Proof. apply existsb_app. Qed.

Lemma provider_HasError_elem (ds : list legocharmProvider.Diagnostic)
    (d : legocharmProvider.Diagnostic) :
  d ∈ ds -> diag.is_error (legocharmProvider.diagnostic d) = true ->
  legocharmProvider.HasError ds = true.
Proof.
  intros Hin Herr. apply existsb_exists. exists d.
  split; [by apply list_elem_of_In|exact Herr].
Qed.

(** Appending one diagnostic: an error makes the collection erroneous,
    whether it was there already or not. *)
Lemma provider_Append_one (ds : list legocharmProvider.Diagnostic)
    (d : legocharmProvider.Diagnostic) :
  legocharmProvider.HasError (legocharmProvider.Append ds [d])
  = legocharmProvider.HasError ds || diag.is_error (legocharmProvider.diagnostic d).
Proof.
  cbn [legocharmProvider.Append].
  destruct (bool_decide_reflect (d ∈ ds)) as [Hin|_].
  - destruct (diag.is_error (legocharmProvider.diagnostic d)) eqn:Herr.
    + rewrite (provider_HasError_elem _ _ Hin Herr). reflexivity.
    + rewrite orb_false_r. reflexivity.
  - rewrite provider_HasError_app. cbn. rewrite orb_false_r. reflexivity.
Qed.

Lemma error_if_spec (b : bool) (attr summary detail : string)
    (resp : legocharmProvider.ConfigureResponse) :
  let resp' := legocharmProvider.error_if b attr summary detail resp in
  legocharmProvider.HasError (legocharmProvider.Diagnostics resp')
  = legocharmProvider.HasError (legocharmProvider.Diagnostics resp) || b
  /\ legocharmProvider.ResourceData resp' = legocharmProvider.ResourceData resp
  /\ legocharmProvider.DataSourceData resp' = legocharmProvider.DataSourceData resp
  /\ (b = false -> resp' = resp).
Proof.
  destruct b; cbn [legocharmProvider.error_if].
  - unfold legocharmProvider.AddAttributeError.
    cbn [legocharmProvider.Diagnostics legocharmProvider.ResourceData
         legocharmProvider.DataSourceData].
    rewrite provider_Append_one. cbn. rewrite !orb_true_r.
    repeat split. discriminate.
  - rewrite orb_false_r. repeat split.
Qed.

(** Three conditional errors in a row. *)
Lemma error_if_thrice (b1 b2 b3 : bool) (a1 s1 d1 a2 s2 d2 a3 s3 d3 : string)
    (resp : legocharmProvider.ConfigureResponse) :
  let resp' :=
    legocharmProvider.error_if b3 a3 s3 d3
      (legocharmProvider.error_if b2 a2 s2 d2
         (legocharmProvider.error_if b1 a1 s1 d1 resp)) in
  legocharmProvider.HasError (legocharmProvider.Diagnostics resp) = false ->
  legocharmProvider.HasError (legocharmProvider.Diagnostics resp') = b1 || b2 || b3
  /\ legocharmProvider.ResourceData resp' = legocharmProvider.ResourceData resp
  /\ legocharmProvider.DataSourceData resp' = legocharmProvider.DataSourceData resp
  /\ (b1 || b2 || b3 = false -> resp' = resp).
Proof.
  intros resp' Hclean. subst resp'.
  destruct (error_if_spec b1 a1 s1 d1 resp) as (H1 & R1 & D1 & E1).
  destruct (error_if_spec b2 a2 s2 d2 (legocharmProvider.error_if b1 a1 s1 d1 resp))
    as (H2 & R2 & D2 & E2).
  destruct (error_if_spec b3 a3 s3 d3
              (legocharmProvider.error_if b2 a2 s2 d2
                 (legocharmProvider.error_if b1 a1 s1 d1 resp)))
    as (H3 & R3 & D3 & E3).
  cbv zeta in *. rewrite H3, H2, H1, Hclean, R3, R2, R1, D3, D2, D1.
  repeat split. intros Hb.
  apply orb_false_iff in Hb as [Hb Hb3]. apply orb_false_iff in Hb as [Hb1 Hb2].
  rewrite (E3 Hb3), (E2 Hb2), (E1 Hb1). reflexivity.
Qed.

Lemma NewClient_not_empty address username password c :
  NewClient (Some address) (Some username) (Some password) = inr c ->
  String.eqb address "" || String.eqb username "" || String.eqb password "" = false.
Proof.
  unfold NewClient.
  destruct address; [discriminate|]. destruct username; [discriminate|].
  destruct password; [discriminate|]. reflexivity.
Qed.

(** What [Configure] gives, in terms of the values it hands to
    [NewClient]. *)
Lemma Configure_outcome (req : legocharmProvider.ConfigureRequest)
    (resp : legocharmProvider.ConfigureResponse) :
  let seen :=
    legocharmProvider.Append (legocharmProvider.Diagnostics resp)
      (fst (legocharmProvider.Config req)) in
  let config := snd (legocharmProvider.Config req) in
  let address :=
    legocharmProvider.effective "LEGOCHARM_ADDRESS" (legocharmProvider.Address config) in
  let username :=
    legocharmProvider.effective "LEGOCHARM_USERNAME" (legocharmProvider.Username config) in
  let password :=
    legocharmProvider.effective "LEGOCHARM_PASSWORD" (legocharmProvider.Password config) in
  let known :=
    negb (types.String_IsUnknown (legocharmProvider.Address config))
    && negb (types.String_IsUnknown (legocharmProvider.Username config))
    && negb (types.String_IsUnknown (legocharmProvider.Password config)) in
  let out := legocharmProvider.Configure req resp in
  legocharmProvider.HasError seen = false ->
  legocharmProvider.ResourceData resp = None ->
  legocharmProvider.DataSourceData resp = None ->
  (forall c,
      legocharmProvider.ResourceData out = Some c
      <-> known = true
          /\ NewClient (Some address) (Some username) (Some password) = inr c)
  /\ (forall c,
         legocharmProvider.ResourceData out = Some c ->
         out = {| legocharmProvider.Diagnostics := seen;
                  legocharmProvider.DataSourceData := Some c;
                  legocharmProvider.ResourceData := Some c |}
         /\ Username c = username /\ Password c = password)
  /\ (legocharmProvider.ResourceData out = None ->
      legocharmProvider.DataSourceData out = None
      /\ legocharmProvider.HasError (legocharmProvider.Diagnostics out) = true).
Proof.
  intros seen config address username password known out Hclean Hnone Hnone'.
  assert (forall c,
             NewClient (Some address) (Some username) (Some password) = inr c ->
             Username c = username /\ Password c = password) as Hcreds.
  { intros c Hc.
    destruct (NewClient_inr _ _ _ _ Hc) as (_ & _ & _ & _ & _ & [= Hu] & [= Hp] & _).
    auto. }
  subst out seen. unfold legocharmProvider.Configure.
  destruct (legocharmProvider.Config req) as [diags cfg]. cbn [fst snd] in *.
  subst config.
  cbn [legocharmProvider.Diagnostics legocharmProvider.DataSourceData
       legocharmProvider.ResourceData].
  rewrite Hclean.
  set (resp0 := {| legocharmProvider.Diagnostics :=
                     legocharmProvider.Append (legocharmProvider.Diagnostics resp) diags;
                   legocharmProvider.DataSourceData := legocharmProvider.DataSourceData resp;
                   legocharmProvider.ResourceData := legocharmProvider.ResourceData resp |}).
  match goal with
  | |- context [legocharmProvider.error_if ?b3 ?a3 ?s3 ?d3
                  (legocharmProvider.error_if ?b2 ?a2 ?s2 ?d2
                     (legocharmProvider.error_if ?b1 ?a1 ?s1 ?d1 resp0))] =>
      destruct (error_if_thrice b1 b2 b3 a1 s1 d1 a2 s2 d2 a3 s3 d3 resp0 Hclean)
        as (Herr & Hres & Hdata & Hsame)
  end.
  cbv zeta in Herr, Hres, Hdata, Hsame.
  assert (known = negb (types.String_IsUnknown (legocharmProvider.Address cfg)
                        || types.String_IsUnknown (legocharmProvider.Username cfg)
                        || types.String_IsUnknown (legocharmProvider.Password cfg)))
    as Hknown.
  { subst known. rewrite !negb_orb. reflexivity. }
  rewrite Herr.
  destruct (types.String_IsUnknown (legocharmProvider.Address cfg)
            || types.String_IsUnknown (legocharmProvider.Username cfg)
            || types.String_IsUnknown (legocharmProvider.Password cfg)) eqn:Hunknown.
  { rewrite Hres, Hdata. cbn [resp0 legocharmProvider.ResourceData
                               legocharmProvider.DataSourceData].
    rewrite Hnone, Hnone', Hknown. cbn [negb].
    split; [intros c; split; [discriminate|intros [Habs _]; discriminate Habs]|].
    split; [discriminate|]. intros _. split; [reflexivity|exact Herr]. }
  rewrite (Hsame eq_refl). clear Herr Hres Hdata Hsame.
  fold address username password.
  match goal with
  | |- context [legocharmProvider.error_if ?b3 ?a3 ?s3 ?d3
                  (legocharmProvider.error_if ?b2 ?a2 ?s2 ?d2
                     (legocharmProvider.error_if ?b1 ?a1 ?s1 ?d1 resp0))] =>
      destruct (error_if_thrice b1 b2 b3 a1 s1 d1 a2 s2 d2 a3 s3 d3 resp0 Hclean)
        as (Herr & Hres & Hdata & Hsame)
  end.
  cbv zeta in Herr, Hres, Hdata, Hsame. rewrite Herr.
  destruct (String.eqb address "" || String.eqb username "" || String.eqb password "")
    eqn:Hempty.
  { rewrite Hres, Hdata. cbn [resp0 legocharmProvider.ResourceData
                               legocharmProvider.DataSourceData].
    rewrite Hnone, Hnone'.
    split; [intros c; split; [discriminate|intros [_ Hc]]|].
    { apply NewClient_not_empty in Hc. rewrite Hc in Hempty. discriminate Hempty. }
    split; [discriminate|]. intros _. split; [reflexivity|exact Herr]. }
  rewrite (Hsame eq_refl). clear Herr Hres Hdata Hsame.
  destruct (NewClient (Some address) (Some username) (Some password)) as [err|client]
    eqn:Hc;
    cbn [resp0 legocharmProvider.ResourceData legocharmProvider.DataSourceData
         legocharmProvider.Diagnostics].
  - rewrite Hnone, Hnone'.
    split; [intros c; split; [discriminate|intros [_ Habs]; discriminate Habs]|].
    split; [discriminate|]. intros _. split; [reflexivity|].
    rewrite provider_Append_one. apply orb_true_r.
  - split.
    + intros c. split.
      * intros [= <-]. rewrite Hknown. auto.
      * intros [_ [= <-]]. reflexivity.
    + split; [|discriminate]. intros c [= <-]. split; [reflexivity|].
      apply Hcreds. reflexivity.
Qed.

Lemma effective_known (variable : string) (configured : types.String) :
  types.String_IsUnknown configured = false ->
  legocharmProvider.effective variable configured
  = match configured with
    | StringValue s => s
    | _ => os_Getenv variable
    end.
Proof. destruct configured; [reflexivity|discriminate|reflexivity]. Qed.

(** X25.  On a response without client and a configuration read without
    error, the provider's [Configure] hands out a client exactly when no
    configured value is unknown and [NewClient] accepts the address, the
    user name and the password, each of them the configured value when there
    is one and the environment variable when the configured value is null.
    That client is handed to data sources and resources alike, holds that
    user name and password, and comes with no new diagnostic.  When no
    client is handed out, the diagnostics hold an error; this is the case
    whenever one of the three values is empty, also when it is configured as
    the empty string while the environment variable is set. *)
Theorem Configure_gives_client (req : legocharmProvider.ConfigureRequest)
    (resp : legocharmProvider.ConfigureResponse) :
  let seen :=
    legocharmProvider.Append (legocharmProvider.Diagnostics resp)
      (fst (legocharmProvider.Config req)) in
  let config := snd (legocharmProvider.Config req) in
  let value variable configured :=
    match configured with
    | StringValue s => s
    | _ => os_Getenv variable
    end in
  let address := value "LEGOCHARM_ADDRESS"%string (legocharmProvider.Address config) in
  let username := value "LEGOCHARM_USERNAME"%string (legocharmProvider.Username config) in
  let password := value "LEGOCHARM_PASSWORD"%string (legocharmProvider.Password config) in
  let known :=
    negb (types.String_IsUnknown (legocharmProvider.Address config))
    && negb (types.String_IsUnknown (legocharmProvider.Username config))
    && negb (types.String_IsUnknown (legocharmProvider.Password config)) in
  let out := legocharmProvider.Configure req resp in
  legocharmProvider.HasError seen = false ->
  legocharmProvider.ResourceData resp = None ->
  legocharmProvider.DataSourceData resp = None ->
  (forall c,
      legocharmProvider.ResourceData out = Some c
      <-> known = true
          /\ NewClient (Some address) (Some username) (Some password) = inr c)
  /\ (forall c,
         legocharmProvider.ResourceData out = Some c ->
         out = {| legocharmProvider.Diagnostics := seen;
                  legocharmProvider.DataSourceData := Some c;
                  legocharmProvider.ResourceData := Some c |}
         /\ Username c = username /\ Password c = password)
  /\ (legocharmProvider.ResourceData out = None ->
      legocharmProvider.DataSourceData out = None
      /\ legocharmProvider.HasError (legocharmProvider.Diagnostics out) = true)
  /\ (address = EmptyString \/ username = EmptyString \/ password = EmptyString ->
      legocharmProvider.ResourceData out = None).
Proof.
  intros seen config value address username password known out Hclean Hnone Hnone'.
  destruct (Configure_outcome req resp Hclean Hnone Hnone') as (Hiff & Hsome & Hnot).
  fold config known out seen in Hiff, Hsome, Hnot.
  assert (known = true ->
          legocharmProvider.effective "LEGOCHARM_ADDRESS"
            (legocharmProvider.Address config) = address
          /\ legocharmProvider.effective "LEGOCHARM_USERNAME"
               (legocharmProvider.Username config) = username
          /\ legocharmProvider.effective "LEGOCHARM_PASSWORD"
               (legocharmProvider.Password config) = password) as Heff.
  { subst known. intros Hk.
    apply andb_true_iff in Hk as [Hk H3]. apply andb_true_iff in Hk as [H1 H2].
    apply negb_true_iff in H1, H2, H3.
    rewrite !effective_known by assumption. auto. }
  assert (forall c,
             legocharmProvider.ResourceData out = Some c
             <-> known = true
                 /\ NewClient (Some address) (Some username) (Some password) = inr c)
    as Hiff'.
  { intros c. rewrite Hiff. split; intros [Hk Hc]; (split; [exact Hk|]);
      destruct (Heff Hk) as (Ha & Hu & Hp); rewrite ?Ha, ?Hu, ?Hp in *; exact Hc. }
  split; [exact Hiff'|]. split; [|split; [exact Hnot|]].
  - intros c Hc. destruct (Hsome c Hc) as (Hout & Hu & Hp).
    apply Hiff' in Hc as [Hk _]. destruct (Heff Hk) as (_ & Hu' & Hp').
    rewrite <- Hu', <- Hp'. auto.
  - intros Hempty.
    destruct (legocharmProvider.ResourceData out) as [c|] eqn:Hout; [|reflexivity].
    destruct (proj1 (Hiff' c) eq_refl) as [_ Hc]. apply NewClient_not_empty in Hc.
    apply orb_false_iff in Hc as [Hc Hp]. apply orb_false_iff in Hc as [Ha Hu].
    destruct Hempty as [Habs|[Habs|Habs]]; rewrite Habs in *; discriminate.
Qed.

End provider_facts.

(** The address and the password are configured, the user name comes from
    the environment, where a password is set too. *)
Lemma Configure_gives_client_witness :
  let getenv variable :=
    if String.eqb variable "LEGOCHARM_USERNAME" then "admin"%string
    else if String.eqb variable "LEGOCHARM_PASSWORD" then "from-environment"%string
    else EmptyString in
  let config :=
    {| legocharmProvider.Address := StringValue "lego.test/";
       legocharmProvider.Username := StringNull;
       legocharmProvider.Password := StringValue "hunter2" |} in
  legocharmProvider.ResourceData
    (legocharmProvider.Configure (stdlib := demo.stdlib_with getenv)
       {| legocharmProvider.Config := ([], config) |}
       {| legocharmProvider.Diagnostics := [];
          legocharmProvider.DataSourceData := None;
          legocharmProvider.ResourceData := None |})
  = Some demo.admin.
Proof.
  intros getenv config.
  apply (Configure_gives_client (stdlib := demo.stdlib_with getenv)
           {| legocharmProvider.Config := ([], config) |}
           {| legocharmProvider.Diagnostics := [];
              legocharmProvider.DataSourceData := None;
              legocharmProvider.ResourceData := None |} eq_refl eq_refl eq_refl).
  split; reflexivity.
Defined.

(** ** Paths and errors of the client *)

Lemma TrimLeft_idempotent (s cutset : string) :
  strings.TrimLeft (strings.TrimLeft s cutset) cutset = strings.TrimLeft s cutset.
Proof.
  induction s as [|a s IH]; [reflexivity|].
  cbn [strings.TrimLeft]. destruct (strings.in_cutset a cutset) eqn:Ha; [exact IH|].
  cbn [strings.TrimLeft]. rewrite Ha. reflexivity.
Qed.

Section client_errors.
Context {stdlib : GoStdlib} {codec : Codec} {remote : Remote}.

Ltac run_io :=
  unfold mbind, IO_bind, wrapping, attempt, lift, Do, ReadAll, fail, ret, mret, IO_ret.

(** X26.  [NewRequest] depends on the path only through the path without
    its leading slashes: it builds the same request, or gives the same
    error, for a path, for that path behind one more slash and for that path
    without its leading slashes. *)
Theorem NewRequest_ignores_leading_slashes (c : Client) (method path : string)
    (body : option string) :
  NewRequest c method (strings.TrimLeft path "/") body = NewRequest c method path body
  /\ NewRequest c method ("/" +:+ path) body = NewRequest c method path body.
Proof.
  split.
  - unfold NewRequest. rewrite TrimLeft_idempotent. reflexivity.
  - reflexivity.
Qed.

Lemma NewRequest_never_not_found c method path body err :
  NewRequest c method path body = inl err -> errors_Is_ErrNotFound err = false.
Proof.
  intros Hreq. by destruct (NewRequest_inl _ _ _ _ _ Hreq) as [(m & ->)|(text & ->)].
Qed.

Lemma NewClient_never_not_found address username password err :
  NewClient address username password = inl err -> errors_Is_ErrNotFound err = false.
Proof.
  unfold NewClient, client_timeout, Errorf_parse.
  repeat case_match; simplify_eq/=; intros; simplify_eq; reflexivity.
Qed.

(** The error of a failed request phase, or the answer. *)
Lemma request_phase_fails {A} c method path body f1 f2 (k : Response -> IO A) h err :
  fst ((wrapping f1 (lift (NewRequest c method path body))
          ≫= λ req, wrapping f2 (Do c req) ≫= k) h) = inl err ->
  errors_Is_ErrNotFound err = false
  \/ exists req resp, fst (k resp (h ++ [req])) = inl err.
Proof.
  rewrite request_phase.
  destruct (NewRequest c method path body) as [e|req] eqn:Hreq.
  { intros [= <-]. left. cbn. by apply NewRequest_never_not_found in Hreq. }
  destruct (RoundTrip _ h req) as [text|resp]; [intros [= <-]; left; reflexivity|].
  intros Hk. right. eauto.
Qed.

Ltac tail_error H :=
  revert H; run_io; repeat case_match; simplify_eq/=; intros; simplify_eq; reflexivity.

Lemma GetUserById_unwrapped c userId : not_found_unwrapped (GetUserById c userId).
Proof.
  intros h err Herr. unfold GetUserById in Herr.
  apply request_phase_fails in Herr as [Hnever|(req & resp & Hk)].
  - rewrite Hnever. destruct err; try reflexivity. discriminate Hnever.
  - tail_error Hk.
Qed.

Lemma GetUserByUsername_unwrapped c username :
  not_found_unwrapped (GetUserByUsername c username).
Proof. intros h err. apply GetUserByUsername_no_wrap. Qed.

Lemma GetDomain_unwrapped c fqdn : not_found_unwrapped (GetDomain c fqdn).
Proof.
  intros h err Herr. unfold GetDomain in Herr.
  apply request_phase_fails in Herr as [Hnever|(req & resp & Hk)].
  - rewrite Hnever. destruct err; try reflexivity. discriminate Hnever.
  - tail_error Hk.
Qed.

Lemma DeleteUserById_never c id : never_not_found (DeleteUserById c id).
Proof.
  intros h err Herr. unfold DeleteUserById in Herr.
  apply request_phase_fails in Herr as [Hnever|(req & resp & Hk)]; [exact Hnever|].
  discriminate Hk.
Qed.

Lemma DeleteDomainAccess_never c id : never_not_found (DeleteDomainAccess c id).
Proof.
  intros h err Herr. unfold DeleteDomainAccess in Herr. cbv zeta in Herr.
  apply request_phase_fails in Herr as [Hnever|(req & resp & Hk)]; [exact Hnever|].
  discriminate Hk.
Qed.

(** A call that marshals, sends and decodes. *)
Lemma marshalled_never {A} (marshalled : result string) c method path f0 f1 f2
    (k : Response -> IO A) :
  (forall text, marshalled = inl text -> errors_Is_ErrNotFound text = false) ->
  (forall resp h err, fst (k resp h) = inl err -> errors_Is_ErrNotFound err = false) ->
  never_not_found
    (wrapping f0 (lift marshalled)
       ≫= λ b : string, wrapping f1 (lift (NewRequest c method path (Some b)))
       ≫= λ req, wrapping f2 (Do c req) ≫= k).
Proof.
  intros Hm Hk h err. rewrite bind_wrapping_run. unfold lift at 1.
  destruct marshalled as [e|b]; [intros [= <-]; cbn; by apply Hm|].
  cbv beta. intros Herr.
  apply request_phase_fails in Herr as [Hnever|(req & resp & Herr)]; [exact Hnever|].
  by apply Hk in Herr.
Qed.

Lemma CreateUser_never c user : never_not_found (CreateUser c user).
Proof.
  unfold CreateUser. apply marshalled_never.
  - intros text. destruct (Marshal user); intros [= <-]. reflexivity.
  - intros resp h err Herr. tail_error Herr.
Qed.

Lemma CreateDomain_never c domain : never_not_found (CreateDomain c domain).
Proof.
  unfold CreateDomain. apply marshalled_never.
  - intros text. destruct (Marshal domain); intros [= <-]. reflexivity.
  - intros resp h err Herr. tail_error Herr.
Qed.

Lemma post_access_never c access domainData :
  never_not_found (post_access c access domainData).
Proof.
  unfold post_access. cbv zeta. apply marshalled_never.
  - intros text. destruct (Marshal _); intros [= <-]. reflexivity.
  - intros resp h err Herr. tail_error Herr.
Qed.

Lemma CreateDomainAccess_never c access : never_not_found (CreateDomainAccess c access).
Proof.
  intros h err. rewrite CreateDomainAccess_run.
  pose proof (GetDomain_unwrapped c (DomainUserPermissionCreateData.Domain access) h)
    as Hlookup.
  destruct (GetDomain c _ h) as [[e|domainData] h1]; cbn [fst] in Hlookup.
  - specialize (Hlookup e eq_refl).
    destruct (eq_ErrNotFound e) eqn:He.
    + pose proof (CreateDomain_never c
                    {| DomainData.Fqdn := DomainUserPermissionCreateData.Domain access;
                       DomainData.ID := 0 |} h1) as Hcreate.
      destruct (CreateDomain c _ h1) as [[e'|newDomainData] h2]; cbn [fst] in Hcreate.
      * intros [= <-]. cbn. by apply Hcreate.
      * apply post_access_never.
    + intros [= <-]. cbn. exact Hlookup.
  - apply post_access_never.
Qed.

Lemma HasValidUserPassword_never c username password :
  never_not_found (HasValidUserPassword c username password).
Proof.
  intros h err. rewrite HasValidUserPassword_run.
  destruct (NewClient _ _ _) as [e|userClient] eqn:Hc.
  { intros [= <-]. cbn. by apply NewClient_never_not_found in Hc. }
  destruct (NewRequest userClient _ _ _) as [e|req] eqn:Hreq.
  { intros [= <-]. cbn. by apply NewRequest_never_not_found in Hreq. }
  destruct (RoundTrip _ h req) as [text|resp]; [intros [= <-]; reflexivity|].
  cbn [fst]. unfold verdict. repeat case_match; intros [= <-]; reflexivity.
Qed.

(** X27.  On the errors of [GetUserById], [GetUserByUsername] and
    [GetDomain], the tests [errors.Is(err, ErrNotFound)] and
    [err == ErrNotFound] agree: none of these errors wraps [ErrNotFound].
    No error of [CreateUser], [DeleteUserById], [HasValidUserPassword],
    [CreateDomain], [CreateDomainAccess] or [DeleteDomainAccess] is
    [ErrNotFound] or wraps it. *)
Theorem only_lookups_report_not_found (c : Client) :
  (forall userId, not_found_unwrapped (GetUserById c userId))
  /\ (forall username, not_found_unwrapped (GetUserByUsername c username))
  /\ (forall fqdn, not_found_unwrapped (GetDomain c fqdn))
  /\ (forall user, never_not_found (CreateUser c user))
  /\ (forall id, never_not_found (DeleteUserById c id))
  /\ (forall username password,
         never_not_found (HasValidUserPassword c username password))
  /\ (forall domain, never_not_found (CreateDomain c domain))
  /\ (forall access, never_not_found (CreateDomainAccess c access))
  /\ (forall id, never_not_found (DeleteDomainAccess c id)).
Proof.
  split; [exact (GetUserById_unwrapped c)|].
  split; [exact (GetUserByUsername_unwrapped c)|].
  split; [exact (GetDomain_unwrapped c)|].
  split; [exact (CreateUser_never c)|].
  split; [exact (DeleteUserById_never c)|].
  split; [exact (HasValidUserPassword_never c)|].
  split; [exact (CreateDomain_never c)|].
  split; [exact (CreateDomainAccess_never c)|].
  exact (DeleteDomainAccess_never c).
Qed.

End client_errors.

(** ** The earlier revision of the domain calls *)

Section earlier_calls.
Context {stdlib : GoStdlib} {codec : earlier.Codec} {remote : Remote}.

Lemma earlier_request_phase {A} (c : Client) (method path : string)
    (body : option string) (k : Response -> IO A) (h : list Request) :
  (lift (NewRequest c method path body) ≫= λ req, Do c req ≫= k) h
  = match NewRequest c method path body with
    | inl err => (inl err, h)
    | inr req =>
        match RoundTrip (HTTPClient c) h req with
        | inl text => (inl (lib_error text), h ++ [req])
        | inr resp => k resp (h ++ [req])
        end
    end.
Proof.
  rewrite bind_run. unfold lift.
  destruct (NewRequest c method path body) as [err|req]; [reflexivity|].
  rewrite bind_run. unfold Do.
  destruct (RoundTrip (HTTPClient c) h req); reflexivity.
Qed.

Lemma earlier_GetDomain_finds_nothing c fqdn h req :
  finds_no_domain c fqdn h req ->
  earlier.GetDomain c fqdn h = (inl ErrNotFound, h ++ [req]).
Proof.
  intros (Hreq & resp & Hrt & Hnone). unfold request_for, domains_path in Hreq.
  unfold earlier.GetDomain. rewrite earlier_request_phase, Hreq, Hrt.
  destruct (Z.eqb_spec (StatusCode resp) StatusNotFound) as [_|Hst]; [reflexivity|].
  destruct Hnone as [Habs|(body & Hbody & Hdec)]; [contradiction|].
  unfold earlier.ReadAll. rewrite Hbody, bind_run. cbn [ret mret IO_ret].
  rewrite Hdec. reflexivity.
Qed.

(** X28.  In the earlier revision of the client, when the lookup of the
    domain is answered with 404, or with a body that decodes as an empty
    array, [CreateDomainAccess] sends nothing but the GET of that lookup and
    fails with an error that wraps [ErrNotFound]: it creates neither the
    domain nor the permission. *)
Theorem earlier_CreateDomainAccess_needs_domain (c : Client)
    (access : DomainUserPermissionCreateData.t) (h : list Request) (req : Request) :
  finds_no_domain c (DomainUserPermissionCreateData.Domain access) h req ->
  let err := fmt_Errorf_w "unable to get domain data: %w" [] ErrNotFound in
  earlier.CreateDomainAccess c access h = (inl err, h ++ [req])
  /\ Method req = "GET"%string
  /\ errors_Is_ErrNotFound err = true.
Proof.
  intros Hnone err. split; [|split; [|reflexivity]].
  - unfold earlier.CreateDomainAccess. rewrite bind_wrapping_run.
    rewrite (earlier_GetDomain_finds_nothing _ _ _ _ Hnone). reflexivity.
  - destruct Hnone as (Hreq & _). apply NewRequest_inr in Hreq as (_ & Hm & _).
    exact Hm.
Qed.

End earlier_calls.

(** On the service that answers 404 to everything, the earlier
    [CreateDomainAccess] gives up after the lookup. *)
Lemma earlier_CreateDomainAccess_needs_domain_witness :
  exists req,
    earlier.CreateDomainAccess (stdlib := demo.stdlib) (codec := earlier.tags)
      (remote := demo.service []) demo.admin
      (DomainUserPermissionCreateData.mk "7" "new.example" "domain") []
    = (inl (fmt_Errorf_w "unable to get domain data: %w" [] ErrNotFound), [req]).
Proof.
  eexists.
  refine (proj1 (earlier_CreateDomainAccess_needs_domain (stdlib := demo.stdlib)
                   (codec := earlier.tags) (remote := demo.service []) demo.admin
                   (DomainUserPermissionCreateData.mk "7" "new.example" "domain")
                   [] _ _)).
  split; [reflexivity|].
  exists {| StatusCode := 404; Body := inr EmptyString |}.
  split; [reflexivity|]. left. reflexivity.
Defined.

(** The same request in the current revision creates the domain. *)
Example CreateDomainAccess_creates_where_earlier_fails :
  List.map Method
    (snd (CreateDomainAccess (stdlib := demo.stdlib) (codec := demo.codec)
            (remote := demo.service demo.routes) demo.admin
            (DomainUserPermissionCreateData.mk "7" "new.example" "domain") []))
  = ["GET"; "POST"; "POST"]%string.
Proof. vm_compute. reflexivity. Qed.

(** ** The first revision of the client *)

Section earliest_calls.
Context {stdlib : GoStdlib} {remote : Remote}.

(** X29.  In the first revision of the client, [DeleteUser] on a text
    that starts with ["http://"] or ["https://"] sends at most one request,
    a DELETE for the URL that [http.NewRequest] parses from that very text,
    wherever it points, with the basic authentication of the client; on any
    other text it sends at most one DELETE built by [NewRequest], for a URL
    parsed from a text below the client's base URL.  In both cases the
    answer to the request is returned as it is, whatever its status. *)
Theorem earliest_DeleteUser_follows_url (c : Client) (urlStr : string) :
  (strings.HasPrefix urlStr "http://" = true
   \/ strings.HasPrefix urlStr "https://" = true ->
   sends_within (deletes_at c urlStr) 1 (earliest.DeleteUser c urlStr))
  /\ (strings.HasPrefix urlStr "http://" = false ->
      strings.HasPrefix urlStr "https://" = false ->
      sends_within (built_with c ["DELETE"%string]) 1 (earliest.DeleteUser c urlStr))
  /\ (forall h req resp,
         snd (earliest.DeleteUser c urlStr h) = h ++ [req] ->
         RoundTrip (HTTPClient c) h req = inr resp ->
         fst (earliest.DeleteUser c urlStr h) = inr resp).
Proof.
  split; [|split].
  - intros Habs h. unfold earliest.DeleteUser.
    assert (strings.HasPrefix urlStr "http://" || strings.HasPrefix urlStr "https://"
            = true) as -> by (apply orb_true_iff; exact Habs).
    rewrite bind_run. unfold lift.
    destruct (http_NewRequest "DELETE" urlStr None) as [err|req] eqn:Hreq.
    { exists []. rewrite app_nil_r. split; [reflexivity|]. split; [cbn; lia|constructor]. }
    apply http_NewRequest_inr in Hreq as (Hurl & Hm & _).
    cbv zeta. unfold Do. cbn [snd]. eexists [_]. split; [reflexivity|].
    split; [reflexivity|]. constructor; [|constructor].
    unfold deletes_at, Header_Set, SetBasicAuth, basic_auth.
    cbn [Method URL Header]. split; [exact Hm|]. split; [exact Hurl|].
    rewrite lookup_insert_ne by discriminate. apply lookup_insert_eq.
  - intros Hhttp Hhttps h. unfold earliest.DeleteUser. rewrite Hhttp, Hhttps.
    cbn [orb]. rewrite bind_run. unfold lift.
    destruct (NewRequest c "DELETE" urlStr None) as [err|req] eqn:Hreq.
    { exists []. rewrite app_nil_r. split; [reflexivity|]. split; [cbn; lia|constructor]. }
    exists [req]. split; [reflexivity|]. split; [reflexivity|].
    constructor; [|constructor]. exists "DELETE"%string, urlStr, None.
    split; [apply list_elem_of_singleton; reflexivity|exact Hreq].
  - intros h req resp. unfold earliest.DeleteUser.
    destruct (strings.HasPrefix urlStr "http://" || strings.HasPrefix urlStr "https://").
    + rewrite bind_run. unfold lift.
      destruct (http_NewRequest "DELETE" urlStr None) as [err|req'].
      { cbn [snd]. intros Habs. apply (f_equal (@List.length _)) in Habs.
        rewrite length_app in Habs. cbn in Habs. lia. }
      cbv zeta. unfold Do. cbn [fst snd]. intros Hsent Hrt.
      apply app_inv_head in Hsent.
      apply (f_equal (fun l => List.hd req l)) in Hsent. cbn [List.hd] in Hsent.
      rewrite Hsent, Hrt. reflexivity.
    + rewrite bind_run. unfold lift.
      destruct (NewRequest c "DELETE" urlStr None) as [err|req'].
      { cbn [snd]. intros Habs. apply (f_equal (@List.length _)) in Habs.
        rewrite length_app in Habs. cbn in Habs. lia. }
      unfold Do. cbn [fst snd]. intros Hsent Hrt.
      apply app_inv_head in Hsent.
      apply (f_equal (fun l => List.hd req l)) in Hsent. cbn [List.hd] in Hsent.
      rewrite Hsent, Hrt. reflexivity.
Qed.

End earliest_calls.

(** The credentials of the client go to the host that the URL names. *)
Example earliest_DeleteUser_elsewhere :
  snd (earliest.DeleteUser (stdlib := demo.stdlib) (remote := demo.service [])
         demo.admin "https://elsewhere.test/api/v1/users/7/" [])
  = [{| Method := "DELETE";
        URL := demo.https_url "elsewhere.test" "/api/v1/users/7/";
        Header := <["User-Agent" := "terraform-provider-legocharm"%string]>
                    (<["Authorization" := "Basic admin:hunter2"%string]> ∅);
        ReqBody := None |}].
Proof. vm_compute. reflexivity. Qed.

(** ** The access level in an update *)

(** X30.  The domain-access [Update] puts no condition on [access_level]:
    once its guards have passed and the delete of the stored permission has
    given no error, when the service accepts the create, [Update] has POSTed
    a permission that carries the planned [access_level] as it is, and stores
    the planned [access_level] as it is, without any error. *)
Theorem access_Update_forwards_access_level {stdlib : GoStdlib} {codec : Codec}
    {remote : Remote} (r : UserDomainAccessResource.t)
    (req : resource.UpdateRequest UserDomainAccessModel.t)
    (resp : resource.Response UserDomainAccessModel.t) (h : list Request)
    (c : Client) (answer : Response) (permission : DomainUserPermissionData.t) :
  let seen := after_get (resource.Update_Plan req) resp in
  let data := snd (Get (resource.Update_Plan req)) in
  let id := ValueInt64 (UserDomainAccessModel.DatabaseID data) in
  let user_id := ValueString (UserDomainAccessModel.UserId data) in
  let domain := ValueString (UserDomainAccessModel.Domain data) in
  let access_level := ValueString (UserDomainAccessModel.AccessLevel data) in
  let access :=
    {| DomainUserPermissionCreateData.UserID := user_id;
       DomainUserPermissionCreateData.Domain := domain;
       DomainUserPermissionCreateData.AccessLevel := access_level |} in
  reads_cleanly (resource.Update_Plan req) resp ->
  UserDomainAccessResource.client r = Some c ->
  keys_set data ->
  database_id_set data ->
  fst (DeleteDomainAccess c id h) = inr answer ->
  let h1 := snd (DeleteDomainAccess c id h) in
  fst (CreateDomainAccess c access h1) = inr permission ->
  let out := UserDomainAccessResource.Update r req resp h in
  (exists before sent domainID b,
      snd out = (h1 ++ before) ++ [sent]
      /\ request_for c "POST" "/api/v1/domain-user-permissions/" (Some b) sent
      /\ Marshal
           {| DomainUserPermissionCreatePayloadData.UserID := user_id;
              DomainUserPermissionCreatePayloadData.Domain := domainID;
              DomainUserPermissionCreatePayloadData.AccessLevel := access_level |}
         = inr b)
  /\ fst out
     = {| Diagnostics := seen;
          State :=
            Some {| UserDomainAccessModel.UserId := UserDomainAccessModel.UserId data;
                    UserDomainAccessModel.Domain := UserDomainAccessModel.Domain data;
                    UserDomainAccessModel.AccessLevel :=
                      UserDomainAccessModel.AccessLevel data;
                    UserDomainAccessModel.Id :=
                      StringValue (user_id +:+ ":" +:+ domain +:+ ":" +:+ access_level);
                    UserDomainAccessModel.DatabaseID :=
                      Int64Value (DomainUserPermissionData.ID permission) |} |}.
Proof.
  intros seen data id user_id domain access_level access Hclean Hclient Hkeys Hid
    Hdeleted h1 Hcreated out.
  subst out h1. rewrite (access_Update_unfold r req resp h c Hclean Hclient Hkeys Hid).
  cbv zeta. fold data id.
  change (UserDomainAccessResource.createData data) with access.
  destruct (DeleteDomainAccess c id h) as [[err|answer'] h1];
    cbn [fst snd] in *; [discriminate|].
  destruct (CreateDomainAccess_success_posted c access h1 permission Hcreated)
    as (before & sent & domainID & Hsent & b & Hb & Hreq).
  destruct (CreateDomainAccess c access h1) as [[err|permission'] h2];
    cbn [fst snd] in *; [discriminate|].
  injection Hcreated as ->. split; [|reflexivity].
  exists before, sent, domainID, b. auto.
Qed.

(** The grant 11 of alice on example.com is replaced by one with the
    access level ["admin"]. *)
Lemma access_Update_forwards_access_level_witness :
  let req := resource.mkUpdateRequest
               (resource.mkSource ([], demo.stored "admin" (Int64Value 11)))
               (resource.mkSource ([], demo.stored "domain" (Int64Value 11))) in
  State (fst (UserDomainAccessResource.Update (stdlib := demo.stdlib)
                (codec := demo.codec) (remote := demo.service demo.routes)
                demo.access_resource req demo.nothing []))
  = Some (demo.stored "admin" (Int64Value 11)).
Proof.
  intros req.
  destruct (access_Update_forwards_access_level (stdlib := demo.stdlib)
              (codec := demo.codec) (remote := demo.service demo.routes)
              demo.access_resource req demo.nothing [] demo.admin
              {| StatusCode := 204; Body := inr EmptyString |} demo.grant)
    as (_ & Hstored).
  - reflexivity.
  - reflexivity.
  - split; reflexivity.
  - split; [reflexivity | discriminate].
  - vm_compute. reflexivity.
  - vm_compute. reflexivity.
  - rewrite Hstored. reflexivity.
Defined.
